(** * EnzymeMap: BRENDA parsing and the per-group mapping pipeline

    A shallow embedding of [enzymemap/helpers_brenda.py] and
    [enzymemap/enzymemap.py].

    Python [str] values are Rocq [string]s whose characters are read as code
    points 0..255.  Dictionaries are [gmap]s, Python sets are [gset]s, and
    data frames are lists of row records whose index is the position in the
    list.  The functions of [helpers_map], [helpers_rdkit] and
    [helpers_resolve_smiles] are not part of the two embedded files: the
    ones [make_initial] calls are variables of its section, the ones
    [map_group] calls are the fields of the record [Helpers].  A call that
    the source guards with [try] returns an [Outcome]; a dictionary look-up
    that can raise [KeyError] returns an [option]. *)

From Stdlib Require Import ZArith QArith Ascii String List Sorted Lia.
From stdpp Require Import gmap strings list fin_maps.

Local Open Scope stdpp_scope.

(** ** Python string primitives *)

Module Py.

Definition code (c : ascii) : N := N_of_ascii c.

Definition in_range (lo hi : N) (c : ascii) : bool :=
  ((lo <=? code c) && (code c <=? hi))%N.

(** [\d] of [re] on [str] patterns: the decimal digits. *)
Definition is_digit (c : ascii) : bool := in_range 48 57 c.

(** [str.isspace], which is what [str.strip()] removes. *)
Definition is_space (c : ascii) : bool :=
  in_range 9 13 c || in_range 28 32 c
  || (code c =? 133)%N || (code c =? 160)%N.

(** [\w] of [re] on [str] patterns: alphanumerics and the underscore. *)
Definition is_word (c : ascii) : bool :=
  in_range 48 57 c || in_range 65 90 c || (code c =? 95)%N
  || in_range 97 122 c
  || (code c =? 170)%N || in_range 178 179 c || (code c =? 181)%N
  || in_range 185 186 c || in_range 188 190 c
  || in_range 192 214 c || in_range 216 246 c || in_range 248 255 c.

Definition is_blank (c : ascii) : bool := (code c =? 32)%N.

Fixpoint all_chars (p : ascii -> bool) (s : string) : bool :=
  match s with
  | EmptyString => true
  | String c s' => p c && all_chars p s'
  end.

(** [s.startswith(p)] *)
Fixpoint startswith (p s : string) : bool :=
  match p, s with
  | EmptyString, _ => true
  | String a p', String b s' => if Ascii.eqb a b then startswith p' s' else false
  | String _ _, EmptyString => false
  end.

(** [p in s] *)
Fixpoint contains (p s : string) : bool :=
  startswith p s ||
  match s with
  | EmptyString => false
  | String _ s' => contains p s'
  end.

(** The scanners below walk the text once; [skip] counts the characters of
    an occurrence that has just been consumed and are still to be passed
    over, which is how the non-overlapping left-to-right scan of
    [str.replace], [str.count] and [re.split] proceeds.  The pattern is
    non-empty at every call site in the embedded code. *)

Fixpoint replace_from (old new : string) (skip : nat) (s : string) : string :=
  match s with
  | EmptyString => EmptyString
  | String c s' =>
      match skip with
      | S k => replace_from old new k s'
      | O =>
          if startswith old s
          then new +:+ replace_from old new (String.length old - 1) s'
          else String c (replace_from old new 0 s')
      end
  end.

(** [s.replace(old, new)] *)
Definition replace (old new s : string) : string := replace_from old new 0 s.

Fixpoint count_from (p : string) (skip : nat) (s : string) : nat :=
  match s with
  | EmptyString => 0
  | String c s' =>
      match skip with
      | S k => count_from p k s'
      | O =>
          if startswith p s
          then S (count_from p (String.length p - 1) s')
          else count_from p 0 s'
      end
  end.

(** [s.count(p)] *)
Definition count (p s : string) : nat := count_from p 0 s.

Fixpoint split_from (sep : string) (skip : nat) (s : string) : list string :=
  match s with
  | EmptyString => [EmptyString]
  | String c s' =>
      match skip with
      | S k => split_from sep k s'
      | O =>
          if startswith sep s
          then EmptyString :: split_from sep (String.length sep - 1) s'
          else match split_from sep 0 s' with
               | t :: ts => String c t :: ts
               | [] => [String c EmptyString]
               end
      end
  end.

(** [re.split(sep, s)] for a pattern that is a literal, non-empty text. *)
Definition split (sep s : string) : list string := split_from sep 0 s.

Fixpoint drop (n : nat) (s : string) : string :=
  match n, s with
  | O, _ => s
  | S k, String _ s' => drop k s'
  | S _, EmptyString => EmptyString
  end.

(** [re.split(sep, s, 1)]: the text before the first occurrence and, when
    there is one, the text after it.  The result has one or two components,
    so the third branch of the source ([raise Exception]) is never taken. *)
Fixpoint split_once (sep s : string) : string * option string :=
  if startswith sep s then (EmptyString, Some (drop (String.length sep) s))
  else match s with
       | EmptyString => (EmptyString, None)
       | String c s' =>
           let '(a, b) := split_once sep s' in (String c a, b)
       end.

Fixpoint lstrip (s : string) : string :=
  match s with
  | EmptyString => EmptyString
  | String c s' => if is_space c then lstrip s' else s
  end.

Fixpoint rstrip (s : string) : string :=
  match s with
  | EmptyString => EmptyString
  | String c s' =>
      match rstrip s' with
      | EmptyString => if is_space c then EmptyString else String c EmptyString
      | r => String c r
      end
  end.

(** [s.strip()] *)
Definition strip (s : string) : string := rstrip (lstrip s).

Fixpoint drop_last (s : string) : string :=
  match s with
  | EmptyString => EmptyString
  | String c EmptyString => EmptyString
  | String c s' => String c (drop_last s')
  end.

(** [s[1:-1]] *)
Definition slice_1_m1 (s : string) : string :=
  match s with
  | EmptyString => EmptyString
  | String _ s' => drop_last s'
  end.

(** [sep.join(parts)] *)
Fixpoint join (sep : string) (parts : list string) : string :=
  match parts with
  | [] => EmptyString
  | [p] => p
  | p :: ps => p +:+ sep +:+ join sep ps
  end.

(** The longest prefix of characters satisfying [p], and the rest. *)
Fixpoint span (p : ascii -> bool) (s : string) : string * string :=
  match s with
  | EmptyString => (EmptyString, EmptyString)
  | String c s' =>
      if p c then let '(a, b) := span p s' in (String c a, b)
      else (EmptyString, s)
  end.

(** The text is empty or starts with a character that fails [p]. *)
Definition stops (p : ascii -> bool) (b : string) : Prop :=
  match b with
  | EmptyString => True
  | String c _ => p c = false
  end.

Definition digit_value (c : ascii) : nat := N.to_nat (code c - 48).

(** [int(ds)] for a text of decimal digits. *)
Definition int_of_digits (ds : string) : nat :=
  let fix go (acc : nat) (s : string) : nat :=
    match s with
    | EmptyString => acc
    | String c s' => go (10 * acc + digit_value c) s'
    end
  in go 0 ds.

(** [sorted(l)] on a list of texts: insertion into code-point order. *)
Fixpoint insert_sorted (x : string) (l : list string) : list string :=
  match l with
  | [] => [x]
  | y :: l' => if String.leb x y then x :: l else y :: insert_sorted x l'
  end.

Definition sorted (l : list string) : list string :=
  foldr insert_sorted [] l.

End Py.

(** ** helpers_brenda.py *)

Module Brenda.

(** The dictionary returned by [extract_reaction]. *)
Record Reaction := mkReaction {
  SUBSTRATES : list string;
  PRODUCTS : list string;
  REVERSIBLE : string;
  RXN_TEXT : string
}.

Definition is_char (a : ascii) (c : ascii) : bool := Ascii.eqb a c.

(** [$] without [re.MULTILINE]: the end of the text, or just before a
    newline that ends it. *)
Definition at_end (s : string) : bool :=
  match s with
  | EmptyString => true
  | String c EmptyString => is_char "010" c
  | _ => false
  end.

(** A match of [REVERSIBLE_RE = r"\{\w*\} *$"] that starts at the first
    character of [s]; the result is the matched text, [group()]. *)
Definition match_reversible_at (s : string) : option string :=
  match s with
  | String c s1 =>
      if is_char "{" c then
        let '(w, s2) := Py.span Py.is_word s1 in
        match s2 with
        | String d s3 =>
            if is_char "}" d then
              let '(sp, s4) := Py.span Py.is_blank s3 in
              if at_end s4 then Some ("{" +:+ w +:+ "}" +:+ sp) else None
            else None
        | EmptyString => None
        end
      else None
  | EmptyString => None
  end.

(** [re.search(REVERSIBLE_RE, rxn)]: the leftmost match. *)
Fixpoint search_reversible (s : string) : option string :=
  match match_reversible_at s with
  | Some g => Some g
  | None =>
      match s with
      | EmptyString => None
      | String _ s' => search_reversible s'
      end
  end.

(** The cofactor spelling repairs, in source order. *)
Definition nad_fixes : list (string * string) :=
  [ ("NADH+ H+", "NADH + H+");
    ("(R)-3-hydroxybutanoyl-CoA +NADP+", "(R)-3-hydroxybutanoyl-CoA + NADP+");
    (")poly(ethyleneglycol)-N6-(2-aminoethyl)-NADH",
     "N6-poly(ethyleneglycol)-N6-(2-aminoethyl)-NADH");
    ("1,2-dehydro-N-methylcoclaurine NADPH",
     "1,2-dehydro-N-methylcoclaurine + NADPH");
    ("1,N6-etheno NAD+", "1,N6-etheno-NAD+");
    ("17alpha,21-dihydroxy-5beta-pregnane-3,11,20-trione NADPH",
     "17alpha,21-dihydroxy-5beta-pregnane-3,11,20-trione + NADPH");
    ("3-hydroxy-3-methylglutaryl-CoA NADH",
     "3-hydroxy-3-methylglutaryl-CoA + NADH");
    ("3alpha,12alpha-dihydroxy-7-oxo-5beta-cholanoyl taurine NADH",
     "3alpha,12alpha-dihydroxy-7-oxo-5beta-cholanoyl taurine + NADH");
    ("3aminopropanal+ NAD+", "3aminopropanal + NAD+");
    ("4-hydroxy-3-methylglutaryl-CoA NADH",
     "4-hydroxy-3-methylglutaryl-CoA + NADH");
    ("5-hydroxy-3-methylglutaryl-CoA NADH",
     "5-hydroxy-3-methylglutaryl-CoA + NADH");
    ("H+ thio-NADPH", "H+ + thio-NADPH");
    ("N6-CM-NAD+", "N6-carboxymethyl-NAD+");
    ("NAD ", "NAD+ ");
    ("NAD(+)", "NAD+");
    ("NAD(H)", "NADH");
    ("NAD+ 10", "NAD+");
    ("NAD+ formazan", "NAD+ + formazan");
    ("NADP(+)", "NADP+");
    ("NADP(H)", "NADPH");
    ("NADP+ formazan", "NADP+ + formazan");
    ("NADPH+ H+", "NADPH + H+");
    ("NADPh", "NADPH");
    ("NADp+", "NADP+");
    ("propan-2-ol+ NAD+", "propan-2-ol + NAD+");
    ("thionicotinamide NAD+", "thionicotinamide-NAD+");
    ("thionicotinamideNADH", "thionicotinamide-NADH") ].

(** [if old in rxn: rxn = rxn.replace(old, new)] *)
Definition apply_fix (rxn : string) (fix_ : string * string) : string :=
  if Py.contains fix_.1 rxn then Py.replace fix_.1 fix_.2 rxn else rxn.

Definition fix_nad (rxn : string) : string := foldl apply_fix rxn nad_fixes.

(** [re.sub(" \+$", "", s)] *)
Fixpoint sub_trailing_plus (s : string) : string :=
  match s with
  | EmptyString => EmptyString
  | String c s' =>
      if String.eqb s " +" then EmptyString
      else if String.eqb s (String " " (String "+" (String "010" EmptyString)))
           then String "010" EmptyString
           else String c (sub_trailing_plus s')
  end.

Definition nonempty (s : string) : bool :=
  match s with EmptyString => false | String _ _ => true end.

(** [[re.sub(" \+$","",i.strip()) for i in re.split(COMPOUNDS_RE, side)
      if i.strip()]] *)
Definition split_compounds (side : string) : list string :=
  map (fun i => sub_trailing_plus (Py.strip i))
      (List.filter (fun i => nonempty (Py.strip i)) (Py.split " + " side)).

(** [re.search("^\d+ ", x)]: the digits of the coefficient and the text
    that [re.sub("^\d+ ", "", x)] leaves. *)
Definition match_coefficient (x : string) : option (string * string) :=
  let '(ds, rest) := Py.span Py.is_digit x in
  match ds, rest with
  | String _ _, String c rest' =>
      if Py.is_blank c then Some (ds, rest') else None
  | _, _ => None
  end.

(** One turn of the loop over the names: [int(num)] copies of the name
    without its coefficient, or the name itself. *)
Definition expand_name (x : string) : list string :=
  match match_coefficient x with
  | Some (num, s) => repeat s (Py.int_of_digits num)
  | None => [x]
  end.

Fixpoint expand_coefficients (names : list string) : list string :=
  match names with
  | [] => []
  | x :: names' => expand_name x ++ expand_coefficients names'
  end.

(** The text after the direction marker has been cut out and the cofactor
    spellings repaired: the value of the key [RXN_TEXT]. *)
Definition cleaned_text (rxn : string) : string :=
  fix_nad
    match search_reversible rxn with
    | Some g => Py.strip (Py.replace g "" rxn)
    | None => rxn
    end.

(** The value of the key [REVERSIBLE]. *)
Definition reversibility (rxn : string) : string :=
  match search_reversible rxn with
  | Some g => if 2 <? String.length g then Py.slice_1_m1 (Py.strip g) else "?"
  | None => "?"
  end.

(** The names of a side before the coefficients are expanded. *)
Definition substrate_names (rxn : string) : list string :=
  split_compounds (Py.split_once " = " (cleaned_text rxn)).1.

Definition product_names (rxn : string) : list string :=
  split_compounds (default EmptyString (Py.split_once " = " (cleaned_text rxn)).2).

Definition extract_reaction (rxn : string) : Reaction :=
  {| SUBSTRATES := expand_coefficients (substrate_names rxn);
     PRODUCTS := expand_coefficients (product_names rxn);
     REVERSIBLE := reversibility rxn;
     RXN_TEXT := cleaned_text rxn |}.

(** A row of the reaction data frame: the dictionary of [extract_reaction]
    with the keys [process_entry] adds. *)
Record Row := mkRow {
  EC_NUM : string;
  R_SUBSTRATES : list string;
  R_PRODUCTS : list string;
  R_RXN_TEXT : string;
  R_REVERSIBLE : string;
  ORIG_RXN_TEXT : string;
  NATURAL : bool;
  ORGANISM : option string;
  PROTEIN_REFS : list string;
  PROTEIN_DB : option string
}.

(** What [parse_protein] stores per organism number, as far as
    [process_entry] reads it. *)
Record Enzyme := mkEnzyme {
  organism : string;
  ref_ids : list string;
  protein_db : option string
}.

Inductive Header := NATURAL_SUBSTRATE_PRODUCT | SUBSTRATE_PRODUCT.

Definition tags (h : Header) : string :=
  match h with
  | NATURAL_SUBSTRATE_PRODUCT => "NSP"
  | SUBSTRATE_PRODUCT => "SP"
  end.

Definition in_list (x : string) (l : list string) : bool :=
  existsb (String.eqb x) l.

(** The test that guards both [continue] statements. *)
Definition rejected (d : Reaction) : bool :=
  in_list "?" (SUBSTRATES d) || in_list "?" (PRODUCTS d)
  || in_list "more" (SUBSTRATES d).

(** The record appended for one organism number. *)
Definition record_for (enzymes : gmap string Enzyme) (ec_num orig_desc : string)
    (h : Header) (d : Reaction) (org_num : string) : Row :=
  let '(org, refs, db) :=
    match enzymes !! org_num with
    | Some e => (Some (organism e), Py.sorted (ref_ids e), protein_db e)
    | None => (None, [], None)
    end in
  {| EC_NUM := ec_num;
     R_SUBSTRATES := SUBSTRATES d;
     R_PRODUCTS := PRODUCTS d;
     R_RXN_TEXT := RXN_TEXT d;
     R_REVERSIBLE := REVERSIBLE d;
     ORIG_RXN_TEXT := orig_desc;
     NATURAL := String.eqb (tags h) "NSP";
     ORGANISM := org;
     PROTEIN_REFS := refs;
     PROTEIN_DB := db |}.

(** The body of the loop over the lines of a substrate/product section of
    [process_entry], from [orig_desc = desc] on: [org_nums] and [desc] are
    the organisms and the description [extract_orgs_desc] returned for the
    line, and the result is what the turn appends to [reactions]. *)
Definition process_line (enzymes : gmap string Enzyme) (ec_num : string)
    (h : Header) (org_nums : list string) (desc : string) : list Row :=
  let orig_desc := desc in
  let two := Nat.eqb (Py.count "NAD(P)" desc) 2 in
  let desc := if two then Py.replace "NAD(P)" "NADP" desc else desc in
  let desc2 := extract_reaction (Py.replace "NADP" "NAD" desc) in
  if two && rejected desc2 then []
  else
    let first :=
      if two then map (record_for enzymes ec_num orig_desc h desc2) org_nums
      else [] in
    let desc :=
      if Nat.eqb (Py.count "NAD(P)" desc) 1 then
        if Py.contains "NADP" desc then Py.replace "NAD(P)" "NADP" desc
        else Py.replace "NAD(P)" "NAD" desc
      else desc in
    let d := extract_reaction desc in
    if rejected d then first
    else first ++ map (record_for enzymes ec_num orig_desc h d) org_nums.


(** *** The text of an entry *)

(** [re.sub(r"\n\n+", "\n\n", s)]: [run] counts the newlines of the current
    run that have been kept, so a run of two or more becomes two. *)
Fixpoint collapse_newlines (run : nat) (s : string) : string :=
  match s with
  | EmptyString => EmptyString
  | String c s' =>
      if is_char "010" c then
        if run <? 2 then String c (collapse_newlines (S run) s')
        else collapse_newlines run s'
      else String c (collapse_newlines 0 s')
  end.

(** [s[:n]] *)
Fixpoint take (n : nat) (s : string) : string :=
  match n, s with
  | S k, String c s' => String c (take k s')
  | _, _ => EmptyString
  end.

(** How [process_entry] starts: it returns [None], fails on an index, or
    goes on with the EC number and the sections of the entry. *)
Inductive EntryHead :=
| Skipped
| IndexError
| Head (ec_num : string) (cats : list string).

(** [process_entry] up to [ec_num = ec_num_text.split(" ")[0]]. *)
Definition process_entry_head (brenda_entry : string) : EntryHead :=
  if negb (String.eqb "///" (take 3 brenda_entry)) then Skipped
  else
    let brenda_entry := Py.strip (collapse_newlines 0 brenda_entry) in
    let cats := Py.split (String "010" (String "010" EmptyString)) brenda_entry in
    match Py.split (String "010" EmptyString) (hd EmptyString cats) with
    | _ :: line :: _ =>
        match Py.split (String "009" EmptyString) line with
        | _ :: ec_num_text :: _ =>
            if Py.contains "transferred" ec_num_text
               || Py.contains "eleted" ec_num_text
            then Skipped
            else Head (hd EmptyString (Py.split " " ec_num_text)) cats
        | _ => IndexError
        end
    | _ => IndexError
    end.

(** [entry_lines(body, tag)], the lines it yields in order. *)
Definition entry_lines (body tag : string) : list string :=
  List.filter nonempty
    (map (fun line => Py.replace (String "010" EmptyString) " " (Py.strip line))
         (Py.split (tag +:+ String "009" EmptyString)
            (Py.replace (String "010" (String "009" EmptyString)) " " body))).

(** *** Reading the file *)

(** The state of the loop of [parse_brenda] over the lines of the file: the
    buffer and the texts [process_entry] has been called with. *)
Record ReadState := mkReadState {
  buff : string;
  processed : list string
}.

(** One turn of the loop for a line [readline] has returned. *)
Definition read_step (st : ReadState) (new_line : string) : ReadState :=
  if String.eqb (buff st) EmptyString then
    {| buff := buff st +:+ new_line; processed := processed st |}
  else if Py.contains "///" new_line then
    {| buff := new_line; processed := processed st ++ [buff st] |}
  else if 0 <? String.length (buff st) then
    {| buff := buff st +:+ new_line; processed := processed st |}
  else st.

(** The loop [while (new_line)]: it ends at the first empty line, which is
    how [readline] reports the end of the file. *)
Fixpoint read_loop (st : ReadState) (lines : list string) : ReadState :=
  match lines with
  | [] => st
  | new_line :: lines' =>
      if nonempty new_line then read_loop (read_step st new_line) lines'
      else st
  end.

Definition read_file (lines : list string) : ReadState :=
  read_loop (mkReadState EmptyString []) lines.

(** The text made of the given pieces, in order. *)
Definition text_of (pieces : list string) : string :=
  foldr String.append EmptyString pieces.

(** A direction marker: a word in braces and the blanks after it. *)
Definition marker (w sp : string) : string := "{" +:+ w +:+ "}" +:+ sp.

Definition newline : string := String "010" EmptyString.

Fixpoint has_brace (s : string) : bool :=
  match s with
  | EmptyString => false
  | String c s' => is_char "{" c || has_brace s'
  end.

Section ParseBrenda.

(** [df.astype(str)] turns a row into the texts of its cells; the rendering
    of lists, booleans and [None] is Python's and is left open. *)
Context {Cells : Type} `{EqDecision Cells}.
Variable astype_str : Row -> Cells.

(** [df.loc[df.astype(str).drop_duplicates().index]]: a row stays when no
    earlier row has the same rendering. *)
Fixpoint drop_duplicates (seen : list Cells) (df : list Row) : list Row :=
  match df with
  | [] => []
  | r :: df' =>
      if bool_decide (astype_str r ∈ seen) then drop_duplicates seen df'
      else r :: drop_duplicates (astype_str r :: seen) df'
  end.

(** [df[~df['EC_NUM'].str.startswith('7')]] *)
Definition drop_ec7 (df : list Row) : list Row :=
  List.filter (fun r => negb (Py.startswith "7" (EC_NUM r))) df.

(** The accumulation of the entries' reactions: [process_entry] returns
    [None] for a skipped entry, and an entry without reactions adds
    nothing. *)
Definition add_entry (df : list Row) (reactions : option (list Row)) : list Row :=
  match reactions with
  | Some (r :: rs) => if 0 <? length df then df ++ r :: rs else r :: rs
  | _ => df
  end.

Definition compounds_of (df : list Row) : gset string :=
  list_to_set (flat_map R_SUBSTRATES df) ∪ list_to_set (flat_map R_PRODUCTS df).

(** [parse_brenda] after the file has been cut into entries: [entries] are
    the results of [process_entry] in file order. *)
Definition parse_brenda (entries : list (option (list Row))) : list Row * gset string :=
  let df := foldl add_entry [] entries in
  let df := drop_duplicates [] df in
  let df := drop_ec7 df in
  (df, compounds_of df).

End ParseBrenda.

End Brenda.

(** ** enzymemap.py *)

Module EnzymeMap.

(** [itertools.product] applied to the pools: the leftmost pool varies
    slowest. *)
Fixpoint itertools_product {A : Type} (pools : list (list A)) : list (list A) :=
  match pools with
  | [] => [[]]
  | pool :: pools' =>
      flat_map (fun x => map (cons x) (itertools_product pools')) pool
  end.

(** The number of combinations of one element per pool. *)
Definition product_size {A : Type} (pools : list (list A)) : nat :=
  foldr (fun pool n => length pool * n) 1 pools.

(** [[d[x] for x in names]]; a name that is not a key raises [KeyError],
    which is [None] here. *)
Definition lookup_all (compound_to_smiles : gmap string (list string))
    (names : list string) : option (list (list string)) :=
  mapM (fun x => compound_to_smiles !! x) names.

(** The dictionary [compound_to_smiles] built from the rows of
    [compound_df], each a compound name and its structures. *)
Definition make_compound_to_smiles (compound_df : list (string * list string))
    : gmap string (list string) :=
  foldl (fun d row => <[row.1 := row.2]> d) ∅ compound_df.

(** A row of the data frame [make_initial] returns: the parsed row with the
    two columns it adds. *)
Record InitRow := mkInitRow {
  parsed : Brenda.Row;
  POSSIBLE_RXNS : list string;
  BALANCED_RXNS : list string
}.

Section MakeInitial.

Context {Redox : Type}.
Variable put_h_last : string -> string.
Variable correct_reaction : list string -> string -> Redox -> Redox -> list string.

(** The reaction text of one choice of structures for the substrates and
    one for the products. *)
Definition candidate (subs prods : list string) : string :=
  put_h_last (Py.join ">>" [Py.join "." subs; Py.join "." prods]).

(** The body of the loop that fills [POSSIBLE_RXNS]. *)
Definition possible_rxns (compound_to_smiles : gmap string (list string))
    (substrates products : list string) : option (list string) :=
  sv ← lookup_all compound_to_smiles substrates;
  pv ← lookup_all compound_to_smiles products;
  let reacs := map (Py.join ".") (itertools_product sv) in
  let prods := map (Py.join ".") (itertools_product pv) in
  let reaction := map (Py.join ">>") (itertools_product [reacs; prods]) in
  Some (map put_h_last reaction).

Definition all_possible_rxns (compound_to_smiles : gmap string (list string))
    (df : list Brenda.Row) : option (list (list string)) :=
  mapM (fun r => possible_rxns compound_to_smiles
                   (Brenda.R_SUBSTRATES r) (Brenda.R_PRODUCTS r)) df.

(** The state of the balancing loop: the dictionary [cached], the list
    [balanced_rxn_list], and the equation texts [correct_reaction] was
    called with, in call order. *)
Record BalanceState := mkBalanceState {
  cached : gmap string (list string);
  balanced_rxn_list : list (list string);
  corrected : list string
}.

(** One turn of the loop over [df.index]; [text] is [df['RXN_TEXT'][i]] and
    [possible] is [df['POSSIBLE_RXNS'][i]]. *)
Definition balance_step (r2o o2r : Redox) (st : BalanceState)
    (row : string * list string) : BalanceState :=
  let '(text, possible) := row in
  match cached st !! text with
  | None =>
      let rxns := map put_h_last (correct_reaction possible text r2o o2r) in
      {| cached := <[text := rxns]> (cached st);
         balanced_rxn_list := balanced_rxn_list st ++ [rxns];
         corrected := corrected st ++ [text] |}
  | Some rxns =>
      {| cached := cached st;
         balanced_rxn_list := balanced_rxn_list st ++ [rxns];
         corrected := corrected st |}
  end.

Definition balance_all (r2o o2r : Redox) (rows : list (string * list string))
    : BalanceState :=
  foldl (balance_step r2o o2r) (mkBalanceState ∅ [] []) rows.

(** The balancing loop of [make_initial] on the parsed data frame: its
    final state, when the candidate column could be built. *)
Definition balance_frame (compound_to_smiles : gmap string (list string))
    (r2o o2r : Redox) (df : list Brenda.Row) : option BalanceState :=
  reactions ← all_possible_rxns compound_to_smiles df;
  Some (balance_all r2o o2r (zip (map Brenda.R_RXN_TEXT df) reactions)).

(** [make_initial] from the parsed data frame and the dictionary of
    structures on: the data frame with both new columns. *)
Definition make_initial (compound_to_smiles : gmap string (list string))
    (r2o o2r : Redox) (df : list Brenda.Row) : option (list InitRow) :=
  reactions ← all_possible_rxns compound_to_smiles df;
  st ← balance_frame compound_to_smiles r2o o2r df;
  Some (zip_with (fun rp b => mkInitRow rp.1 rp.2 b)
                 (zip df reactions) (balanced_rxn_list st)).

End MakeInitial.

Inductive Source := direct | suggested.
Inductive Step := single | multi.

(** The outcome of a call that may raise. *)
Inductive Outcome (A : Type) :=
| Returned (a : A)
| Raised (e : string).
Arguments Returned {A} a.
Arguments Raised {A} e.

(** Which rules a call of [helpers_map.map] was given: [db_rules] or
    [db_rules.loc[ids]]. *)
Inductive Library := AllRules | RulesAt (ids : list Z).

(** The calls of the helpers, with the index of the row they were made for. *)
Inductive Call :=
| CallMap (i : nat) (rxns : list string) (lib : Library) (single : bool)
| CallSuggest (i : nat) (rxns : list string).

Definition call_row (c : Call) : nat :=
  match c with
  | CallMap i _ _ _ => i
  | CallSuggest i _ => i
  end.

Definition is_multi_call (c : Call) : bool :=
  match c with
  | CallMap _ _ _ false => true
  | _ => false
  end.

(** [[item for sublist in column for item in sublist if item != None]] *)
Definition not_none {A : Type} (column : list (list (option A))) : list A :=
  omap id (concat column).

Section MapGroup.

Context {Rule Indi RuleLib Templates : Type}.

(** A row of the working data frame of [map_group]. *)
Record Entry := mkEntry {
  uncorrected_rxns : list string;
  rxn_text : string;
  reversible : string;
  balanced_rxns : list string;
  natural : bool;
  organism : option string;
  protein_refs : list string;
  protein_db : option string;
  source : option Source;
  step : option Step;
  mapped_rxns : list (option string);
  rules : list Rule;
  rule_ids : list (option Z);
  individuals : list Indi
}.

(** The four lists [helpers_map.map] and [helpers_rdkit.select_best]
    return. *)
Record Mapped := mkMapped {
  m_rxns : list (option string);
  m_rules : list Rule;
  m_rule_ids : list (option Z);
  m_indis : list Indi
}.

(** The helpers of [helpers_map] and [helpers_rdkit], and the two library
    operations whose result order Python leaves open. *)
Record Helpers := mkHelpers {
  helpers_map_map : list string -> RuleLib -> bool -> Mapped;
  make_templates_for_suggestions : list string -> Templates;
  suggest_corrections : list string -> Templates -> Outcome (list string);
  select_best : Mapped -> Mapped;
  get_groups : RuleLib -> list (gset Z);
  loc : RuleLib -> list Z -> RuleLib;
  list_of_set : list Z -> list Z
}.

Variable H : Helpers.

Definition rules_of (db_rules : RuleLib) (lib : Library) : RuleLib :=
  match lib with
  | AllRules => db_rules
  | RulesAt ids => loc H db_rules ids
  end.

(** The column selection and the six new columns. *)
Definition init_entry (r : InitRow) : Entry :=
  {| uncorrected_rxns := POSSIBLE_RXNS r;
     rxn_text := Brenda.ORIG_RXN_TEXT (parsed r);
     reversible := Brenda.R_REVERSIBLE (parsed r);
     balanced_rxns := BALANCED_RXNS r;
     natural := Brenda.NATURAL (parsed r);
     organism := Brenda.ORGANISM (parsed r);
     protein_refs := Brenda.PROTEIN_REFS (parsed r);
     protein_db := Brenda.PROTEIN_DB (parsed r);
     source := None;
     step := None;
     mapped_rxns := [];
     rules := [];
     rule_ids := [];
     individuals := [] |}.

(** The six assignments made when a mapping has succeeded. *)
Definition set_mapped (e : Entry) (src : Source) (stp : Step) (r : Mapped) : Entry :=
  {| uncorrected_rxns := uncorrected_rxns e;
     rxn_text := rxn_text e;
     reversible := reversible e;
     balanced_rxns := balanced_rxns e;
     natural := natural e;
     organism := organism e;
     protein_refs := protein_refs e;
     protein_db := protein_db e;
     source := Some src;
     step := Some stp;
     mapped_rxns := m_rxns r;
     rules := m_rules r;
     rule_ids := m_rule_ids r;
     individuals := m_indis r |}.

(** [for i in df.index: body]: every loop of [map_group] reads and writes
    row [i] only, apart from values computed before the loop starts. *)
Fixpoint for_rows (body : nat -> Entry -> Entry * list Call) (i : nat)
    (df : list Entry) : list Entry * list Call :=
  match df with
  | [] => ([], [])
  | e :: df' =>
      let '(e', calls) := body i e in
      let '(df'', calls') := for_rows body (S i) df' in
      (e' :: df'', calls ++ calls')
  end.

(** Single step mapping. *)
Definition single_body (db_rules : RuleLib) (i : nat) (e : Entry)
    : Entry * list Call :=
  if 0 <? length (balanced_rxns e) then
    let r := helpers_map_map H (balanced_rxns e) db_rules true in
    (if 0 <? length (m_rxns r) then set_mapped e direct single r else e,
     [CallMap i (balanced_rxns e) AllRules true])
  else (e, []).

Definition single_stage (db_rules : RuleLib) (df : list Entry) :=
  for_rows (single_body db_rules) 0 df.

(** [list(set([item for sublist in df['rule_ids'].values ...]))] *)
Definition rule_ids_in_ec (df : list Entry) : list Z :=
  list_of_set H (not_none (map rule_ids df)).

(** Multi step mapping. *)
Definition multi_body (db_rules : RuleLib) (ids : list Z) (i : nat) (e : Entry)
    : Entry * list Call :=
  if (0 <? length (balanced_rxns e)) && (length (mapped_rxns e) =? 0) then
    let lib := if length ids =? 0 then AllRules else RulesAt ids in
    let r := helpers_map_map H (balanced_rxns e) (rules_of db_rules lib) false in
    (if 0 <? length (m_rxns r) then set_mapped e direct multi r else e,
     [CallMap i (balanced_rxns e) lib false])
  else (e, []).

Definition multi_stage (db_rules : RuleLib) (df : list Entry) :=
  for_rows (multi_body db_rules (rule_ids_in_ec df)) 0 df.

(** Suggestions for the rows that are still unmapped. *)
Definition suggest_body (db_rules : RuleLib) (templates : Templates)
    (ids : list Z) (i : nat) (e : Entry) : Entry * list Call :=
  if length (mapped_rxns e) =? 0 then
    let rxns :=
      match suggest_corrections H (uncorrected_rxns e) templates with
      | Returned rxns => rxns
      | Raised _ => []
      end in
    if 0 <? length rxns then
      let r := helpers_map_map H rxns (rules_of db_rules (RulesAt ids)) true in
      (if 0 <? length (m_rxns r) then set_mapped e suggested single r else e,
       [CallSuggest i (uncorrected_rxns e); CallMap i rxns (RulesAt ids) true])
    else (e, [CallSuggest i (uncorrected_rxns e)])
  else (e, []).

Definition suggest_stage (db_rules : RuleLib) (df : list Entry) :=
  let reactions_in_ec := not_none (map mapped_rxns df) in
  let ids := rule_ids_in_ec df in
  if 0 <? length reactions_in_ec then
    let templates := make_templates_for_suggestions H reactions_in_ec in
    for_rows (suggest_body db_rules templates ids) 0 df
  else (df, []).

(** The helpers with a [suggest_corrections] that returns the empty list
    where the given one raises. *)
Definition quiet : Helpers :=
  {| helpers_map_map := helpers_map_map H;
     make_templates_for_suggestions := make_templates_for_suggestions H;
     suggest_corrections rxns templates :=
       match suggest_corrections H rxns templates with
       | Returned rxns' => Returned rxns'
       | Raised _ => Returned []
       end;
     select_best := select_best H;
     get_groups := get_groups H;
     loc := loc H;
     list_of_set := list_of_set H |}.

(** What one turn of a loop can do to a row: nothing, or the six
    assignments with a non-empty list of reactions. *)
Definition kept_or_mapped (e e' : Entry) : Prop :=
  e' = e ∨ ∃ src stp r, e' = set_mapped e src stp r ∧ m_rxns r ≠ [].

(** A row without reactions has no source and no step. *)
Definition unset_when_unmapped (e : Entry) : Prop :=
  mapped_rxns e = [] → source e = None ∧ step e = None.

(** The eight columns [map_group] takes over from its input. *)
Definition same_input_columns (e e' : Entry) : Prop :=
  uncorrected_rxns e' = uncorrected_rxns e
  ∧ rxn_text e' = rxn_text e
  ∧ reversible e' = reversible e
  ∧ balanced_rxns e' = balanced_rxns e
  ∧ natural e' = natural e
  ∧ organism e' = organism e
  ∧ protein_refs e' = protein_refs e
  ∧ protein_db e' = protein_db e.

(** The values the columns [source] and [step] take together. *)
Definition labelled (e : Entry) : Prop :=
  (source e = None ∧ step e = None)
  ∨ (source e = Some direct ∧ step e = Some single ∧ balanced_rxns e ≠ [])
  ∨ (source e = Some direct ∧ step e = Some multi ∧ balanced_rxns e ≠ [])
  ∨ (source e = Some suggested ∧ step e = Some single).

(** A row without a source has nothing in the mapping columns. *)
Definition unmapped_empty (e : Entry) : Prop :=
  source e = None →
  step e = None ∧ mapped_rxns e = [] ∧ rules e = [] ∧ rule_ids e = []
  ∧ individuals e = [].

(** Per entry, the best option. *)
Definition select_entry (e : Entry) : Entry :=
  if 0 <? length (mapped_rxns e) then
    let r := select_best H
               (mkMapped (mapped_rxns e) (rules e) (rule_ids e) (individuals e)) in
    {| uncorrected_rxns := uncorrected_rxns e;
       rxn_text := rxn_text e;
       reversible := reversible e;
       balanced_rxns := balanced_rxns e;
       natural := natural e;
       organism := organism e;
       protein_refs := protein_refs e;
       protein_db := protein_db e;
       source := source e;
       step := step e;
       mapped_rxns := m_rxns r;
       rules := m_rules r;
       rule_ids := m_rule_ids r;
       individuals := m_indis r |}
  else e.

End MapGroup.

(** *** Quality of a rule: the share of its group among the rule ids *)

(** [l.count(x)] *)
Definition list_count (l : list Z) (x : Z) : nat := count_occ Z.eq_dec l x.

(** The inner loop [for x in group: count += l.count(x)]. *)
Definition group_count (l : list Z) (group : gset Z) : nat :=
  foldl (fun count x => count + list_count l x) 0 (elements group).

(** [count/len(l)]; the quotient is a rational here, a float in the
    source. *)
Definition share (count : nat) (l : list Z) : Q :=
  (inject_Z (Z.of_nat count) / inject_Z (Z.of_nat (length l)))%Q.

(** One turn of [for group in groups]. *)
Definition counts_step (l : list Z) (counts : gmap Z Q) (group : gset Z)
    : gmap Z Q :=
  let count := group_count l group in
  if negb (count =? 0) then
    foldl (fun counts x => <[x := share count l]> counts) counts (elements group)
  else counts.

Definition quality_counts (groups : list (gset Z)) (l : list Z) : gmap Z Q :=
  foldl (counts_step l) ∅ groups.

(** [[counts[r] for r in rule_ids]]; a rule id without an entry in
    [counts] raises [KeyError], which is [None] here. *)
Definition quality_of (counts : gmap Z Q) (ids : list (option Z)) : option (list Q) :=
  mapM (fun r => match r with Some x => counts !! x | None => None end) ids.




Section MapGroupWhole.

Context {Rule Indi RuleLib Templates : Type}.
Variable H : @Helpers Rule Indi RuleLib Templates.

(** [groups = helpers_map.get_groups(db_rules); groups.append({-1})] *)
Definition groups_of (db_rules : RuleLib) : list (gset Z) :=
  get_groups H db_rules ++ [{[ (-1)%Z ]}].

(** The quality column for a data frame. *)
Definition quality_column (groups : list (gset Z)) (df : list (@Entry Rule Indi))
    : option (list (list Q)) :=
  let l := not_none (map rule_ids df) in
  let counts := quality_counts groups l in
  mapM (fun e => quality_of counts (rule_ids e)) df.

(** [map_group] up to the quality column: the working data frame, the
    quality column or the [KeyError] of its construction, and the calls of
    the helpers in order. *)
Definition map_group (df : list InitRow) (db_rules : RuleLib)
    : list (@Entry Rule Indi) * option (list (list Q)) * list Call :=
  let groups := groups_of db_rules in
  let df0 := map init_entry df in
  let '(df1, calls1) := single_stage H db_rules df0 in
  let '(df2, calls2) := multi_stage H db_rules df1 in
  let '(df3, calls3) := suggest_stage H db_rules df2 in
  let df4 := map (select_entry H) df3 in
  (df4, quality_column groups df4, calls1 ++ calls2 ++ calls3).

End MapGroupWhole.

End EnzymeMap.

(** ** Sample data *)

Module Sample.

Definition row (text : string) (subs prods : list string) : Brenda.Row :=
  {| Brenda.EC_NUM := "1.1.1.1";
     Brenda.R_SUBSTRATES := subs;
     Brenda.R_PRODUCTS := prods;
     Brenda.R_RXN_TEXT := text;
     Brenda.R_REVERSIBLE := "r";
     Brenda.ORIG_RXN_TEXT := text;
     Brenda.NATURAL := false;
     Brenda.ORGANISM := None;
     Brenda.PROTEIN_REFS := [];
     Brenda.PROTEIN_DB := None |}.

#[global] Instance row_eq_dec : EqDecision Brenda.Row.
Proof. solve_decision. Defined.

(** The results of [process_entry] for four entries: a translocase, an
    entry with the same reaction twice, a skipped entry and an entry without
    reactions. *)
Definition entries : list (option (list Brenda.Row)) :=
  [ Some [ {| Brenda.EC_NUM := "7.1.1.1";
              Brenda.R_SUBSTRATES := ["H+"];
              Brenda.R_PRODUCTS := ["H+"];
              Brenda.R_RXN_TEXT := "H+ = H+";
              Brenda.R_REVERSIBLE := "?";
              Brenda.ORIG_RXN_TEXT := "H+ = H+";
              Brenda.NATURAL := true;
              Brenda.ORGANISM := None;
              Brenda.PROTEIN_REFS := [];
              Brenda.PROTEIN_DB := None |} ];
    Some [ row "A = D" ["A"] ["D"]; row "A = D" ["A"] ["D"] ];
    None;
    Some [] ].

(** Two entries with the same equation and one with a compound without a
    structure. *)
Definition frame : list Brenda.Row :=
  [ row "A + B = C" ["A"; "B"] ["C"];
    row "A + B = C" ["A"; "B"] ["C"];
    row "A = D" ["A"] ["D"] ].

Definition compound_to_smiles : gmap string (list string) :=
  {[ "A" := ["a1"; "a2"]; "B" := ["b1"]; "C" := ["c1"]; "D" := [] ]}.

Definition put_h_last (r : string) : string := r.

(** The data frame [make_initial] returns for [frame] with the balancer
    below. *)
Definition initial : list EnzymeMap.InitRow :=
  [ EnzymeMap.mkInitRow (row "A + B = C" ["A"; "B"] ["C"])
      ["a1.b1>>c1"; "a2.b1>>c1"] ["a1.b1>>c1"; "a2.b1>>c1"];
    EnzymeMap.mkInitRow (row "A + B = C" ["A"; "B"] ["C"])
      ["a1.b1>>c1"; "a2.b1>>c1"] ["a1.b1>>c1"; "a2.b1>>c1"];
    EnzymeMap.mkInitRow (row "A = D" ["A"] ["D"]) [] [] ].

(** A stand-in for the balancer: it keeps the candidates it is given. *)
Definition correct_reaction (rxns : list string) (text : string) (r2o o2r : unit)
    : list string := rxns.

Definition init_row (text : string) (possible balanced : list string)
    : EnzymeMap.InitRow :=
  EnzymeMap.mkInitRow (row text [] []) possible balanced.

Definition no_mapping : @EnzymeMap.Mapped string string :=
  EnzymeMap.mkMapped [] [] [] [].

(** A rule library is the list of its rule ids.  Rule 1 maps [a>>b] and
    rule 2 maps [e>>f] in one step, rule 2 maps [c>>d] in several steps; the
    suggestion for [x>>y] fails with an exception and the one for [u>>v] is
    [a>>b]. *)
Definition helpers : @EnzymeMap.Helpers string string (list Z) (list string) :=
  {| EnzymeMap.helpers_map_map rxns lib single_ :=
       if single_ && bool_decide ("a>>b" ∈ rxns) && bool_decide (1%Z ∈ lib)
       then EnzymeMap.mkMapped [Some "a>>b mapped"] ["rule 1"] [Some 1%Z] []
       else if single_ && bool_decide ("e>>f" ∈ rxns) && bool_decide (2%Z ∈ lib)
       then EnzymeMap.mkMapped [Some "e>>f mapped"] ["rule 2"] [Some 2%Z] []
       else if negb single_ && bool_decide ("c>>d" ∈ rxns)
                 && bool_decide (2%Z ∈ lib)
       then EnzymeMap.mkMapped [Some "c>>d mapped"] ["rule 2"] [Some 2%Z]
              ["c>>e"; "e>>d"]
       else no_mapping;
     EnzymeMap.make_templates_for_suggestions rxns := rxns;
     EnzymeMap.suggest_corrections rxns templates :=
       if bool_decide ("x>>y" ∈ rxns)
       then EnzymeMap.Raised "no reaction center"
       else if bool_decide ("u>>v" ∈ rxns) then EnzymeMap.Returned ["a>>b"]
       else EnzymeMap.Returned [];
     EnzymeMap.select_best r := r;
     EnzymeMap.get_groups lib := [ {[ 1%Z; 3%Z ]}; {[ 2%Z ]} ];
     EnzymeMap.loc lib ids := List.filter (fun x => bool_decide (x ∈ ids)) lib;
     EnzymeMap.list_of_set := remove_dups |}.

Definition db_rules : list Z := [1%Z; 2%Z; 3%Z].

(** One entry for each way through the stages. *)
Definition group : list EnzymeMap.InitRow :=
  [ init_row "a = b" ["a>>b"] ["a>>b"];
    init_row "c = d" ["c>>d"] ["c>>d"];
    init_row "e = f" ["e>>f"] ["e>>f"];
    init_row "x = y" ["x>>y"] [];
    init_row "u = v" ["u>>v"] [] ].

(** A group in which nothing can be mapped. *)
Definition unmapped_group : list EnzymeMap.InitRow :=
  [ init_row "x = y" ["x>>y"] ["x>>y"] ].

End Sample.

(** * Properties *)

(** Appending to a text that starts with a character computes. *)
Local Arguments String.append !s1 s2 : simpl nomatch.

(** ** The primitives on sample texts *)

Example replace_sample : Py.replace "aa" "b" "aaaaa" = "bba".
Proof. reflexivity. Qed.

Example count_sample : Py.count "aa" "aaaaa" = 2.
Proof. reflexivity. Qed.

Example split_sample : Py.split " + " "A + + B + C" = ["A"; "+ B"; "C"].
Proof. reflexivity. Qed.

Example split_once_sample :
  Py.split_once " = " "A = B = C" = ("A", Some "B = C")
  ∧ Py.split_once " = " "A + B" = ("A + B", None).
Proof. split; reflexivity. Qed.

Example search_reversible_sample :
  Brenda.search_reversible "A {r}" = Some "{r}"
  ∧ Brenda.search_reversible ("A {r} " +:+ Brenda.newline) = Some "{r} "
  ∧ Brenda.search_reversible "x{a} {b}" = Some "{b}"
  ∧ Brenda.search_reversible "{{r}" = Some "{r}"
  ∧ Brenda.search_reversible "A {r} x" = None
  ∧ Brenda.search_reversible "A {a-b}" = None.
Proof. repeat split; reflexivity. Qed.

Example sub_trailing_plus_sample :
  Brenda.sub_trailing_plus "A + +" = "A +"
  ∧ Brenda.sub_trailing_plus "A+" = "A+".
Proof. split; reflexivity. Qed.

Example match_coefficient_sample :
  Brenda.match_coefficient "22  A" = Some ("22", " A")
  ∧ Brenda.match_coefficient "2A" = None
  ∧ Brenda.match_coefficient " 2 A" = None
  ∧ Brenda.match_coefficient "2 3 A" = Some ("2", "3 A").
Proof. repeat split; reflexivity. Qed.

(** ** Texts *)

Section TextFacts.

Import Py.

Lemma is_blank_eq (c : ascii) : is_blank c = true → c = " "%char.
Proof.
  unfold is_blank, code. intros Hc. apply N.eqb_eq in Hc.
  rewrite <- (ascii_N_embedding c), Hc. reflexivity.
Qed.

Lemma is_char_eq (a c : ascii) : Brenda.is_char a c = true → c = a.
Proof. unfold Brenda.is_char. intros Hc. apply Ascii.eqb_eq in Hc. done. Qed.

Lemma span_app (p : ascii → bool) (s a b : string) :
  span p s = (a, b) → s = a +:+ b ∧ all_chars p a = true.
Proof.
  revert a b. induction s as [|c s IH]; intros a b; simpl.
  - intros [= <- <-]. done.
  - destruct (p c) eqn:Hp.
    + destruct (span p s) as [a' b'] eqn:Hs. intros [= <- <-].
      destruct (IH a' b' eq_refl) as [-> Ha]. simpl. by rewrite Hp, Ha.
    + intros [= <- <-]. done.
Qed.

Lemma span_stops (p : ascii → bool) (a b : string) :
  all_chars p a = true → stops p b → span p (a +:+ b) = (a, b).
Proof.
  intros Ha Hb. induction a as [|c a IH]; simpl in *.
  - destruct b as [|d b]; simpl in *; [done|]. by rewrite Hb.
  - apply andb_true_iff in Ha as [Hc Ha]. by rewrite Hc, (IH Ha).
Qed.

Lemma all_chars_app (p : ascii → bool) (a b : string) :
  all_chars p (a +:+ b) = all_chars p a && all_chars p b.
Proof.
  induction a as [|c a IH]; simpl; [done|]. by rewrite IH, andb_assoc.
Qed.

Lemma string_length_app (a b : string) :
  String.length (a +:+ b) = String.length a + String.length b.
Proof. induction a as [|c a IH]; simpl; [done|]. by rewrite IH. Qed.

Lemma string_app_assoc (a b c : string) : (a +:+ b) +:+ c = a +:+ b +:+ c.
Proof. induction a as [|x a IH]; simpl; [done|]. by rewrite IH. Qed.

Lemma string_app_empty_r (a : string) : a +:+ EmptyString = a.
Proof. induction a as [|x a IH]; simpl; [done|]. by rewrite IH. Qed.

Lemma blank_is_space (c : ascii) : is_blank c = true → is_space c = true.
Proof. intros ->%is_blank_eq. done. Qed.

Lemma rstrip_blanks (sp : string) :
  all_chars is_blank sp = true → rstrip sp = EmptyString.
Proof.
  induction sp as [|c sp IH]; simpl; [done|].
  intros [Hc Hsp]%andb_true_iff. by rewrite (IH Hsp), (blank_is_space c Hc).
Qed.

Lemma rstrip_app_blanks (t sp : string) :
  all_chars is_blank sp = true → rstrip (t +:+ sp) = rstrip t.
Proof.
  intros Hsp. induction t as [|c t IH]; simpl.
  - by apply rstrip_blanks.
  - by rewrite IH.
Qed.

Lemma rstrip_ends_solid (t : string) (c : ascii) :
  is_space c = false →
  rstrip (t +:+ String c EmptyString) = t +:+ String c EmptyString.
Proof.
  intros Hc. induction t as [|d t IH]; simpl.
  - by rewrite Hc.
  - rewrite IH. by destruct t.
Qed.

Lemma drop_last_snoc (t : string) (c : ascii) :
  drop_last (t +:+ String c EmptyString) = t.
Proof.
  induction t as [|d t IH]; simpl; [done|].
  rewrite IH. by destruct t.
Qed.

End TextFacts.

(** ** The coefficient of a name *)

Section Coefficients.

Import Py Brenda.

Lemma match_coefficient_digits (ds name : string) :
  ds ≠ EmptyString → all_chars is_digit ds = true →
  match_coefficient (ds +:+ " " +:+ name) = Some (ds, name).
Proof.
  intros Hne Hds. unfold match_coefficient.
  rewrite (span_stops is_digit ds (" " +:+ name) Hds); [|done].
  destruct ds; [done|]. reflexivity.
Qed.

Lemma match_coefficient_inv (x ds y : string) :
  match_coefficient x = Some (ds, y) →
  x = ds +:+ " " +:+ y ∧ all_chars is_digit ds = true ∧ ds ≠ EmptyString.
Proof.
  unfold match_coefficient.
  destruct (span is_digit x) as [a b] eqn:Hs.
  destruct (span_app _ _ _ _ Hs) as [-> Ha].
  destruct a as [|d a]; [done|]. destruct b as [|c b]; [done|].
  destruct (is_blank c) eqn:Hc; [|done].
  intros [= <- <-]. apply is_blank_eq in Hc as ->. done.
Qed.

Lemma expand_name_coefficient (ds name : string) :
  ds ≠ EmptyString → all_chars is_digit ds = true →
  expand_name (ds +:+ " " +:+ name) = repeat name (int_of_digits ds).
Proof.
  intros Hne Hds. unfold expand_name.
  by rewrite (match_coefficient_digits ds name Hne Hds).
Qed.

Lemma expand_coefficients_app (xs ys : list string) :
  expand_coefficients (xs ++ ys)
  = expand_coefficients xs ++ expand_coefficients ys.
Proof.
  induction xs as [|x xs IH]; simpl; [done|]. by rewrite IH, (assoc_L (++)).
Qed.

Lemma expand_coefficients_at (pre post : list string) (ds name : string) :
  ds ≠ EmptyString → all_chars is_digit ds = true →
  expand_coefficients (pre ++ (ds +:+ " " +:+ name) :: post)
  = expand_coefficients pre ++ repeat name (int_of_digits ds)
    ++ expand_coefficients post.
Proof.
  intros Hne Hds. rewrite expand_coefficients_app.
  cbn [expand_coefficients].
  by rewrite (expand_name_coefficient ds name Hne Hds).
Qed.

Lemma expand_coefficients_origin (names : list string) (y : string) :
  y ∈ expand_coefficients names →
  ∃ x, x ∈ names ∧
    ((match_coefficient x = None ∧ y = x)
     ∨ ∃ ds, x = ds +:+ " " +:+ y ∧ all_chars is_digit ds = true
             ∧ ds ≠ EmptyString).
Proof.
  induction names as [|x names IH]; simpl.
  - by intros ?%elem_of_nil.
  - intros [Hy|Hy]%elem_of_app.
    + exists x. split; [left|].
      unfold expand_name in Hy.
      destruct (match_coefficient x) as [[ds s]|] eqn:Hm.
      * apply list_elem_of_In, repeat_spec in Hy as ->.
        right. exists ds. by apply match_coefficient_inv.
      * apply list_elem_of_singleton in Hy as ->. by left.
    + destruct (IH Hy) as (x' & Hx' & Hor). exists x'. split; [by right|done].
Qed.

End Coefficients.

(** C8 (as amended): a name that begins with a coefficient, digits and one
    space, contributes as many copies of the rest of the name as the
    coefficient says, in the substrates and in the products; every name of
    the two lists is a name without a coefficient or what follows the first
    coefficient of a name.  Only that first coefficient is removed. *)
Theorem extract_reaction_coefficients (rxn : string) :
  (∀ pre post ds name,
     ds ≠ EmptyString → Py.all_chars Py.is_digit ds = true →
     (Brenda.substrate_names rxn = pre ++ (ds +:+ " " +:+ name) :: post →
      Brenda.SUBSTRATES (Brenda.extract_reaction rxn)
      = Brenda.expand_coefficients pre ++ repeat name (Py.int_of_digits ds)
        ++ Brenda.expand_coefficients post)
     ∧ (Brenda.product_names rxn = pre ++ (ds +:+ " " +:+ name) :: post →
        Brenda.PRODUCTS (Brenda.extract_reaction rxn)
        = Brenda.expand_coefficients pre ++ repeat name (Py.int_of_digits ds)
          ++ Brenda.expand_coefficients post))
  ∧ (∀ y,
       y ∈ Brenda.SUBSTRATES (Brenda.extract_reaction rxn)
           ++ Brenda.PRODUCTS (Brenda.extract_reaction rxn) →
       ∃ x, x ∈ Brenda.substrate_names rxn ++ Brenda.product_names rxn ∧
         ((Brenda.match_coefficient x = None ∧ y = x)
          ∨ ∃ ds, x = ds +:+ " " +:+ y ∧ Py.all_chars Py.is_digit ds = true
                  ∧ ds ≠ EmptyString)).
Proof.
  unfold Brenda.extract_reaction; cbn [Brenda.SUBSTRATES Brenda.PRODUCTS].
  split.
  - intros pre post ds name Hne Hds. split; intros ->;
      exact (expand_coefficients_at pre post ds name Hne Hds).
  - intros y [Hy|Hy]%elem_of_app;
      destruct (expand_coefficients_origin _ _ Hy) as (x & Hx & Hor);
      exists x; (split; [|exact Hor]); apply elem_of_app; [left|right];
      exact Hx.
Qed.

(** At the equation of the docstring of [extract_orgs_desc]: the two
    ferredoxins. *)
Lemma extract_reaction_coefficients_witness :
  Brenda.SUBSTRATES
    (Brenda.extract_reaction
       "2-oxoglutarate + CoA + 2 oxidized ferredoxin = succinyl-CoA + CO2")
  = Brenda.expand_coefficients ["2-oxoglutarate"; "CoA"]
    ++ repeat "oxidized ferredoxin" (Py.int_of_digits "2")
    ++ Brenda.expand_coefficients [].
Proof.
  apply (proj1 (extract_reaction_coefficients
    "2-oxoglutarate + CoA + 2 oxidized ferredoxin = succinyl-CoA + CO2")
    ["2-oxoglutarate"; "CoA"] [] "2" "oxidized ferredoxin").
  - discriminate.
  - reflexivity.
  - vm_compute. reflexivity.
Defined.

(** C8 as stated fails: a name with two coefficients keeps the second. *)
Lemma extract_reaction_keeps_second_coefficient :
  ¬ (∀ y, y ∈ Brenda.SUBSTRATES (Brenda.extract_reaction "2 3 A = B") →
          Brenda.match_coefficient y = None).
Proof.
  intros Hall. specialize (Hall "3 A").
  assert (Hin : "3 A" ∈ Brenda.SUBSTRATES (Brenda.extract_reaction "2 3 A = B")).
  { vm_compute. apply elem_of_cons. by left. }
  specialize (Hall Hin). vm_compute in Hall. discriminate.
Qed.

Example extract_reaction_docstring :
  Brenda.extract_reaction
    "2-oxoglutarate + CoA + 2 oxidized ferredoxin = succinyl-CoA + CO2 + 2 reduced ferredoxin + 2 H+ {r}"
  = {| Brenda.SUBSTRATES :=
         ["2-oxoglutarate"; "CoA"; "oxidized ferredoxin"; "oxidized ferredoxin"];
       Brenda.PRODUCTS :=
         ["succinyl-CoA"; "CO2"; "reduced ferredoxin"; "reduced ferredoxin";
          "H+"; "H+"];
       Brenda.REVERSIBLE := "r";
       Brenda.RXN_TEXT :=
         "2-oxoglutarate + CoA + 2 oxidized ferredoxin = succinyl-CoA + CO2 + 2 reduced ferredoxin + 2 H+" |}.
Proof. vm_compute. reflexivity. Qed.

Example extract_reaction_nad :
  Brenda.extract_reaction "ethanol + NAD = acetaldehyde + NADH+ H+ {}"
  = {| Brenda.SUBSTRATES := ["ethanol"; "NAD+"];
       Brenda.PRODUCTS := ["acetaldehyde"; "NADH"; "H+"];
       Brenda.REVERSIBLE := "?";
       Brenda.RXN_TEXT := "ethanol + NAD+ = acetaldehyde + NADH + H+" |}.
Proof. vm_compute. reflexivity. Qed.

(** ** The direction marker *)

Section Marker.

Import Py Brenda.

Lemma at_end_inv (nl : string) :
  at_end nl = true → nl = EmptyString ∨ nl = newline.
Proof.
  destruct nl as [|c [|d nl]]; cbn [at_end]; [by left| |done].
  intros ->%is_char_eq. by right.
Qed.

Lemma at_end_stops (p : ascii → bool) (nl : string) :
  p "010"%char = false → at_end nl = true → stops p nl.
Proof. intros Hp [->| ->]%at_end_inv; done. Qed.

Lemma match_reversible_at_marker (w sp nl : string) :
  all_chars is_word w = true → all_chars is_blank sp = true →
  at_end nl = true →
  match_reversible_at (marker w sp +:+ nl) = Some (marker w sp).
Proof.
  intros Hw Hsp Hnl. unfold marker, match_reversible_at, is_char.
  change (("{" +:+ w +:+ "}" +:+ sp) +:+ nl)
    with (String "{" ((w +:+ "}" +:+ sp) +:+ nl)).
  cbv beta iota. rewrite Ascii.eqb_refl.
  rewrite !string_app_assoc.
  rewrite (span_stops is_word w ("}" +:+ sp +:+ nl) Hw); [|done].
  change ("}" +:+ sp +:+ nl) with (String "}" (sp +:+ nl)).
  cbv beta iota. rewrite Ascii.eqb_refl.
  rewrite (span_stops is_blank sp nl Hsp); [|by apply at_end_stops].
  by rewrite Hnl.
Qed.

Lemma match_reversible_at_inv (s g : string) :
  match_reversible_at s = Some g →
  ∃ w sp nl, s = marker w sp +:+ nl ∧ g = marker w sp
    ∧ all_chars is_word w = true ∧ all_chars is_blank sp = true
    ∧ at_end nl = true.
Proof.
  unfold match_reversible_at.
  destruct s as [|c s1]; [done|].
  destruct (is_char "{" c) eqn:Hc; [|done]. apply is_char_eq in Hc as ->.
  destruct (span is_word s1) as [w s2] eqn:Hs1.
  destruct (span_app _ _ _ _ Hs1) as [-> Hw].
  destruct s2 as [|d s3]; [done|].
  destruct (is_char "}" d) eqn:Hd; [|done]. apply is_char_eq in Hd as ->.
  destruct (span is_blank s3) as [sp s4] eqn:Hs3.
  destruct (span_app _ _ _ _ Hs3) as [-> Hsp].
  destruct (at_end s4) eqn:Hnl; [|done]. intros [= <-].
  exists w, sp, s4. unfold marker. simpl. by rewrite !string_app_assoc.
Qed.

Lemma has_brace_app (a b : string) :
  has_brace (a +:+ b) = has_brace a || has_brace b.
Proof.
  induction a as [|c a IH]; simpl; [done|]. by rewrite IH, orb_assoc.
Qed.

Lemma has_brace_all (p : ascii → bool) (a : string) :
  p "{"%char = false → all_chars p a = true → has_brace a = false.
Proof.
  intros Hp. induction a as [|c a IH]; simpl; [done|].
  intros [Hc Ha]%andb_true_iff. rewrite (IH Ha), orb_false_r.
  destruct (is_char "{" c) eqn:Hb; [|done].
  apply is_char_eq in Hb as ->. congruence.
Qed.

Lemma has_brace_at_end (nl : string) : at_end nl = true → has_brace nl = false.
Proof. by intros [->| ->]%at_end_inv. Qed.

(** A match leaves no opening brace after its first character. *)
Lemma match_reversible_at_one_brace (c : ascii) (s g : string) :
  match_reversible_at (String c s) = Some g → has_brace s = false.
Proof.
  intros (w & sp & nl & Hs & _ & Hw & Hsp & Hnl)%match_reversible_at_inv.
  unfold marker in Hs. simpl in Hs. injection Hs as _ ->.
  rewrite !string_app_assoc, !has_brace_app.
  change (has_brace (String "}" sp)) with (has_brace sp).
  rewrite (has_brace_all is_word w), (has_brace_all is_blank sp),
    (has_brace_at_end nl); done.
Qed.

Lemma search_reversible_here (s g : string) :
  match_reversible_at s = Some g → search_reversible s = Some g.
Proof. destruct s; cbn [search_reversible]; by intros ->. Qed.

Lemma search_reversible_marker (body w sp nl : string) :
  all_chars is_word w = true → all_chars is_blank sp = true →
  at_end nl = true →
  search_reversible (body +:+ marker w sp +:+ nl) = Some (marker w sp).
Proof.
  intros Hw Hsp Hnl. induction body as [|c body IH].
  - apply search_reversible_here. by apply match_reversible_at_marker.
  - change (String c body +:+ marker w sp +:+ nl)
      with (String c (body +:+ marker w sp +:+ nl)).
    cbn [search_reversible].
    destruct (match_reversible_at (String c (body +:+ marker w sp +:+ nl)))
      as [g|] eqn:Hm; [|done].
    apply match_reversible_at_one_brace in Hm.
    rewrite has_brace_app in Hm.
    change (has_brace (marker w sp +:+ nl)) with true in Hm.
    by rewrite orb_true_r in Hm.
Qed.

Lemma search_reversible_inv (s g : string) :
  search_reversible s = Some g →
  ∃ body w sp nl, s = body +:+ marker w sp +:+ nl ∧ g = marker w sp
    ∧ all_chars is_word w = true ∧ all_chars is_blank sp = true
    ∧ at_end nl = true.
Proof.
  induction s as [|c s IH].
  - simpl. done.
  - cbn [search_reversible].
    destruct (match_reversible_at (String c s)) as [g'|] eqn:Hm.
    + intros [= ->].
      destruct (match_reversible_at_inv _ _ Hm) as (w & sp & nl & Hs & Hrest).
      exists EmptyString, w, sp, nl. by rewrite Hs.
    + intros (body & w & sp & nl & -> & Hrest)%IH.
      by exists (String c body), w, sp, nl.
Qed.

Lemma marker_blanks (w sp : string) :
  marker w sp = marker w EmptyString +:+ sp.
Proof. unfold marker. by rewrite !string_app_assoc. Qed.

Lemma marker_snoc (w : string) :
  marker w EmptyString = ("{" +:+ w) +:+ String "}" EmptyString.
Proof. unfold marker. by rewrite string_app_assoc. Qed.

Lemma strip_marker (w sp : string) :
  all_chars is_blank sp = true → strip (marker w sp) = marker w EmptyString.
Proof.
  intros Hsp. unfold strip.
  change (lstrip (marker w sp)) with (marker w sp).
  rewrite marker_blanks, rstrip_app_blanks by done.
  rewrite marker_snoc. by apply rstrip_ends_solid.
Qed.

Lemma slice_marker (w : string) : slice_1_m1 (marker w EmptyString) = w.
Proof.
  rewrite marker_snoc.
  change (slice_1_m1 (("{" +:+ w) +:+ String "}" EmptyString))
    with (drop_last (w +:+ String "}" EmptyString)).
  apply drop_last_snoc.
Qed.

Lemma length_marker (w sp : string) :
  String.length (marker w sp) = 2 + String.length w + String.length sp.
Proof. unfold marker. simpl. rewrite !string_length_app. simpl. lia. Qed.

Lemma reversibility_marker (body w sp nl : string) :
  all_chars is_word w = true → all_chars is_blank sp = true →
  at_end nl = true →
  reversibility (body +:+ marker w sp +:+ nl)
  = if String.length w + String.length sp =? 0 then "?" else w.
Proof.
  intros Hw Hsp Hnl. unfold reversibility.
  rewrite (search_reversible_marker body w sp nl Hw Hsp Hnl).
  rewrite length_marker, (strip_marker w sp Hsp), slice_marker.
  change (2 <? 2 + String.length w + String.length sp)
    with (0 <? String.length w + String.length sp).
  by destruct (String.length w + String.length sp).
Qed.

End Marker.

(** C7 (as amended): the tag is the unknown tag [?] when the text has no
    trailing direction marker, and also for the empty marker; for a
    trailing marker with a word in the braces the tag is that word,
    whichever word it is. *)
Theorem extract_reaction_reversibility (rxn : string) :
  ((∀ body w sp nl,
      Py.all_chars Py.is_word w = true → Py.all_chars Py.is_blank sp = true →
      Brenda.at_end nl = true → rxn ≠ body +:+ Brenda.marker w sp +:+ nl) →
   Brenda.REVERSIBLE (Brenda.extract_reaction rxn) = "?")
  ∧ (∀ body w sp nl,
       Py.all_chars Py.is_word w = true → Py.all_chars Py.is_blank sp = true →
       Brenda.at_end nl = true → rxn = body +:+ Brenda.marker w sp +:+ nl →
       Brenda.REVERSIBLE (Brenda.extract_reaction rxn)
       = if String.length w + String.length sp =? 0 then "?" else w).
Proof.
  unfold Brenda.extract_reaction; cbn [Brenda.REVERSIBLE]. split.
  - intros Hno. unfold Brenda.reversibility.
    destruct (Brenda.search_reversible rxn) as [g|] eqn:Hs; [|done].
    destruct (search_reversible_inv _ _ Hs)
      as (body & w & sp & nl & Hrxn & _ & Hw & Hsp & Hnl).
    destruct (Hno body w sp nl Hw Hsp Hnl Hrxn).
  - intros body w sp nl Hw Hsp Hnl ->.
    exact (reversibility_marker body w sp nl Hw Hsp Hnl).
Qed.

Lemma extract_reaction_reversibility_witness :
  Brenda.REVERSIBLE (Brenda.extract_reaction "A = B {ir}") = "ir".
Proof.
  apply (proj2 (extract_reaction_reversibility "A = B {ir}")
               "A = B " "ir" EmptyString EmptyString);
    reflexivity.
Defined.

(** C7 as stated fails: four texts get four different tags, so no three
    values hold every tag. *)
Lemma reversibility_four_values :
  ¬ ∃ a b c : string,
      Forall (λ rxn, Brenda.REVERSIBLE (Brenda.extract_reaction rxn) ∈ [a; b; c])
             ["A = B {r}"; "A = B {ir}"; "A = B {x}"; "A = B"].
Proof.
  intros (a & b & c & Hall).
  assert (Hr : Brenda.REVERSIBLE (Brenda.extract_reaction "A = B {r}") = "r")
    by (vm_compute; reflexivity).
  assert (Hir : Brenda.REVERSIBLE (Brenda.extract_reaction "A = B {ir}") = "ir")
    by (vm_compute; reflexivity).
  assert (Hx : Brenda.REVERSIBLE (Brenda.extract_reaction "A = B {x}") = "x")
    by (vm_compute; reflexivity).
  assert (Hq : Brenda.REVERSIBLE (Brenda.extract_reaction "A = B") = "?")
    by (vm_compute; reflexivity).
  apply Forall_cons in Hall as [H1 Hall]. apply Forall_cons in Hall as [H2 Hall].
  apply Forall_cons in Hall as [H3 Hall]. apply Forall_cons in Hall as [H4 _].
  cbv beta in H1, H2, H3, H4. rewrite Hr in H1. rewrite Hir in H2.
  rewrite Hx in H3. rewrite Hq in H4.
  rewrite !elem_of_cons in H1, H2, H3, H4.
  destruct H1 as [?|[?|[?|?%elem_of_nil]]];
    destruct H2 as [?|[?|[?|?%elem_of_nil]]];
    destruct H3 as [?|[?|[?|?%elem_of_nil]]];
    destruct H4 as [?|[?|[?|?%elem_of_nil]]];
    try done; congruence.
Qed.

(** ** Lists *)

Section ListFacts.

Context {A B : Type}.

Lemma map_fmap (f : A → B) (l : list A) : map f l = f <$> l.
Proof. reflexivity. Qed.

Lemma elem_of_map (f : A → B) (l : list A) (y : B) :
  y ∈ map f l ↔ ∃ x, y = f x ∧ x ∈ l.
Proof. rewrite map_fmap. apply list_elem_of_fmap. Qed.

Lemma elem_of_bool_filter (f : A → bool) (l : list A) (x : A) :
  x ∈ List.filter f l ↔ x ∈ l ∧ f x = true.
Proof. rewrite !list_elem_of_In. apply filter_In. Qed.

Lemma elem_of_flat_map (f : A → list B) (l : list A) (y : B) :
  y ∈ flat_map f l ↔ ∃ x, x ∈ l ∧ y ∈ f x.
Proof.
  rewrite list_elem_of_In, in_flat_map.
  by setoid_rewrite <- list_elem_of_In.
Qed.

Lemma NoDup_bool_filter (f : A → bool) (l : list A) :
  NoDup l → NoDup (List.filter f l).
Proof.
  induction 1 as [|x l Hx Hl IH]; simpl; [constructor|].
  destruct (f x); [|done]. constructor; [|done].
  rewrite elem_of_bool_filter. tauto.
Qed.

End ListFacts.

(** ** The filter of [process_entry] *)

Section ProcessEntry.

Import Brenda.







End ProcessEntry.



(** ** The data frame of [parse_brenda] *)

Section ParseBrendaFacts.

Import Brenda.

Context {Cells : Type} `{EqDecision Cells}.
Variable astype_str : Row → Cells.

Lemma drop_duplicates_subset (seen : list Cells) (df : list Row) (r : Row) :
  r ∈ drop_duplicates astype_str seen df → r ∈ df ∧ astype_str r ∉ seen.
Proof.
  revert seen. induction df as [|r0 df IH]; intros seen; simpl.
  - by intros ?%elem_of_nil.
  - case_bool_decide as Hseen.
    + intros [Hr Hs]%IH. split; [by right|done].
    + intros [->|[Hr Hs]%IH]%elem_of_cons; [split; [by left|done]|].
      split; [by right|]. intros Hin. apply Hs. by right.
Qed.

(** No two rows that stay have the same rendering. *)
Lemma drop_duplicates_renderings (seen : list Cells) (df : list Row) :
  NoDup (astype_str <$> drop_duplicates astype_str seen df).
Proof.
  revert seen. induction df as [|r0 df IH]; intros seen; simpl.
  - constructor.
  - case_bool_decide as Hseen; [apply IH|].
    rewrite fmap_cons. constructor; [|apply IH].
    intros (r & Heq & Hr)%list_elem_of_fmap.
    apply drop_duplicates_subset in Hr as [_ Hr]. apply Hr.
    rewrite <- Heq. by left.
Qed.

Lemma drop_duplicates_NoDup (df : list Row) :
  NoDup (drop_duplicates astype_str [] df).
Proof. eapply NoDup_fmap_1, drop_duplicates_renderings. Qed.

End ParseBrendaFacts.

Lemma drop_ec7_spec (df : list Brenda.Row) (r : Brenda.Row) :
  r ∈ Brenda.drop_ec7 df
  ↔ r ∈ df ∧ Py.startswith "7" (Brenda.EC_NUM r) = false.
Proof.
  unfold Brenda.drop_ec7. rewrite elem_of_bool_filter, negb_true_iff. done.
Qed.

Lemma elem_of_compounds_of (df : list Brenda.Row) (x : string) :
  x ∈ Brenda.compounds_of df
  ↔ ∃ r, r ∈ df ∧ (x ∈ Brenda.R_SUBSTRATES r ∨ x ∈ Brenda.R_PRODUCTS r).
Proof.
  unfold Brenda.compounds_of.
  rewrite elem_of_union, !elem_of_list_to_set, !elem_of_flat_map.
  split.
  - intros [(r & Hr & Hx)|(r & Hr & Hx)]; exists r; tauto.
  - intros (r & Hr & [Hx|Hx]); [left|right]; by exists r.
Qed.


(** C10: the reaction data frame of [parse_brenda] has no row twice and no
    row whose EC number starts with [7]; a parsed record with such an EC
    number is not in it, and the compounds are the names of its rows
    only. *)
Theorem parse_brenda_frame {Cells : Type} `{EqDecision Cells}
    (astype_str : Brenda.Row → Cells)
    (entries : list (option (list Brenda.Row))) :
  NoDup (Brenda.parse_brenda astype_str entries).1
  ∧ (∀ r, r ∈ (Brenda.parse_brenda astype_str entries).1 →
          Py.startswith "7" (Brenda.EC_NUM r) = false)
  ∧ (∀ r, r ∈ foldl Brenda.add_entry [] entries →
          Py.startswith "7" (Brenda.EC_NUM r) = true →
          r ∉ (Brenda.parse_brenda astype_str entries).1)
  ∧ (∀ x, x ∈ (Brenda.parse_brenda astype_str entries).2 →
          ∃ r, r ∈ (Brenda.parse_brenda astype_str entries).1
               ∧ Py.startswith "7" (Brenda.EC_NUM r) = false
               ∧ (x ∈ Brenda.R_SUBSTRATES r ∨ x ∈ Brenda.R_PRODUCTS r)).
Proof.
  unfold Brenda.parse_brenda. cbn [fst snd].
  repeat split.
  - apply NoDup_bool_filter, drop_duplicates_NoDup.
  - by intros r [_ Hr]%drop_ec7_spec.
  - intros r _ H7 [_ Hr]%drop_ec7_spec. congruence.
  - intros x (r & Hr & Hx)%elem_of_compounds_of.
    exists r. split; [done|]. split; [|done].
    by apply drop_ec7_spec in Hr as [_ Hr].
Qed.

Lemma parse_brenda_frame_witness :
  Brenda.parse_brenda (λ r, r) Sample.entries
  = ([Sample.row "A = D" ["A"] ["D"]], {[ "A"; "D" ]})
  ∧ NoDup (Brenda.parse_brenda (λ r, r) Sample.entries).1.
Proof.
  split; [vm_compute; reflexivity|].
  apply (parse_brenda_frame (λ r, r) Sample.entries).
Defined.

(** ** The candidates of [make_initial] *)

Section Product.

Import EnzymeMap.

Context {A : Type}.

Lemma elem_of_itertools_product (pools : list (list A)) (c : list A) :
  c ∈ itertools_product pools ↔ Forall2 (λ x pool, x ∈ pool) c pools.
Proof.
  revert c. induction pools as [|pool pools IH]; intros c; simpl.
  - rewrite list_elem_of_singleton. split; [intros ->; constructor|].
    by intros ->%Forall2_nil_inv_r.
  - rewrite elem_of_flat_map. split.
    + intros (x & Hx & (c' & -> & Hc')%elem_of_map).
      constructor; [done|]. by apply IH.
    + intros (x & c' & Hx & Hc' & ->)%Forall2_cons_inv_r.
      exists x. split; [done|]. apply elem_of_map. exists c'.
      split; [done|]. by apply IH.
Qed.

Lemma length_flat_map_const {B : Type} (f : A → list B) (l : list A) (n : nat) :
  (∀ x, length (f x) = n) → length (flat_map f l) = length l * n.
Proof.
  intros Hf. induction l as [|x l IH]; simpl; [done|].
  by rewrite length_app, Hf, IH.
Qed.

Lemma length_itertools_product (pools : list (list A)) :
  length (itertools_product pools) = product_size pools.
Proof.
  induction pools as [|pool pools IH]; simpl; [done|].
  rewrite (length_flat_map_const _ _ (product_size pools)); [done|].
  intros x. by rewrite length_map.
Qed.

Lemma product_size_empty (pools : list (list A)) :
  [] ∈ pools → product_size pools = 0.
Proof.
  induction pools as [|pool pools IH]; simpl.
  - by intros ?%elem_of_nil.
  - intros [<-|Hin]%elem_of_cons; [done|]. rewrite (IH Hin). lia.
Qed.

Lemma itertools_product_pair (a b : list A) :
  itertools_product [a; b] = map (λ p, [p.1; p.2]) (list_prod a b).
Proof.
  simpl. induction a as [|x a IH]; simpl; [done|].
  rewrite map_app, <- IH. f_equal.
  clear IH. induction b as [|y b IHb]; simpl; [done|].
  by rewrite IHb.
Qed.

Lemma list_prod_map {B C D : Type} (f : A → C) (g : B → D)
    (a : list A) (b : list B) :
  list_prod (map f a) (map g b) = map (λ p, (f p.1, g p.2)) (list_prod a b).
Proof.
  induction a as [|x a IH]; simpl; [done|].
  rewrite map_app, IH. f_equal. by rewrite !map_map.
Qed.

End Product.

Section Candidates.

Import EnzymeMap.

Variable put_h_last : string → string.

Lemma possible_rxns_spec (c2s : gmap string (list string))
    (substrates products : list string) (rxns : list string) :
  possible_rxns put_h_last c2s substrates products = Some rxns →
  ∃ sv pv,
    lookup_all c2s substrates = Some sv ∧ lookup_all c2s products = Some pv
    ∧ rxns = map (λ sp, candidate put_h_last sp.1 sp.2)
                 (list_prod (itertools_product sv) (itertools_product pv))
    ∧ length rxns = product_size sv * product_size pv
    ∧ ([] ∈ sv ++ pv → rxns = []).
Proof.
  unfold possible_rxns.
  destruct (lookup_all c2s substrates) as [sv|]; [|done].
  destruct (lookup_all c2s products) as [pv|]; [|done].
  cbv beta iota zeta delta [mbind option_bind].
  intros Heq%(inj Some). exists sv, pv.
  assert (Hrxns : rxns = map (λ sp : list string * list string,
                                candidate put_h_last sp.1 sp.2)
                    (list_prod (itertools_product sv) (itertools_product pv))).
  { rewrite <- Heq, itertools_product_pair, list_prod_map, !map_map.
    reflexivity. }
  assert (Hlen : length rxns = product_size sv * product_size pv).
  { by rewrite Hrxns, length_map, length_prod, !length_itertools_product. }
  repeat split; [done..|].
  intros Hempty. apply length_zero_iff_nil. rewrite Hlen.
  apply elem_of_app in Hempty as [Hs|Hp].
  - by rewrite (product_size_empty sv Hs).
  - rewrite (product_size_empty pv Hp). lia.
Qed.


End Candidates.

(** ** The balancing loop and its cache *)

Section Balancing.

Import EnzymeMap.

Context {Redox : Type}.
Variable put_h_last : string → string.
Variable correct_reaction : list string → string → Redox → Redox → list string.
Variables r2o o2r : Redox.

Local Notation "'step'" := (balance_step put_h_last correct_reaction r2o o2r).

(** What the loop does from any state on: the cache only grows, every row
    receives the entry of its text in the final cache, and the texts that
    are corrected are new to the cache and pairwise different. *)
Lemma balance_fold (rows : list (string * list string)) (st0 : BalanceState) :
  (∀ t v, cached st0 !! t = Some v → cached (foldl step st0 rows) !! t = Some v)
  ∧ (∃ outs,
       balanced_rxn_list (foldl step st0 rows) = balanced_rxn_list st0 ++ outs
       ∧ length outs = length rows
       ∧ ∀ i t p, rows !! i = Some (t, p) →
           ∃ v, outs !! i = Some v ∧ cached (foldl step st0 rows) !! t = Some v)
  ∧ (∃ new,
       corrected (foldl step st0 rows) = corrected st0 ++ new
       ∧ NoDup new
       ∧ (∀ t, t ∈ new → cached st0 !! t = None ∧ t ∈ rows.*1)
       ∧ (∀ t, t ∈ rows.*1 → is_Some (cached st0 !! t) ∨ t ∈ new)).
Proof.
  revert st0. induction rows as [|[t p] rows IH]; intros st0.
  - cbn [foldl]. split; [done|]. split.
    + exists []. rewrite app_nil_r. split; [done|]. split; [done|].
      intros i t p Hi. by rewrite lookup_nil in Hi.
    + exists []. rewrite app_nil_r. split; [done|]. split; [constructor|].
      split; intros t Ht; by apply elem_of_nil in Ht.
  - cbn [foldl].
    destruct (IH (step st0 (t, p)))
      as (Hmono & (outs & Hout & Hlen & Hlook)
          & (new & Hcor & Hnd & Hnew1 & Hnew2)).
    revert Hmono Hout Hlook Hcor Hnew1 Hnew2.
    generalize (foldl step (step st0 (t, p)) rows). intros st.
    unfold balance_step. destruct (cached st0 !! t) as [v|] eqn:Ht;
      cbn [cached balanced_rxn_list corrected];
      intros Hmono Hout Hlook Hcor Hnew1 Hnew2.
    + split; [done|]. split.
      * exists (v :: outs). rewrite Hout, <- (assoc_L (++)).
        split; [done|]. split; [by rewrite length_cons, Hlen|].
        intros [|i] t' p' Hi; cbn in Hi.
        -- injection Hi as <- <-. exists v. split; [done|]. by apply Hmono.
        -- by apply (Hlook i t' p').
      * exists new. split; [done|]. split; [done|]. split.
        -- intros t' Ht'. destruct (Hnew1 t' Ht') as [? ?].
           split; [done|]. rewrite fmap_cons. by right.
        -- intros t'. rewrite fmap_cons.
           intros [Heq|Ht']%elem_of_cons; [subst; left; by eexists|].
           by apply Hnew2.
    + set (rxns := map put_h_last (correct_reaction p t r2o o2r)) in *.
      split; [|split].
      * intros t' v' Ht'. apply Hmono.
        rewrite lookup_insert_ne; [done|]. congruence.
      * exists (rxns :: outs). rewrite Hout, <- (assoc_L (++)).
        split; [done|]. split; [by rewrite length_cons, Hlen|].
        intros [|i] t' p' Hi; cbn in Hi.
        -- injection Hi as <- <-. exists rxns. split; [done|].
           apply Hmono. by rewrite lookup_insert_eq.
        -- by apply (Hlook i t' p').
      * exists (t :: new). rewrite Hcor, <- (assoc_L (++)).
        split; [done|]. split; [|split].
        -- constructor; [|done]. intros [Hnone _]%Hnew1.
           by rewrite lookup_insert_eq in Hnone.
        -- intros t' [->|Ht']%elem_of_cons.
           { split; [done|]. rewrite fmap_cons. by left. }
           destruct (Hnew1 t' Ht') as [Hnone Hin]. split.
           ++ destruct (decide (t = t')) as [->|Hne].
              ** by rewrite lookup_insert_eq in Hnone.
              ** by rewrite lookup_insert_ne in Hnone.
           ++ rewrite fmap_cons. by right.
        -- intros t'. rewrite fmap_cons.
           intros [->|Ht']%elem_of_cons; [right; by left|].
           destruct (decide (t = t')) as [->|Hne]; [right; by left|].
           destruct (Hnew2 t' Ht') as [Hsome|Hin]; [|right; by right].
           left. by rewrite lookup_insert_ne in Hsome.
Qed.

(** The loop from the empty cache. *)
Lemma balance_all_spec (rows : list (string * list string)) :
  length (balanced_rxn_list (balance_all put_h_last correct_reaction r2o o2r rows))
  = length rows
  ∧ (∀ i t p, rows !! i = Some (t, p) →
       ∃ v, balanced_rxn_list
              (balance_all put_h_last correct_reaction r2o o2r rows) !! i = Some v
            ∧ cached (balance_all put_h_last correct_reaction r2o o2r rows) !! t
              = Some v)
  ∧ NoDup (corrected (balance_all put_h_last correct_reaction r2o o2r rows))
  ∧ (∀ t, t ∈ corrected (balance_all put_h_last correct_reaction r2o o2r rows)
          ↔ t ∈ rows.*1).
Proof.
  unfold balance_all.
  destruct (balance_fold rows (mkBalanceState ∅ [] []))
    as (_ & (outs & Hout & Hlen & Hlook) & (new & Hcor & Hnd & Hnew1 & Hnew2)).
  cbn [cached balanced_rxn_list corrected] in *.
  rewrite Hout, Hcor. cbn [app]. split; [done|]. split; [done|].
  split; [done|]. intros t. split.
  - intros Ht. by apply Hnew1.
  - intros Ht. destruct (Hnew2 t Ht) as [Hsome|Hin]; [|done].
    rewrite lookup_empty in Hsome. by destruct Hsome.
Qed.

(** The rows of the result of [make_initial], column by column. *)
Lemma make_initial_rows (c2s : gmap string (list string))
    (df : list Brenda.Row) (out : list InitRow) :
  make_initial put_h_last correct_reaction c2s r2o o2r df = Some out →
  ∃ reactions,
    all_possible_rxns put_h_last c2s df = Some reactions
    ∧ balance_frame put_h_last correct_reaction c2s r2o o2r df
      = Some (balance_all put_h_last correct_reaction r2o o2r
                (zip (map Brenda.R_RXN_TEXT df) reactions))
    ∧ length out = length df
    ∧ ∀ i ri, out !! i = Some ri →
        df !! i = Some (parsed ri)
        ∧ reactions !! i = Some (POSSIBLE_RXNS ri)
        ∧ balanced_rxn_list
            (balance_all put_h_last correct_reaction r2o o2r
               (zip (map Brenda.R_RXN_TEXT df) reactions)) !! i
          = Some (BALANCED_RXNS ri).
Proof.
  unfold make_initial, balance_frame.
  destruct (all_possible_rxns put_h_last c2s df) as [reactions|] eqn:Hall;
    [|done].
  cbv beta iota zeta delta [mbind option_bind].
  intros Heq%(inj Some). exists reactions. split; [done|]. split; [done|].
  assert (Hlen : length reactions = length df).
  { symmetry. eapply Forall2_length, mapM_Some_1, Hall. }
  set (rows := zip (map Brenda.R_RXN_TEXT df) reactions) in *.
  destruct (balance_all_spec rows) as (Hblen & _).
  assert (Hrows : length rows = length df).
  { unfold rows. rewrite length_zip_with, length_map. lia. }
  split.
  - rewrite <- Heq, !length_zip_with. lia.
  - intros i ri Hi. rewrite <- Heq in Hi.
    apply lookup_zip_with_Some in Hi as ([r p] & b & -> & Hrp & Hb).
    apply lookup_zip_with_Some in Hrp as (r' & p' & [= <- <-] & Hr & Hp).
    done.
Qed.

End Balancing.



Example make_initial_sample :
  map EnzymeMap.POSSIBLE_RXNS
  <$> EnzymeMap.make_initial Sample.put_h_last Sample.correct_reaction
        Sample.compound_to_smiles tt tt Sample.frame
  = Some [ ["a1.b1>>c1"; "a2.b1>>c1"]; ["a1.b1>>c1"; "a2.b1>>c1"]; [] ].
Proof. vm_compute. reflexivity. Qed.



(** ** The stages of [map_group] *)

Section Stages.

Import EnzymeMap.

Context {Rule Indi RuleLib Templates : Type}.
Variable H : @Helpers Rule Indi RuleLib Templates.

Local Notation "'Entry'" := (@EnzymeMap.Entry Rule Indi).

Lemma for_rows_lookup (body : nat → Entry → Entry * list Call) (k : nat)
    (df : list Entry) (i : nat) :
  (for_rows body k df).1 !! i = (λ e, (body (k + i) e).1) <$> df !! i.
Proof.
  revert k i. induction df as [|e df IH]; intros k i; simpl; [done|].
  destruct (body k e) as [e' calls] eqn:Hb.
  destruct (for_rows body (S k) df) as [df' calls'] eqn:Hf.
  destruct i as [|i]; simpl.
  - by rewrite Nat.add_0_r, Hb.
  - specialize (IH (S k) i). rewrite Hf in IH. simpl in IH.
    rewrite IH. by replace (k + S i) with (S k + i) by lia.
Qed.

Lemma for_rows_length (body : nat → Entry → Entry * list Call) (k : nat)
    (df : list Entry) :
  length (for_rows body k df).1 = length df.
Proof.
  revert k. induction df as [|e df IH]; intros k; simpl; [done|].
  destruct (body k e) as [e' calls].
  specialize (IH (S k)). destruct (for_rows body (S k) df) as [df' calls'].
  simpl in *. by rewrite IH.
Qed.

Lemma for_rows_calls (body : nat → Entry → Entry * list Call) (k : nat)
    (df : list Entry) (c : Call) :
  c ∈ (for_rows body k df).2
  ↔ ∃ i e, df !! i = Some e ∧ c ∈ (body (k + i) e).2.
Proof.
  revert k. induction df as [|e df IH]; intros k; simpl.
  - split; [by intros ?%elem_of_nil|]. by intros (i & e & Hi & _).
  - destruct (body k e) as [e' calls] eqn:Hb.
    specialize (IH (S k)).
    destruct (for_rows body (S k) df) as [df' calls'] eqn:Hf.
    simpl in *. rewrite elem_of_app, IH. split.
    + intros [Hc|(i & e0 & Hi & Hc)].
      * exists 0, e. rewrite Nat.add_0_r, Hb. done.
      * exists (S i), e0. split; [done|].
        by replace (k + S i) with (S (k + i)) by lia.
    + intros ([|i] & e0 & Hi & Hc); simpl in Hi.
      * injection Hi as <-. rewrite Nat.add_0_r, Hb in Hc. by left.
      * right. exists i, e0. split; [done|].
        by replace (S (k + i)) with (k + S i) by lia.
Qed.

(** A row that has reactions is left alone by the two later loops, and
    they make no call for it. *)
Lemma multi_body_mapped (db_rules : RuleLib) (ids : list Z) (i : nat) (e : Entry) :
  mapped_rxns e ≠ [] → multi_body H db_rules ids i e = (e, []).
Proof.
  intros Hm. unfold multi_body.
  destruct (mapped_rxns e) as [|r rs]; [done|].
  cbn [length Nat.eqb]. by rewrite andb_false_r.
Qed.

Lemma suggest_body_mapped (db_rules : RuleLib) (templates : Templates)
    (ids : list Z) (i : nat) (e : Entry) :
  mapped_rxns e ≠ [] → suggest_body H db_rules templates ids i e = (e, []).
Proof.
  intros Hm. unfold suggest_body. by destruct (mapped_rxns e) as [|r rs].
Qed.

Lemma length_zero_nil {A : Type} (l : list A) : (length l =? 0) = true → l = [].
Proof. by destruct l. Qed.

Lemma multi_body_calls (db_rules : RuleLib) (ids : list Z) (i : nat)
    (e : Entry) (c : Call) :
  c ∈ (multi_body H db_rules ids i e).2 →
  mapped_rxns e = []
  ∧ c = CallMap i (balanced_rxns e)
          (if length ids =? 0 then AllRules else RulesAt ids) false.
Proof.
  unfold multi_body.
  destruct (0 <? length (balanced_rxns e)); cbn [andb];
    [|by intros ?%elem_of_nil].
  destruct (length (mapped_rxns e) =? 0) eqn:Hm; [|by intros ?%elem_of_nil].
  cbn [snd]. intros ->%list_elem_of_singleton.
  split; [by apply length_zero_nil|done].
Qed.

Lemma suggest_body_calls (db_rules : RuleLib) (templates : Templates)
    (ids : list Z) (i : nat) (e : Entry) (c : Call) :
  c ∈ (suggest_body H db_rules templates ids i e).2 →
  mapped_rxns e = [] ∧ call_row c = i.
Proof.
  unfold suggest_body.
  destruct (length (mapped_rxns e) =? 0) eqn:Hm; [|by intros ?%elem_of_nil].
  apply length_zero_nil in Hm.
  destruct (0 <? length _); cbn [snd];
    rewrite ?elem_of_cons, ?elem_of_nil; intros Hc; (split; [done|]);
    repeat match type of Hc with
    | _ ∨ _ => destruct Hc as [Hc|Hc]
    | False => destruct Hc
    | _ = _ => subst c
    end; done.
Qed.

Lemma set_mapped_or_keep (e : Entry) (src : Source) (stp : Step) (r : Mapped) :
  kept_or_mapped e (if 0 <? length (m_rxns r) then set_mapped e src stp r else e).
Proof.
  destruct (m_rxns r) as [|x xs] eqn:Hr; cbn [length Nat.ltb Nat.leb].
  - by left.
  - right. exists src, stp, r. split; [done|]. by rewrite Hr.
Qed.

Lemma single_body_result (db_rules : RuleLib) (i : nat) (e : Entry) :
  kept_or_mapped e (single_body H db_rules i e).1.
Proof.
  unfold single_body. destruct (0 <? length (balanced_rxns e)); cbn [fst].
  - apply set_mapped_or_keep.
  - by left.
Qed.

Lemma multi_body_result (db_rules : RuleLib) (ids : list Z) (i : nat) (e : Entry) :
  kept_or_mapped e (multi_body H db_rules ids i e).1.
Proof.
  unfold multi_body. destruct (_ && _); cbn [fst].
  - apply set_mapped_or_keep.
  - by left.
Qed.

Lemma suggest_body_result (db_rules : RuleLib) (templates : Templates)
    (ids : list Z) (i : nat) (e : Entry) :
  kept_or_mapped e (suggest_body H db_rules templates ids i e).1.
Proof.
  unfold suggest_body. destruct (length (mapped_rxns e) =? 0); [|by left].
  destruct (0 <? length _); cbn [fst]; [|by left].
  apply set_mapped_or_keep.
Qed.

Lemma kept_or_mapped_unset (e e' : Entry) :
  kept_or_mapped e e' → unset_when_unmapped e → unset_when_unmapped e'.
Proof.
  intros [->|(src & stp & r & -> & Hr)] He; [done|].
  intros Hm. by destruct Hr.
Qed.

Lemma single_stage_lookup (db_rules : RuleLib) (df : list Entry) (i : nat) (e' : Entry) :
  (single_stage H db_rules df).1 !! i = Some e' →
  ∃ e, df !! i = Some e ∧ kept_or_mapped e e'.
Proof.
  unfold single_stage. rewrite for_rows_lookup.
  destruct (df !! i) as [e|]; [|done]. intros [= <-].
  exists e. split; [done|]. apply single_body_result.
Qed.

Lemma multi_stage_lookup (db_rules : RuleLib) (df : list Entry) (i : nat) (e' : Entry) :
  (multi_stage H db_rules df).1 !! i = Some e' →
  ∃ e, df !! i = Some e ∧ kept_or_mapped e e'.
Proof.
  unfold multi_stage. rewrite for_rows_lookup.
  destruct (df !! i) as [e|]; [|done]. intros [= <-].
  exists e. split; [done|]. apply multi_body_result.
Qed.

Lemma multi_stage_mapped (db_rules : RuleLib) (df : list Entry) (i : nat) (e : Entry) :
  df !! i = Some e → mapped_rxns e ≠ [] →
  (multi_stage H db_rules df).1 !! i = Some e.
Proof.
  intros Hi Hm. unfold multi_stage.
  rewrite for_rows_lookup, Hi. cbn [fmap option_fmap option_map].
  by rewrite (multi_body_mapped _ _ _ _ Hm).
Qed.

Lemma suggest_stage_mapped (db_rules : RuleLib) (df : list Entry) (i : nat) (e : Entry) :
  df !! i = Some e → mapped_rxns e ≠ [] →
  (suggest_stage H db_rules df).1 !! i = Some e.
Proof.
  intros Hi Hm. unfold suggest_stage.
  destruct (0 <? length _); [|done].
  rewrite for_rows_lookup, Hi. cbn [fmap option_fmap option_map].
  by rewrite (suggest_body_mapped _ _ _ _ _ Hm).
Qed.

Lemma multi_stage_calls (db_rules : RuleLib) (df : list Entry) (c : Call) :
  c ∈ (multi_stage H db_rules df).2 →
  ∃ e, df !! call_row c = Some e ∧ mapped_rxns e = []
    ∧ c = CallMap (call_row c) (balanced_rxns e)
            (if length (rule_ids_in_ec H df) =? 0 then AllRules
             else RulesAt (rule_ids_in_ec H df)) false.
Proof.
  unfold multi_stage.
  intros (i & e & Hi & [Hm ->]%multi_body_calls)%for_rows_calls.
  exists e. by cbn [call_row Nat.add].
Qed.

Lemma suggest_stage_calls (db_rules : RuleLib) (df : list Entry) (c : Call) :
  c ∈ (suggest_stage H db_rules df).2 →
  ∃ e, df !! call_row c = Some e ∧ mapped_rxns e = [].
Proof.
  unfold suggest_stage. destruct (0 <? length _); [|by intros ?%elem_of_nil].
  intros (i & e & Hi & [Hm Hrow]%suggest_body_calls)%for_rows_calls.
  cbn [Nat.add] in Hrow. exists e. by rewrite Hrow.
Qed.

End Stages.

Section StageFacts.

Import EnzymeMap.

Context {Rule Indi RuleLib Templates : Type}.
Variable H : @Helpers Rule Indi RuleLib Templates.

Local Notation "'Entry'" := (@EnzymeMap.Entry Rule Indi).

Lemma elem_of_not_none {A : Type} (column : list (list (option A))) (x : A) :
  x ∈ not_none column ↔ ∃ l, l ∈ column ∧ Some x ∈ l.
Proof.
  unfold not_none. rewrite list_elem_of_omap. split.
  - intros (o & Ho & Hx). cbn in Hx. subst o.
    apply list_elem_of_In, in_concat in Ho as (l & Hl & Ho).
    exists l. by rewrite !list_elem_of_In.
  - intros (l & Hl & Hx). exists (Some x). split; [|done].
    apply list_elem_of_In, in_concat. exists l. by rewrite <- !list_elem_of_In.
Qed.

Lemma elem_of_rule_ids_in_ec (df : list Entry) (x : Z) :
  (∀ l y, y ∈ list_of_set H l ↔ y ∈ l) →
  x ∈ rule_ids_in_ec H df ↔ ∃ e, e ∈ df ∧ Some x ∈ rule_ids e.
Proof.
  intros Hset. unfold rule_ids_in_ec. rewrite Hset, elem_of_not_none. split.
  - intros (l & (e & -> & He)%elem_of_map & Hx). by exists e.
  - intros (e & He & Hx). exists (rule_ids e). split; [|done].
    apply elem_of_map. by exists e.
Qed.

Lemma for_rows_ext (body1 body2 : nat → Entry → Entry * list Call) (k : nat)
    (df : list Entry) :
  (∀ i e, body1 i e = body2 i e) → for_rows body1 k df = for_rows body2 k df.
Proof.
  intros Hb. revert k. induction df as [|e df IH]; intros k; simpl; [done|].
  by rewrite Hb, IH.
Qed.

Lemma suggest_stage_quiet (db_rules : RuleLib) (df : list Entry) :
  suggest_stage H db_rules df = suggest_stage (quiet H) db_rules df.
Proof.
  unfold suggest_stage. cbn [make_templates_for_suggestions quiet].
  destruct (0 <? length _); [|done].
  apply for_rows_ext. intros i e. unfold suggest_body.
  cbn [suggest_corrections quiet]. by destruct (suggest_corrections H _ _).
Qed.

Lemma suggest_body_raised (db_rules : RuleLib) (templates : Templates)
    (ids : list Z) (i : nat) (e : Entry) (msg : string) :
  suggest_corrections H (uncorrected_rxns e) templates = Raised msg →
  (suggest_body H db_rules templates ids i e).1 = e.
Proof.
  intros Hs. unfold suggest_body. rewrite Hs.
  by destruct (length (mapped_rxns e) =? 0).
Qed.

(** After the two mapping loops a row without reactions has no source and
    no step. *)
Lemma mapped_stages_unset (db_rules : RuleLib) (df : list InitRow) (i : nat)
    (e : Entry) :
  (multi_stage H db_rules
     (single_stage H db_rules (map init_entry df)).1).1 !! i = Some e →
  unset_when_unmapped e.
Proof.
  intros (e1 & (e0 & Hi & H01)%single_stage_lookup & H12)%multi_stage_lookup.
  apply (kept_or_mapped_unset e1 e H12), (kept_or_mapped_unset e0 e1 H01).
  rewrite map_fmap, list_lookup_fmap in Hi.
  destruct (df !! i) as [r|]; [|done]. injection Hi as <-. done.
Qed.

End StageFacts.

(** C3: the calls of [map_group] are those of the three loops in order; a
    row that has reactions after the single step loop is the same row after
    the multi step loop and after the suggestion loop, and neither loop
    calls a helper for it; every call of the two later loops is for a row
    whose list of reactions is empty when the loop starts. *)
Theorem map_group_no_retry {Rule Indi RuleLib Templates : Type}
    (H : @EnzymeMap.Helpers Rule Indi RuleLib Templates)
    (df : list EnzymeMap.InitRow) (db_rules : RuleLib) :
  let df1 := (EnzymeMap.single_stage H db_rules (map EnzymeMap.init_entry df)).1 in
  let df2 := (EnzymeMap.multi_stage H db_rules df1).1 in
  (EnzymeMap.map_group H df db_rules).2
  = (EnzymeMap.single_stage H db_rules (map EnzymeMap.init_entry df)).2
    ++ (EnzymeMap.multi_stage H db_rules df1).2
    ++ (EnzymeMap.suggest_stage H db_rules df2).2
  ∧ (∀ i e,
       df1 !! i = Some e → EnzymeMap.mapped_rxns e ≠ [] →
       df2 !! i = Some e
       ∧ (EnzymeMap.suggest_stage H db_rules df2).1 !! i = Some e
       ∧ ∀ c, c ∈ (EnzymeMap.multi_stage H db_rules df1).2
                  ++ (EnzymeMap.suggest_stage H db_rules df2).2 →
              EnzymeMap.call_row c ≠ i)
  ∧ (∀ c, c ∈ (EnzymeMap.multi_stage H db_rules df1).2 →
          ∃ e, df1 !! EnzymeMap.call_row c = Some e
               ∧ EnzymeMap.mapped_rxns e = [])
  ∧ (∀ c, c ∈ (EnzymeMap.suggest_stage H db_rules df2).2 →
          ∃ e, df2 !! EnzymeMap.call_row c = Some e
               ∧ EnzymeMap.mapped_rxns e = []).
Proof.
  intros df1 df2. split; [|split; [|split]].
  - unfold EnzymeMap.map_group. fold df1.
    destruct (EnzymeMap.single_stage H db_rules (map EnzymeMap.init_entry df))
      as [d1 c1] eqn:H1.
    cbn [fst snd] in *. subst df1. fold df2.
    destruct (EnzymeMap.multi_stage H db_rules d1) as [d2 c2] eqn:H2.
    cbn [fst snd] in *. subst df2.
    by destruct (EnzymeMap.suggest_stage H db_rules d2) as [d3 c3].
  - intros i e Hi Hm.
    pose proof (multi_stage_mapped H db_rules df1 i e Hi Hm) as Hi2.
    split; [done|]. split; [by apply suggest_stage_mapped|].
    intros c [Hc|Hc]%elem_of_app Hrow.
    + apply multi_stage_calls in Hc as (e' & He' & Hm' & _).
      rewrite Hrow in He'. congruence.
    + apply suggest_stage_calls in Hc as (e' & He' & Hm').
      rewrite Hrow in He'. fold df2 in Hi2. congruence.
  - intros c (e & He & Hm & _)%multi_stage_calls. by exists e.
  - intros c Hc. by apply suggest_stage_calls in Hc.
Qed.

Lemma map_group_no_retry_witness :
  ∃ e,
    (EnzymeMap.single_stage Sample.helpers Sample.db_rules
       (map EnzymeMap.init_entry Sample.group)).1 !! 0 = Some e
    ∧ EnzymeMap.mapped_rxns e ≠ []
    ∧ ∀ c,
        c ∈ (EnzymeMap.multi_stage Sample.helpers Sample.db_rules
               (EnzymeMap.single_stage Sample.helpers Sample.db_rules
                  (map EnzymeMap.init_entry Sample.group)).1).2
            ++ (EnzymeMap.suggest_stage Sample.helpers Sample.db_rules
                  (EnzymeMap.multi_stage Sample.helpers Sample.db_rules
                     (EnzymeMap.single_stage Sample.helpers Sample.db_rules
                        (map EnzymeMap.init_entry Sample.group)).1).1).2 →
        EnzymeMap.call_row c ≠ 0.
Proof.
  eexists. split; [vm_compute; reflexivity|]. split; [discriminate|].
  eapply (proj1 (proj2 (map_group_no_retry Sample.helpers Sample.group
                          Sample.db_rules))).
  - vm_compute. reflexivity.
  - discriminate.
Defined.

(** C5: the rule ids collected before the multi step loop are those of the
    rows the single step loop has mapped; every call of the multi step
    loop is a multi step call for the balanced reactions of its row, with
    the rules at these ids when there is one and with the whole library
    when there is none, and the row gets what the call returns. *)
Theorem multi_stage_rules {Rule Indi RuleLib Templates : Type}
    (H : @EnzymeMap.Helpers Rule Indi RuleLib Templates)
    (df : list EnzymeMap.InitRow) (db_rules : RuleLib) :
  (∀ l x, x ∈ EnzymeMap.list_of_set H l ↔ x ∈ l) →
  let df1 := (EnzymeMap.single_stage H db_rules (map EnzymeMap.init_entry df)).1 in
  let ids := EnzymeMap.rule_ids_in_ec H df1 in
  (∀ x, x ∈ ids ↔ ∃ e, e ∈ df1 ∧ Some x ∈ EnzymeMap.rule_ids e)
  ∧ (∀ c, c ∈ (EnzymeMap.multi_stage H db_rules df1).2 →
       ∃ e, df1 !! EnzymeMap.call_row c = Some e
         ∧ EnzymeMap.mapped_rxns e = []
         ∧ ((∃ e' x, e' ∈ df1 ∧ Some x ∈ EnzymeMap.rule_ids e') →
            c = EnzymeMap.CallMap (EnzymeMap.call_row c)
                  (EnzymeMap.balanced_rxns e) (EnzymeMap.RulesAt ids) false)
         ∧ ((¬ ∃ e' x, e' ∈ df1 ∧ Some x ∈ EnzymeMap.rule_ids e') →
            c = EnzymeMap.CallMap (EnzymeMap.call_row c)
                  (EnzymeMap.balanced_rxns e) EnzymeMap.AllRules false))
  ∧ (∀ i e, df1 !! i = Some e →
       EnzymeMap.balanced_rxns e ≠ [] → EnzymeMap.mapped_rxns e = [] →
       (EnzymeMap.multi_stage H db_rules df1).1 !! i
       = Some
           (let r := EnzymeMap.helpers_map_map H (EnzymeMap.balanced_rxns e)
                       (if length ids =? 0 then db_rules
                        else EnzymeMap.loc H db_rules ids) false in
            if 0 <? length (EnzymeMap.m_rxns r)
            then EnzymeMap.set_mapped e EnzymeMap.direct EnzymeMap.multi r
            else e)).
Proof.
  intros Hset df1 ids.
  assert (Hids : ∀ x, x ∈ ids ↔ ∃ e, e ∈ df1 ∧ Some x ∈ EnzymeMap.rule_ids e).
  { intros x. by apply elem_of_rule_ids_in_ec. }
  split; [done|]. split.
  - intros c (e & He & Hm & Hc)%multi_stage_calls. fold ids in Hc.
    exists e. split; [done|]. split; [done|]. split.
    + intros (e' & x & He' & Hx).
      assert (Hin : x ∈ ids) by (apply Hids; eauto).
      destruct ids; [by apply elem_of_nil in Hin|done].
    + intros Hnone. destruct ids as [|x ids'] eqn:Hi; [done|].
      destruct Hnone. destruct (proj1 (Hids x)) as (e' & He' & Hx).
      { by left. }
      eauto.
  - intros i e Hi Hb Hm. unfold EnzymeMap.multi_stage. fold ids.
    rewrite for_rows_lookup, Hi. cbn [fmap option_fmap option_map].
    f_equal. unfold EnzymeMap.multi_body. rewrite Hm.
    destruct (EnzymeMap.balanced_rxns e) as [|b bs] eqn:Hbal; [done|].
    cbn [length Nat.ltb Nat.leb Nat.eqb andb fst]. rewrite <- Hbal.
    by destruct (length ids =? 0).
Qed.

Lemma multi_stage_rules_witness :
  ∃ e,
    (EnzymeMap.single_stage Sample.helpers Sample.db_rules
       (map EnzymeMap.init_entry Sample.group)).1 !! 1 = Some e
    ∧ EnzymeMap.balanced_rxns e = ["c>>d"]
    ∧ (EnzymeMap.multi_stage Sample.helpers Sample.db_rules
         (EnzymeMap.single_stage Sample.helpers Sample.db_rules
            (map EnzymeMap.init_entry Sample.group)).1).1 !! 1
      = Some (EnzymeMap.set_mapped e EnzymeMap.direct EnzymeMap.multi
                (EnzymeMap.helpers_map_map Sample.helpers ["c>>d"]
                   (EnzymeMap.loc Sample.helpers Sample.db_rules [1%Z; 2%Z])
                   false)).
Proof.
  eexists. split; [vm_compute; reflexivity|]. split; [reflexivity|].
  etrans.
  - eapply (proj2 (proj2 (multi_stage_rules Sample.helpers Sample.group
                            Sample.db_rules
                            (λ l x, elem_of_remove_dups l x)))).
    + vm_compute. reflexivity.
    + discriminate.
    + reflexivity.
  - vm_compute. reflexivity.
Defined.

Example multi_stage_sample :
  (EnzymeMap.multi_stage Sample.helpers Sample.db_rules
     (EnzymeMap.single_stage Sample.helpers Sample.db_rules
        (map EnzymeMap.init_entry Sample.group)).1).2
  = [EnzymeMap.CallMap 1 ["c>>d"] (EnzymeMap.RulesAt [1%Z; 2%Z]) false].
Proof. vm_compute. reflexivity. Qed.

(** C6: the suggestion loop returns a data frame of the same length
    whatever [suggest_corrections] does, and it is the data frame the loop
    returns when every exception of [suggest_corrections] is replaced by
    the empty list; a row without reactions whose call raises is the same
    row afterwards, without reactions, source and step. *)
Theorem suggestion_exception_caught {Rule Indi RuleLib Templates : Type}
    (H : @EnzymeMap.Helpers Rule Indi RuleLib Templates)
    (df : list EnzymeMap.InitRow) (db_rules : RuleLib) :
  let df2 :=
    (EnzymeMap.multi_stage H db_rules
       (EnzymeMap.single_stage H db_rules (map EnzymeMap.init_entry df)).1).1 in
  EnzymeMap.suggest_stage H db_rules df2
  = EnzymeMap.suggest_stage (EnzymeMap.quiet H) db_rules df2
  ∧ length (EnzymeMap.suggest_stage H db_rules df2).1 = length df
  ∧ (∀ i e msg,
       df2 !! i = Some e → EnzymeMap.mapped_rxns e = [] →
       EnzymeMap.suggest_corrections H (EnzymeMap.uncorrected_rxns e)
         (EnzymeMap.make_templates_for_suggestions H
            (EnzymeMap.not_none (map EnzymeMap.mapped_rxns df2)))
       = EnzymeMap.Raised msg →
       (EnzymeMap.suggest_stage H db_rules df2).1 !! i = Some e
       ∧ EnzymeMap.source e = None ∧ EnzymeMap.step e = None).
Proof.
  intros df2. split; [apply suggest_stage_quiet|]. split.
  - unfold EnzymeMap.suggest_stage.
    assert (Hlen : length df2 = length df).
    { unfold df2, EnzymeMap.multi_stage, EnzymeMap.single_stage.
      by rewrite !for_rows_length, length_map. }
    destruct (0 <? length _); [|done]. by rewrite for_rows_length.
  - intros i e msg Hi Hm Hraise.
    split; [|by apply (mapped_stages_unset H db_rules df i e Hi)].
    unfold EnzymeMap.suggest_stage. destruct (0 <? length _); [|done].
    rewrite for_rows_lookup, Hi. cbn [fmap option_fmap option_map].
    f_equal. by apply (suggest_body_raised H _ _ _ _ _ msg).
Qed.

Lemma suggestion_exception_caught_witness :
  ∃ e,
    (EnzymeMap.multi_stage Sample.helpers Sample.db_rules
       (EnzymeMap.single_stage Sample.helpers Sample.db_rules
          (map EnzymeMap.init_entry Sample.group)).1).1 !! 3 = Some e
    ∧ EnzymeMap.uncorrected_rxns e = ["x>>y"]
    ∧ (EnzymeMap.suggest_stage Sample.helpers Sample.db_rules
         (EnzymeMap.multi_stage Sample.helpers Sample.db_rules
            (EnzymeMap.single_stage Sample.helpers Sample.db_rules
               (map EnzymeMap.init_entry Sample.group)).1).1).1 !! 3 = Some e
    ∧ EnzymeMap.source e = None ∧ EnzymeMap.step e = None.
Proof.
  eexists. split; [vm_compute; reflexivity|]. split; [reflexivity|].
  eapply (proj2 (proj2 (suggestion_exception_caught Sample.helpers Sample.group
                          Sample.db_rules))).
  - vm_compute. reflexivity.
  - reflexivity.
  - vm_compute. reflexivity.
Defined.

(** ** The quality of the rules *)

Section Quality.

Import EnzymeMap.

Lemma foldl_add_sum {A : Type} (f : A → nat) (xs : list A) (a : nat) :
  foldl (λ count x, count + f x) a xs = a + sum_list (f <$> xs).
Proof.
  revert a. induction xs as [|x xs IH]; intros a; csimpl; [lia|].
  rewrite IH. lia.
Qed.

Lemma group_count_sum (l : list Z) (g : gset Z) :
  group_count l g = sum_list (list_count l <$> elements g).
Proof. unfold group_count. by rewrite foldl_add_sum. Qed.

Lemma sum_indicator (y : Z) (xs : list Z) :
  NoDup xs →
  sum_list ((λ x, if decide (y = x) then 1 else 0) <$> xs)
  = if decide (y ∈ xs) then 1 else 0.
Proof.
  induction 1 as [|x xs Hx Hxs IH]; csimpl.
  - by destruct (decide (y ∈ [])) as [?%elem_of_nil|].
  - rewrite IH. destruct (decide (y = x)) as [->|Hne].
    + rewrite decide_False by done.
      rewrite decide_True by (by left). done.
    + destruct (decide (y ∈ xs)) as [Hin|Hnin].
      * rewrite decide_True by (by right). done.
      * rewrite decide_False; [done|].
        by intros [?|?]%elem_of_cons.
Qed.

Lemma sum_list_plus {A : Type} (f g : A → nat) (xs : list A) :
  sum_list ((λ x, f x + g x) <$> xs) = sum_list (f <$> xs) + sum_list (g <$> xs).
Proof. induction xs as [|x xs IH]; csimpl; [done|]. rewrite IH. lia. Qed.

Lemma group_count_cons (y : Z) (l : list Z) (g : gset Z) :
  group_count (y :: l) g = (if decide (y ∈ g) then 1 else 0) + group_count l g.
Proof.
  rewrite !group_count_sum.
  assert (Hind : (if decide (y ∈ g) then 1 else 0)
                 = sum_list ((λ x, if decide (y = x) then 1 else 0)
                             <$> elements g)).
  { rewrite sum_indicator by apply NoDup_elements.
    destruct (decide (y ∈ elements g)) as [Hin|Hnin];
      destruct (decide (y ∈ g)) as [Hg|Hg]; try done.
    - by apply elem_of_elements in Hin.
    - by apply elem_of_elements in Hg. }
  rewrite Hind, <- sum_list_plus. f_equal. apply list_fmap_ext.
  intros i x _. unfold list_count. cbn [count_occ].
  destruct (Z.eq_dec y x) as [->|Hne].
  - by rewrite decide_True.
  - by rewrite decide_False.
Qed.







(** The entries of the dictionary [counts]. *)
Lemma insert_all_lookup (q : Q) (xs : list Z) (counts : gmap Z Q) (y : Z) :
  foldl (λ counts x, <[x := q]> counts) counts xs !! y
  = if decide (y ∈ xs) then Some q else counts !! y.
Proof.
  revert counts. induction xs as [|x xs IH]; intros counts; cbn [foldl].
  - by destruct (decide (y ∈ [])) as [?%elem_of_nil|].
  - rewrite IH. destruct (decide (y ∈ xs)) as [Hin|Hnin].
    + by rewrite decide_True by (by right).
    + destruct (decide (y = x)) as [->|Hne].
      * rewrite decide_True by (by left). by rewrite lookup_insert_eq.
      * rewrite decide_False by (by intros [?|?]%elem_of_cons).
        by rewrite lookup_insert_ne.
Qed.

Lemma counts_step_lookup (l : list Z) (counts : gmap Z Q) (g : gset Z) (y : Z) :
  counts_step l counts g !! y
  = if decide (y ∈ g ∧ group_count l g ≠ 0)
    then Some (share (group_count l g) l) else counts !! y.
Proof.
  unfold counts_step. destruct (group_count l g) as [|n] eqn:Hn; csimpl.
  - rewrite decide_False; [done|]. by intros [_ ?].
  - rewrite insert_all_lookup.
    destruct (decide (y ∈ elements g)) as [Hin|Hnin].
    + rewrite decide_True; [done|]. split; [|done].
      by apply elem_of_elements.
    + rewrite decide_False; [done|]. intros [Hy _].
      by apply Hnin, elem_of_elements.
Qed.



Lemma quality_counts_origin (l : list Z) (groups : list (gset Z))
    (counts : gmap Z Q) (y : Z) (q : Q) :
  foldl (counts_step l) counts groups !! y = Some q →
  counts !! y = Some q ∨ ∃ g, g ∈ groups ∧ y ∈ g ∧ group_count l g ≠ 0.
Proof.
  revert counts. induction groups as [|g groups IH]; intros counts; csimpl;
    [by left|].
  intros [Hq|(g' & Hg' & Hy)]%IH.
  - rewrite counts_step_lookup in Hq.
    destruct (decide (y ∈ g ∧ group_count l g ≠ 0)) as [[Hy Hn]|_].
    + right. exists g. split; [by left|done].
    + by left.
  - right. exists g'. split; [by right|done].
Qed.

End Quality.

Section QualityColumn.

Import EnzymeMap.

Context {Rule Indi RuleLib Templates : Type}.
Variable H : @Helpers Rule Indi RuleLib Templates.

Local Notation "'Entry'" := (@EnzymeMap.Entry Rule Indi).

Lemma map_group_quality (df : list InitRow) (db_rules : RuleLib) :
  (map_group H df db_rules).1.2
  = quality_column (groups_of H db_rules) (map_group H df db_rules).1.1.
Proof.
  unfold map_group.
  destruct (single_stage H db_rules (map init_entry df)) as [d1 c1].
  destruct (multi_stage H db_rules d1) as [d2 c2].
  by destruct (suggest_stage H db_rules d2) as [d3 c3].
Qed.

(** The scores of a row whose look-ups succeed. *)
Lemma quality_of_scores (counts : gmap Z Q) (ids : list (option Z)) (q : list Q) :
  quality_of counts ids = Some q →
  Forall2 (λ r v, ∃ x, r = Some x ∧ counts !! x = Some v) ids q.
Proof.
  unfold quality_of. intros Hq%mapM_Some_1.
  eapply Forall2_impl; [exact Hq|]. intros [x|] v Hv; [|done]. by exists x.
Qed.


End QualityColumn.



Example quality_sample :
  (EnzymeMap.map_group Sample.helpers Sample.group Sample.db_rules).1.2
  = Some [[2 # 4]; [2 # 4]; [2 # 4]; []; [2 # 4]]%Q.
Proof. vm_compute. reflexivity. Qed.


(** * Further properties *)

(** ** The rows of [map_group] *)

Section GroupRows.

Import EnzymeMap.

Context {Rule Indi RuleLib Templates : Type}.
Variable H : @Helpers Rule Indi RuleLib Templates.

Local Notation "'Entry'" := (@EnzymeMap.Entry Rule Indi).

Lemma map_group_frame (df : list InitRow) (db_rules : RuleLib) :
  (map_group H df db_rules).1.1
  = map (select_entry H)
      (suggest_stage H db_rules
         (multi_stage H db_rules
            (single_stage H db_rules (map init_entry df)).1).1).1.
Proof.
  unfold map_group.
  destruct (single_stage H db_rules (map init_entry df)) as [d1 c1].
  cbn [fst]. destruct (multi_stage H db_rules d1) as [d2 c2].
  cbn [fst]. by destruct (suggest_stage H db_rules d2) as [d3 c3].
Qed.

(** What holds of a row from its creation on, relative to the row [e0] it
    was created as. *)
Local Notation "'kept' e0 e" :=
  (@same_input_columns Rule Indi e0 e ∧ @labelled Rule Indi e
   ∧ @unmapped_empty Rule Indi e)
  (at level 10, e0 at level 9, e at level 9).

Lemma init_entry_kept (r : InitRow) : kept (init_entry r) (init_entry r).
Proof.
  split; [by repeat split|]. split; [by left|]. by intros _.
Qed.

Lemma set_mapped_kept (e0 e : Entry) (src : Source) (stp : Step) (r : Mapped) :
  same_input_columns e0 e →
  (src = direct ∧ balanced_rxns e ≠ []) ∨ (src = suggested ∧ stp = single) →
  kept e0 (set_mapped e src stp r).
Proof.
  intros Hsame Hlabel. split; [exact Hsame|]. split.
  - unfold labelled. cbn [source step balanced_rxns set_mapped].
    destruct Hlabel as [[-> Hb]|[-> ->]]; [destruct stp|]; tauto.
  - intros Hs. cbn [source set_mapped] in Hs. discriminate.
Qed.

Lemma single_body_kept (db_rules : RuleLib) (i : nat) (e0 e : Entry) :
  kept e0 e → kept e0 (single_body H db_rules i e).1.
Proof.
  intros He. unfold single_body.
  destruct (0 <? length (balanced_rxns e)) eqn:Hb; cbn [fst]; [|done].
  destruct (0 <? length (m_rxns _)); [|done].
  apply set_mapped_kept; [apply He|]. left. split; [done|].
  intros Hnil. by rewrite Hnil in Hb.
Qed.

Lemma multi_body_kept (db_rules : RuleLib) (ids : list Z) (i : nat) (e0 e : Entry) :
  kept e0 e → kept e0 (multi_body H db_rules ids i e).1.
Proof.
  intros He. unfold multi_body.
  destruct (0 <? length (balanced_rxns e)) eqn:Hb; cbn [andb fst]; [|done].
  destruct (length (mapped_rxns e) =? 0); cbn [fst]; [|done].
  destruct (0 <? length (m_rxns _)); [|done].
  apply set_mapped_kept; [apply He|]. left. split; [done|].
  intros Hnil. by rewrite Hnil in Hb.
Qed.

Lemma suggest_body_kept (db_rules : RuleLib) (templates : Templates)
    (ids : list Z) (i : nat) (e0 e : Entry) :
  kept e0 e → kept e0 (suggest_body H db_rules templates ids i e).1.
Proof.
  intros He. unfold suggest_body.
  destruct (length (mapped_rxns e) =? 0); [|done].
  destruct (0 <? length _); cbn [fst]; [|done].
  destruct (0 <? length (m_rxns _)); [|done].
  apply set_mapped_kept; [apply He|]. by right.
Qed.

Lemma select_entry_kept (e0 e : Entry) : kept e0 e → kept e0 (select_entry H e).
Proof.
  intros (Hsame & Hl & Hu). unfold select_entry.
  destruct (0 <? length (mapped_rxns e)) eqn:Hm; [|done].
  split; [exact Hsame|]. split; [exact Hl|].
  intros Hs. cbn [source] in Hs. destruct (Hu Hs) as (_ & Hnil & _).
  by rewrite Hnil in Hm.
Qed.

Lemma suggest_stage_lookup (db_rules : RuleLib) (df : list Entry) (i : nat) :
  (suggest_stage H db_rules df).1 !! i
  = (λ e, if 0 <? length (not_none (map mapped_rxns df))
          then (suggest_body H db_rules
                  (make_templates_for_suggestions H
                     (not_none (map mapped_rxns df)))
                  (rule_ids_in_ec H df) i e).1
          else e) <$> df !! i.
Proof.
  unfold suggest_stage. destruct (0 <? length _).
  - by rewrite for_rows_lookup.
  - cbn [fst]. by destruct (df !! i).
Qed.

(** Every row of the input has its row in the result, at the same index. *)
Lemma map_group_row (df : list InitRow) (db_rules : RuleLib) (i : nat) :
  match df !! i with
  | Some r => ∃ e, (map_group H df db_rules).1.1 !! i = Some e
                   ∧ kept (init_entry r) e
  | None => (map_group H df db_rules).1.1 !! i = None
  end.
Proof.
  rewrite map_group_frame, map_fmap, list_lookup_fmap, suggest_stage_lookup.
  unfold multi_stage, single_stage.
  rewrite !for_rows_lookup, map_fmap, list_lookup_fmap.
  destruct (df !! i) as [r|]; [|done]. cbn [fmap option_fmap option_map].
  eexists. split; [reflexivity|].
  apply select_entry_kept.
  destruct (0 <? length (not_none _)).
  - apply suggest_body_kept, multi_body_kept, single_body_kept, init_entry_kept.
  - apply multi_body_kept, single_body_kept, init_entry_kept.
Qed.

Lemma map_group_length (df : list InitRow) (db_rules : RuleLib) :
  length (map_group H df db_rules).1.1 = length df.
Proof.
  rewrite map_group_frame, length_map. unfold suggest_stage.
  destruct (0 <? length _); cbn [fst]; rewrite ?for_rows_length;
    unfold multi_stage, single_stage;
    by rewrite !for_rows_length, length_map.
Qed.

End GroupRows.

(** X1: [map_group] keeps every row: the working data frame has as many
    rows as the input, and the row at an index carries the candidates, the
    equation text, the reversibility tag, the balanced reactions and the
    provenance of the input row at that index. *)
Theorem map_group_keeps_rows {Rule Indi RuleLib Templates : Type}
    (H : @EnzymeMap.Helpers Rule Indi RuleLib Templates)
    (df : list EnzymeMap.InitRow) (db_rules : RuleLib) :
  length (EnzymeMap.map_group H df db_rules).1.1 = length df
  ∧ ∀ i r, df !! i = Some r →
      ∃ e, (EnzymeMap.map_group H df db_rules).1.1 !! i = Some e
        ∧ EnzymeMap.uncorrected_rxns e = EnzymeMap.POSSIBLE_RXNS r
        ∧ EnzymeMap.rxn_text e = Brenda.ORIG_RXN_TEXT (EnzymeMap.parsed r)
        ∧ EnzymeMap.reversible e = Brenda.R_REVERSIBLE (EnzymeMap.parsed r)
        ∧ EnzymeMap.balanced_rxns e = EnzymeMap.BALANCED_RXNS r
        ∧ EnzymeMap.natural e = Brenda.NATURAL (EnzymeMap.parsed r)
        ∧ EnzymeMap.organism e = Brenda.ORGANISM (EnzymeMap.parsed r)
        ∧ EnzymeMap.protein_refs e = Brenda.PROTEIN_REFS (EnzymeMap.parsed r)
        ∧ EnzymeMap.protein_db e = Brenda.PROTEIN_DB (EnzymeMap.parsed r).
Proof.
  split; [apply map_group_length|].
  intros i r Hi. pose proof (map_group_row H df db_rules i) as Hrow.
  rewrite Hi in Hrow. destruct Hrow as (e & He & Hsame & _).
  exists e. split; [done|]. exact Hsame.
Qed.

Lemma map_group_keeps_rows_witness :
  ∃ e, (EnzymeMap.map_group Sample.helpers Sample.group Sample.db_rules).1.1 !! 4
       = Some e
       ∧ EnzymeMap.uncorrected_rxns e = ["u>>v"]
       ∧ EnzymeMap.rxn_text e = "u = v".
Proof.
  destruct (proj2 (map_group_keeps_rows Sample.helpers Sample.group
                     Sample.db_rules) 4
              (Sample.init_row "u = v" ["u>>v"] []) eq_refl)
    as (e & He & Hu & Ht & _).
  exists e. split; [exact He|]. split; [exact Hu|exact Ht].
Defined.

(** X2: in the result of [map_group] the columns [source] and [step] are
    both unset, or say direct and single, direct and multi, or suggested and
    single; a direct mapping is only recorded for a row that has balanced
    reactions. *)
Theorem map_group_labels {Rule Indi RuleLib Templates : Type}
    (H : @EnzymeMap.Helpers Rule Indi RuleLib Templates)
    (df : list EnzymeMap.InitRow) (db_rules : RuleLib)
    (e : @EnzymeMap.Entry Rule Indi) :
  e ∈ (EnzymeMap.map_group H df db_rules).1.1 →
  ((EnzymeMap.source e = None ∧ EnzymeMap.step e = None)
   ∨ (EnzymeMap.source e = Some EnzymeMap.direct
      ∧ EnzymeMap.step e = Some EnzymeMap.single)
   ∨ (EnzymeMap.source e = Some EnzymeMap.direct
      ∧ EnzymeMap.step e = Some EnzymeMap.multi)
   ∨ (EnzymeMap.source e = Some EnzymeMap.suggested
      ∧ EnzymeMap.step e = Some EnzymeMap.single))
  ∧ (EnzymeMap.source e = Some EnzymeMap.direct →
     EnzymeMap.balanced_rxns e ≠ []).
Proof.
  intros [i Hi]%list_elem_of_lookup.
  pose proof (map_group_row H df db_rules i) as Hrow.
  destruct (df !! i) as [r|]; [|congruence].
  destruct Hrow as (e' & He' & _ & Hl & _).
  assert (e' = e) as -> by congruence.
  unfold EnzymeMap.labelled in Hl. split.
  - tauto.
  - intros Hs. destruct Hl as [[? _]|[(_ & _ & ?)|[(_ & _ & ?)|[? _]]]];
      congruence.
Qed.

Lemma map_group_labels_witness :
  ∃ e, (EnzymeMap.map_group Sample.helpers Sample.group Sample.db_rules).1.1 !! 1
       = Some e
       ∧ EnzymeMap.source e = Some EnzymeMap.direct
       ∧ EnzymeMap.balanced_rxns e ≠ [].
Proof.
  eexists. split; [vm_compute; reflexivity|]. split; [reflexivity|].
  eapply (proj2 (map_group_labels Sample.helpers Sample.group Sample.db_rules _ _)).
  reflexivity.
  Unshelve. apply list_elem_of_lookup. exists 1. vm_compute. reflexivity.
Defined.

(** X3: a row of the result of [map_group] without a source is an unmapped
    row: its step is unset and its mapped reactions, rules, rule ids and
    individual steps are empty. *)
Theorem map_group_unmapped_rows {Rule Indi RuleLib Templates : Type}
    (H : @EnzymeMap.Helpers Rule Indi RuleLib Templates)
    (df : list EnzymeMap.InitRow) (db_rules : RuleLib)
    (e : @EnzymeMap.Entry Rule Indi) :
  e ∈ (EnzymeMap.map_group H df db_rules).1.1 →
  EnzymeMap.source e = None →
  EnzymeMap.step e = None ∧ EnzymeMap.mapped_rxns e = []
  ∧ EnzymeMap.rules e = [] ∧ EnzymeMap.rule_ids e = []
  ∧ EnzymeMap.individuals e = [].
Proof.
  intros [i Hi]%list_elem_of_lookup.
  pose proof (map_group_row H df db_rules i) as Hrow.
  destruct (df !! i) as [r|]; [|congruence].
  destruct Hrow as (e' & He' & _ & _ & Hu).
  assert (e' = e) as -> by congruence. exact Hu.
Qed.

Lemma map_group_unmapped_rows_witness :
  ∃ e, (EnzymeMap.map_group Sample.helpers Sample.group Sample.db_rules).1.1 !! 3
       = Some e
       ∧ EnzymeMap.source e = None
       ∧ EnzymeMap.mapped_rxns e = [].
Proof.
  eexists. split; [vm_compute; reflexivity|]. split; [reflexivity|].
  eapply (map_group_unmapped_rows Sample.helpers Sample.group Sample.db_rules).
  - apply list_elem_of_lookup. exists 3. vm_compute. reflexivity.
  - reflexivity.
Defined.

(** ** A group in which nothing maps *)

Section NothingMapped.

Import EnzymeMap.

Context {Rule Indi RuleLib Templates : Type}.
Variable H : @Helpers Rule Indi RuleLib Templates.

Local Notation "'Entry'" := (@EnzymeMap.Entry Rule Indi).

Lemma for_rows_unchanged (body : nat → Entry → Entry * list Call) (k : nat)
    (df : list Entry) :
  (∀ i e, e ∈ df → (body i e).1 = e) → (for_rows body k df).1 = df.
Proof.
  revert k. induction df as [|e df IH]; intros k Hb; simpl; [done|].
  pose proof (Hb k e ltac:(by left)) as He.
  destruct (body k e) as [e' calls]. cbn [fst] in He. subst e'.
  specialize (IH (S k) (λ i e0 He0, Hb i e0 ltac:(by right))).
  destruct (for_rows body (S k) df) as [df' calls']. cbn [fst] in *.
  by rewrite IH.
Qed.

Lemma single_body_calls (db_rules : RuleLib) (i : nat) (e : Entry) (c : Call) :
  c ∈ (single_body H db_rules i e).2 →
  c = CallMap i (balanced_rxns e) AllRules true.
Proof.
  unfold single_body. destruct (0 <? length (balanced_rxns e)); cbn [snd].
  - by intros ->%list_elem_of_singleton.
  - by intros ?%elem_of_nil.
Qed.

Lemma not_none_nil {A : Type} (column : list (list (option A))) :
  (∀ l, l ∈ column → l = []) → not_none column = [].
Proof.
  intros Hnil. unfold not_none.
  replace (concat column) with (@nil (option A)); [done|].
  induction column as [|l column IH]; simpl; [done|].
  rewrite (Hnil l) by (by left). simpl.
  apply IH. intros l' Hl'. apply Hnil. by right.
Qed.

Lemma map_group_calls (df : list InitRow) (db_rules : RuleLib) :
  (map_group H df db_rules).2
  = (single_stage H db_rules (map init_entry df)).2
    ++ (multi_stage H db_rules
          (single_stage H db_rules (map init_entry df)).1).2
    ++ (suggest_stage H db_rules
          (multi_stage H db_rules
             (single_stage H db_rules (map init_entry df)).1).1).2.
Proof.
  unfold map_group.
  destruct (single_stage H db_rules (map init_entry df)) as [d1 c1].
  cbn [fst snd]. destruct (multi_stage H db_rules d1) as [d2 c2].
  cbn [fst snd]. by destruct (suggest_stage H db_rules d2) as [d3 c3].
Qed.

End NothingMapped.

(** X4: when [helpers_map.map] finds nothing for the balanced reactions of
    any row of the group, [map_group] returns the rows as it created them,
    every quality list is empty and the quality column is built without
    error; [suggest_corrections] is not called at all. *)
Theorem map_group_nothing_mapped {Rule Indi RuleLib Templates : Type}
    (H : @EnzymeMap.Helpers Rule Indi RuleLib Templates)
    (df : list EnzymeMap.InitRow) (db_rules : RuleLib) :
  (∀ r lib single, r ∈ df →
     EnzymeMap.m_rxns
       (EnzymeMap.helpers_map_map H (EnzymeMap.BALANCED_RXNS r) lib single) = []) →
  (EnzymeMap.map_group H df db_rules).1.1 = map EnzymeMap.init_entry df
  ∧ (EnzymeMap.map_group H df db_rules).1.2 = Some (map (λ _, []) df)
  ∧ ∀ c, c ∈ (EnzymeMap.map_group H df db_rules).2 →
         ∃ i rxns lib single, c = EnzymeMap.CallMap i rxns lib single.
Proof.
  intros Hnone.
  set (df0 := map EnzymeMap.init_entry df).
  assert (Hbal : ∀ e, e ∈ df0 → ∀ lib single,
            EnzymeMap.m_rxns
              (EnzymeMap.helpers_map_map H (EnzymeMap.balanced_rxns e) lib single)
            = []).
  { intros e (r & -> & Hr)%elem_of_map lib single. by apply Hnone. }
  assert (H1 : (EnzymeMap.single_stage H db_rules df0).1 = df0).
  { apply for_rows_unchanged. intros i e He. unfold EnzymeMap.single_body.
    destruct (0 <? length (EnzymeMap.balanced_rxns e)); [|done].
    cbn [fst]. by rewrite (Hbal e He). }
  assert (H2 : (EnzymeMap.multi_stage H db_rules df0).1 = df0).
  { apply for_rows_unchanged. intros i e He. unfold EnzymeMap.multi_body.
    destruct (_ && _); [|done]. cbn [fst]. by rewrite (Hbal e He). }
  assert (Hmapped : EnzymeMap.not_none (map EnzymeMap.mapped_rxns df0) = []).
  { apply not_none_nil. intros l (e & -> & (r & -> & _)%elem_of_map)%elem_of_map.
    done. }
  assert (H3 : EnzymeMap.suggest_stage H db_rules df0 = (df0, [])).
  { unfold EnzymeMap.suggest_stage. by rewrite Hmapped. }
  assert (H4 : map (EnzymeMap.select_entry H) df0 = df0).
  { unfold df0. rewrite map_map. apply map_ext. done. }
  assert (Hframe : (EnzymeMap.map_group H df db_rules).1.1 = df0).
  { rewrite map_group_frame. fold df0. by rewrite H1, H2, H3. }
  split; [exact Hframe|]. split.
  - rewrite map_group_quality, Hframe. unfold EnzymeMap.quality_column, df0.
    apply mapM_Some_2. clear. induction df as [|r df IH]; simpl.
    + constructor.
    + constructor; [done|apply IH].
  - rewrite map_group_calls. fold df0.
    rewrite H1, H2, H3. cbn [snd]. rewrite app_nil_r.
    intros c [Hc|Hc]%elem_of_app.
    + apply for_rows_calls in Hc as (i & e & _ & ->%single_body_calls).
      by eexists _, _, _, _.
    + apply multi_stage_calls in Hc as (e & _ & _ & ->).
      by eexists _, _, _, _.
Qed.

Lemma map_group_nothing_mapped_witness :
  (EnzymeMap.map_group Sample.helpers Sample.unmapped_group Sample.db_rules).1.2
  = Some [[]].
Proof.
  apply (map_group_nothing_mapped Sample.helpers Sample.unmapped_group
           Sample.db_rules).
  intros r lib single Hr. apply list_elem_of_singleton in Hr as ->.
  destruct single; vm_compute; reflexivity.
Defined.

(** ** The dictionary of scores *)

Section Scores.

Import EnzymeMap.

Lemma sum_list_member {A : Type} (f : A → nat) (xs : list A) (x : A) :
  x ∈ xs → f x ≤ sum_list (f <$> xs).
Proof.
  induction xs as [|y xs IH]; csimpl.
  - by intros ?%elem_of_nil.
  - intros [->|Hx]%elem_of_cons; [lia|]. specialize (IH Hx). lia.
Qed.

Lemma group_count_member (l : list Z) (g : gset Z) (x : Z) :
  x ∈ g → x ∈ l → group_count l g ≠ 0.
Proof.
  intros Hg Hl. rewrite group_count_sum.
  pose proof (sum_list_member (list_count l) (elements g) x
                ltac:(by apply elem_of_elements)) as Hle.
  assert (0 < list_count l x); [|lia].
  unfold list_count. apply count_occ_In. by apply list_elem_of_In.
Qed.

Lemma group_count_le (l : list Z) (g : gset Z) : group_count l g ≤ length l.
Proof.
  induction l as [|y l IH].
  - rewrite group_count_sum.
    induction (elements g) as [|x xs IHx]; csimpl; [done|]. exact IHx.
  - rewrite group_count_cons. simpl length.
    destruct (decide (y ∈ g)); lia.
Qed.

Lemma quality_counts_kept (l : list Z) (groups : list (gset Z))
    (counts : gmap Z Q) (x : Z) :
  is_Some (counts !! x) → is_Some (foldl (counts_step l) counts groups !! x).
Proof.
  revert counts. induction groups as [|g groups IH]; intros counts Hx;
    cbn [foldl]; [done|].
  apply IH. rewrite counts_step_lookup. by destruct (decide _).
Qed.

Lemma quality_counts_present (l : list Z) (groups : list (gset Z))
    (counts : gmap Z Q) (g : gset Z) (x : Z) :
  g ∈ groups → x ∈ g → group_count l g ≠ 0 →
  is_Some (foldl (counts_step l) counts groups !! x).
Proof.
  revert counts. induction groups as [|g0 groups IH]; intros counts Hg Hx Hn;
    cbn [foldl].
  - by apply elem_of_nil in Hg.
  - apply elem_of_cons in Hg as [<-|Hg]; [|by apply IH].
    apply quality_counts_kept. by rewrite counts_step_lookup, decide_True.
Qed.

Lemma quality_counts_value (l : list Z) (groups : list (gset Z))
    (counts : gmap Z Q) (x : Z) (q : Q) :
  foldl (counts_step l) counts groups !! x = Some q →
  counts !! x = Some q
  ∨ ∃ g, g ∈ groups ∧ x ∈ g ∧ group_count l g ≠ 0
         ∧ q = share (group_count l g) l.
Proof.
  revert counts. induction groups as [|g groups IH]; intros counts;
    cbn [foldl]; [by left|].
  intros [Hq|(g' & Hg' & Hrest)]%IH.
  - rewrite counts_step_lookup in Hq.
    destruct (decide (x ∈ g ∧ group_count l g ≠ 0)) as [[Hx Hn]|_].
    + right. exists g. split; [by left|]. split; [done|]. split; [done|].
      congruence.
    + by left.
  - right. exists g'. split; [by right|done].
Qed.

Lemma share_bounds (c : nat) (l : list Z) :
  c ≠ 0 → c ≤ length l → (0 < share c l)%Q ∧ (share c l <= 1)%Q.
Proof.
  intros Hc Hle. unfold share.
  assert (HL : (0 < inject_Z (Z.of_nat (length l)))%Q).
  { unfold Qlt. simpl. lia. }
  split.
  - apply Qlt_shift_div_l; [exact HL|]. rewrite Qmult_0_l.
    unfold Qlt. simpl. lia.
  - apply Qle_shift_div_r; [exact HL|]. rewrite Qmult_1_l.
    unfold Qle. simpl. lia.
Qed.

End Scores.

(** X5: the quality column is built exactly when every rule id of the data
    frame is an identifier that some group contains; a [None] among the
    rule ids, or an identifier outside every group, is the [KeyError] of
    the look-up in [counts]. *)
Theorem quality_column_key_error {Rule Indi : Type} (groups : list (gset Z))
    (df : list (@EnzymeMap.Entry Rule Indi)) :
  is_Some (EnzymeMap.quality_column groups df)
  ↔ ∀ e r, e ∈ df → r ∈ EnzymeMap.rule_ids e →
           ∃ x g, r = Some x ∧ g ∈ groups ∧ x ∈ g.
Proof.
  unfold EnzymeMap.quality_column.
  set (l := EnzymeMap.not_none (map EnzymeMap.rule_ids df)).
  split.
  - intros [qs Hq] e r He Hr. apply mapM_Some_1 in Hq.
    apply list_elem_of_lookup in He as [i Hi].
    destruct (Forall2_lookup_l _ _ _ _ _ Hq Hi) as (q & _ & Hqe).
    apply quality_of_scores in Hqe.
    apply list_elem_of_lookup in Hr as [j Hj].
    destruct (Forall2_lookup_l _ _ _ _ _ Hqe Hj) as (v & _ & x & -> & Hv).
    apply quality_counts_origin in Hv as [Hv|(g & Hg & Hx & _)].
    + by rewrite lookup_empty in Hv.
    + by exists x, g.
  - intros Hall. apply mapM_is_Some_2, Forall_forall. intros e He.
    apply mapM_is_Some_2, Forall_forall. intros r Hr.
    destruct (Hall e r He Hr) as (x & g & -> & Hg & Hx). cbn.
    apply (quality_counts_present l groups ∅ g x Hg Hx).
    apply (group_count_member l g x Hx).
    apply elem_of_not_none. exists (EnzymeMap.rule_ids e).
    split; [|done]. apply elem_of_map. by exists e.
Qed.

(** X6: every score of the quality column of [map_group] is greater than
    zero and at most one. *)
Theorem map_group_scores_bounded {Rule Indi RuleLib Templates : Type}
    (H : @EnzymeMap.Helpers Rule Indi RuleLib Templates)
    (df : list EnzymeMap.InitRow) (db_rules : RuleLib) (qs : list (list Q)) :
  (EnzymeMap.map_group H df db_rules).1.2 = Some qs →
  ∀ row q, row ∈ qs → q ∈ row → (0 < q)%Q ∧ (q <= 1)%Q.
Proof.
  rewrite map_group_quality. unfold EnzymeMap.quality_column.
  intros Hq%mapM_Some_1 row q Hrow Hqrow.
  apply list_elem_of_lookup in Hrow as [i Hi].
  destruct (Forall2_lookup_r _ _ _ _ _ Hq Hi) as (e & _ & Hqe).
  apply quality_of_scores in Hqe.
  apply list_elem_of_lookup in Hqrow as [j Hj].
  destruct (Forall2_lookup_r _ _ _ _ _ Hqe Hj) as (r & _ & x & _ & Hv).
  apply quality_counts_value in Hv as [Hv|(g & _ & _ & Hn & ->)].
  - by rewrite lookup_empty in Hv.
  - split.
    + by apply (share_bounds _ _ Hn (group_count_le _ g)).
    + by apply (share_bounds _ _ Hn (group_count_le _ g)).
Qed.

Lemma map_group_scores_bounded_witness :
  (0 < 2 # 4)%Q ∧ (2 # 4 <= 1)%Q.
Proof.
  apply (map_group_scores_bounded Sample.helpers Sample.group Sample.db_rules
           [[2 # 4]; [2 # 4]; [2 # 4]; []; [2 # 4]]%Q
           ltac:(vm_compute; reflexivity) [2 # 4]%Q).
  - by left.
  - by left.
Defined.

(** X7: the group of the isomerase identifier is appended last, so whenever
    the identifier [-1] occurs among the rule ids its score is its own
    number of occurrences divided by the number of rule ids, whatever
    [get_groups] returns. *)
Theorem isomerase_score {Rule Indi RuleLib Templates : Type}
    (H : @EnzymeMap.Helpers Rule Indi RuleLib Templates)
    (db_rules : RuleLib) (l : list Z) :
  (-1)%Z ∈ l →
  EnzymeMap.quality_counts (EnzymeMap.groups_of H db_rules) l !! (-1)%Z
  = Some (EnzymeMap.share (EnzymeMap.list_count l (-1)%Z) l).
Proof.
  intros Hl. unfold EnzymeMap.quality_counts, EnzymeMap.groups_of.
  rewrite foldl_app. cbn [foldl]. rewrite counts_step_lookup.
  assert (Hc : EnzymeMap.group_count l {[(-1)%Z]}
               = EnzymeMap.list_count l (-1)%Z).
  { rewrite group_count_sum, elements_singleton. csimpl. lia. }
  rewrite Hc, decide_True; [done|].
  split; [by apply elem_of_singleton|].
  rewrite <- Hc.
  apply (group_count_member l {[(-1)%Z]} (-1)%Z); [by apply elem_of_singleton|done].
Qed.

Lemma isomerase_score_witness :
  EnzymeMap.quality_counts
    (EnzymeMap.groups_of Sample.helpers Sample.db_rules) [1; -1; -1]%Z
    !! (-1)%Z
  = Some (EnzymeMap.share (EnzymeMap.list_count [1; -1; -1]%Z (-1)%Z)
            [1; -1; -1]%Z).
Proof.
  apply (isomerase_score Sample.helpers Sample.db_rules [1; -1; -1]%Z).
  apply elem_of_cons. right. by left.
Defined.

(** ** The dictionary of structures *)

Section Compounds.

Import EnzymeMap.

Lemma insert_rows_other (rows : list (string * list string))
    (d : gmap string (list string)) (x : string) :
  x ∉ rows.*1 →
  foldl (λ d row, <[row.1 := row.2]> d) d rows !! x = d !! x.
Proof.
  revert d. induction rows as [|[y v] rows IH]; intros d Hx; cbn [foldl];
    [done|].
  rewrite fmap_cons in Hx. apply not_elem_of_cons in Hx as [Hne Hx].
  rewrite IH by done. by rewrite lookup_insert_ne.
Qed.

Lemma insert_rows_absent (rows : list (string * list string))
    (d : gmap string (list string)) (x : string) :
  foldl (λ d row, <[row.1 := row.2]> d) d rows !! x = None
  ↔ d !! x = None ∧ x ∉ rows.*1.
Proof.
  revert d. induction rows as [|[y v] rows IH]; intros d; cbn [foldl].
  - split; [intros Hd; split; [done|by intros ?%elem_of_nil]|by intros [? _]].
  - rewrite IH, fmap_cons, not_elem_of_cons. cbn [fst snd].
    destruct (decide (y = x)) as [->|Hne].
    + rewrite lookup_insert_eq. split; [by intros [? _]|by intros [_ [? _]]].
    + rewrite lookup_insert_ne by done. split.
      * intros [Hd Hx]. split; [done|]. split; [congruence|done].
      * intros [Hd [_ Hx]]. done.
Qed.

End Compounds.

(** X8: the dictionary [compound_to_smiles] has an entry exactly for the
    compound names of [compound_df], and the entry of a name is the
    structure list of the last row with that name. *)
Theorem compound_to_smiles_last_row (compound_df : list (string * list string))
    (x : string) :
  (EnzymeMap.make_compound_to_smiles compound_df !! x = None
   ↔ x ∉ compound_df.*1)
  ∧ (∀ before v after,
       compound_df = before ++ (x, v) :: after → x ∉ after.*1 →
       EnzymeMap.make_compound_to_smiles compound_df !! x = Some v).
Proof.
  unfold EnzymeMap.make_compound_to_smiles. split.
  - rewrite insert_rows_absent, lookup_empty. tauto.
  - intros before v after -> Hafter. rewrite foldl_app. cbn [foldl fst snd].
    rewrite insert_rows_other by done. by rewrite lookup_insert_eq.
Qed.

Lemma compound_to_smiles_last_row_witness :
  EnzymeMap.make_compound_to_smiles
    [("A", ["a1"]); ("B", ["b1"]); ("A", ["a2"; "a3"])] !! "A"
  = Some ["a2"; "a3"].
Proof.
  apply (proj2 (compound_to_smiles_last_row
                  [("A", ["a1"]); ("B", ["b1"]); ("A", ["a2"; "a3"])] "A")
               [("A", ["a1"]); ("B", ["b1"])] ["a2"; "a3"] []).
  - reflexivity.
  - by intros ?%elem_of_nil.
Defined.

(** ** More on the candidates and the cache *)

Section MoreInitial.

Import EnzymeMap.

Context {Redox : Type}.
Variable put_h_last : string → string.
Variable correct_reaction : list string → string → Redox → Redox → list string.
Variables r2o o2r : Redox.

Lemma chosen_variants (c2s : gmap string (list string)) (names : list string)
    (pools : list (list string)) (s : list string) :
  Forall2 (λ name vs, c2s !! name = Some vs) names pools →
  Forall2 (λ x pool, x ∈ pool) s pools
  ↔ Forall2 (λ x name, ∃ vs, c2s !! name = Some vs ∧ x ∈ vs) s names.
Proof.
  intros Hnames. revert s.
  induction Hnames as [|name vs names pools Hname _ IH]; intros s.
  - split; intros ->%Forall2_nil_inv_r; constructor.
  - split.
    + intros (x & s' & Hx & Hs' & ->)%Forall2_cons_inv_r.
      constructor; [by exists vs|by apply IH].
    + intros (x & s' & (vs' & Hvs' & Hx) & Hs' & ->)%Forall2_cons_inv_r.
      constructor; [congruence|by apply IH].
Qed.

(** The cache entry of a text is computed from the first row with it. *)
Lemma balance_fold_first (rows : list (string * list string))
    (st0 : BalanceState) (j : nat) (t : string) (p : list string) :
  rows !! j = Some (t, p) →
  (∀ k t' p', k < j → rows !! k = Some (t', p') → t' ≠ t) →
  cached st0 !! t = None →
  cached (foldl (balance_step put_h_last correct_reaction r2o o2r) st0 rows)
    !! t
  = Some (map put_h_last (correct_reaction p t r2o o2r)).
Proof.
  revert st0 j. induction rows as [|[t0 p0] rows IH]; intros st0 j Hj Hfirst Hc.
  - by rewrite lookup_nil in Hj.
  - cbn [foldl]. destruct j as [|j].
    + injection Hj as -> ->.
      apply (proj1 (balance_fold put_h_last correct_reaction r2o o2r rows _)).
      unfold balance_step. rewrite Hc. cbn [cached].
      by rewrite lookup_insert_eq.
    + assert (Hne : t0 ≠ t) by (apply (Hfirst 0 t0 p0); [lia|done]).
      apply (IH _ j); [done| |].
      * intros k t' p' Hk Hrow. apply (Hfirst (S k) t' p'); [lia|done].
      * unfold balance_step. destruct (cached st0 !! t0); cbn [cached];
          [done|]. by rewrite lookup_insert_ne.
Qed.

End MoreInitial.

(** X9: the balanced reactions of a row are those [correct_reaction]
    returns for the candidates of the first row with the same equation
    text, with the hydrogens put last; the candidates of the later rows
    with that text are not used. *)
Theorem balanced_from_first_row {Redox : Type} (put_h_last : string → string)
    (correct_reaction : list string → string → Redox → Redox → list string)
    (r2o o2r : Redox) (rows : list (string * list string))
    (i j : nat) (t : string) (p q : list string) :
  rows !! j = Some (t, p) →
  (∀ k t' p', k < j → rows !! k = Some (t', p') → t' ≠ t) →
  rows !! i = Some (t, q) →
  EnzymeMap.balanced_rxn_list
    (EnzymeMap.balance_all put_h_last correct_reaction r2o o2r rows) !! i
  = Some (map put_h_last (correct_reaction p t r2o o2r)).
Proof.
  intros Hj Hfirst Hi.
  destruct (balance_all_spec put_h_last correct_reaction r2o o2r rows)
    as (_ & Hlook & _).
  destruct (Hlook i t q Hi) as (v & -> & Hv). rewrite <- Hv.
  unfold EnzymeMap.balance_all.
  by apply (balance_fold_first put_h_last correct_reaction r2o o2r rows _ j).
Qed.

Lemma balanced_from_first_row_witness :
  EnzymeMap.balanced_rxn_list
    (EnzymeMap.balance_all Sample.put_h_last Sample.correct_reaction tt tt
       [("A = B", ["a>>b"]); ("C = D", ["c>>d"]); ("A = B", ["x>>y"])]) !! 2
  = Some (map Sample.put_h_last
            (Sample.correct_reaction ["a>>b"] "A = B" tt tt)).
Proof.
  apply (balanced_from_first_row Sample.put_h_last Sample.correct_reaction
           tt tt _ 2 0 "A = B" ["a>>b"] ["x>>y"]).
  - reflexivity.
  - intros k t' p' Hk. lia.
  - reflexivity.
Defined.

(** X10: a reaction text is among the candidates of a row exactly when it
    is the text of a choice of one structure for each substrate name and
    one for each product name, in the order of the names, each taken from
    the entry of its name in the dictionary of structures. *)
Theorem candidates_choose_variants (put_h_last : string → string)
    (c2s : gmap string (list string)) (substrates products rxns : list string)
    (rxn : string) :
  EnzymeMap.possible_rxns put_h_last c2s substrates products = Some rxns →
  rxn ∈ rxns
  ↔ ∃ s p,
      rxn = EnzymeMap.candidate put_h_last s p
      ∧ Forall2 (λ x name, ∃ vs, c2s !! name = Some vs ∧ x ∈ vs) s substrates
      ∧ Forall2 (λ x name, ∃ vs, c2s !! name = Some vs ∧ x ∈ vs) p products.
Proof.
  intros (sv & pv & Hsv & Hpv & -> & _)%possible_rxns_spec.
  apply mapM_Some_1 in Hsv, Hpv.
  rewrite elem_of_map. split.
  - intros ([s p] & -> & Hsp). exists s, p. split; [done|].
    apply list_elem_of_In, in_prod_iff in Hsp as [Hs Hp].
    apply list_elem_of_In, elem_of_itertools_product in Hs, Hp.
    split; by eapply chosen_variants.
  - intros (s & p & -> & Hs & Hp). exists (s, p). split; [done|].
    apply list_elem_of_In, in_prod_iff.
    split; apply list_elem_of_In, elem_of_itertools_product;
      by eapply chosen_variants.
Qed.

Lemma candidates_choose_variants_witness :
  "a2.b1>>c1" ∈ ["a1.b1>>c1"; "a2.b1>>c1"]
  ↔ ∃ s p,
      "a2.b1>>c1" = EnzymeMap.candidate Sample.put_h_last s p
      ∧ Forall2 (λ x name, ∃ vs, Sample.compound_to_smiles !! name = Some vs
                                 ∧ x ∈ vs) s ["A"; "B"]
      ∧ Forall2 (λ x name, ∃ vs, Sample.compound_to_smiles !! name = Some vs
                                 ∧ x ∈ vs) p ["C"].
Proof.
  apply (candidates_choose_variants Sample.put_h_last
           Sample.compound_to_smiles ["A"; "B"] ["C"]).
  vm_compute. reflexivity.
Defined.

(** X11: when a substrate or product name of some row has no entry in the
    dictionary of structures, the look-up raises [KeyError] and
    [make_initial] returns nothing. *)
Theorem make_initial_missing_name {Redox : Type} (put_h_last : string → string)
    (correct_reaction : list string → string → Redox → Redox → list string)
    (c2s : gmap string (list string)) (r2o o2r : Redox)
    (df : list Brenda.Row) (r : Brenda.Row) (x : string) :
  r ∈ df → x ∈ Brenda.R_SUBSTRATES r ++ Brenda.R_PRODUCTS r →
  c2s !! x = None →
  EnzymeMap.make_initial put_h_last correct_reaction c2s r2o o2r df = None.
Proof.
  intros Hr Hx Hnone.
  destruct (EnzymeMap.make_initial put_h_last correct_reaction c2s r2o o2r df)
    as [out|] eqn:Hout; [|done].
  destruct (make_initial_rows _ _ _ _ _ _ _ Hout) as (reactions & Hall & _).
  apply mapM_Some_1 in Hall.
  apply list_elem_of_lookup in Hr as [i Hi].
  destruct (Forall2_lookup_l _ _ _ _ _ Hall Hi) as (rxns & _ & Hp).
  apply possible_rxns_spec in Hp as (sv & pv & Hsv & Hpv & _).
  apply mapM_Some_1 in Hsv, Hpv.
  apply elem_of_app in Hx as [Hx|Hx];
    apply list_elem_of_lookup in Hx as [j Hj].
  - destruct (Forall2_lookup_l _ _ _ _ _ Hsv Hj) as (vs & _ & Hvs). congruence.
  - destruct (Forall2_lookup_l _ _ _ _ _ Hpv Hj) as (vs & _ & Hvs). congruence.
Qed.

Lemma make_initial_missing_name_witness :
  EnzymeMap.make_initial Sample.put_h_last Sample.correct_reaction
    Sample.compound_to_smiles tt tt
    [Sample.row "A = E" ["A"] ["E"]] = None.
Proof.
  apply (make_initial_missing_name Sample.put_h_last Sample.correct_reaction
           Sample.compound_to_smiles tt tt _
           (Sample.row "A = E" ["A"] ["E"]) "E").
  - by left.
  - apply elem_of_cons. right. by left.
  - vm_compute. reflexivity.
Defined.

(** X12: [make_initial] keeps the parsed rows and their order: a row whose
    names cannot be resolved or whose candidates do not balance stays in
    the data frame, with an empty list in the new column. *)
Theorem make_initial_keeps_rows {Redox : Type} (put_h_last : string → string)
    (correct_reaction : list string → string → Redox → Redox → list string)
    (c2s : gmap string (list string)) (r2o o2r : Redox)
    (df : list Brenda.Row) (out : list EnzymeMap.InitRow) :
  EnzymeMap.make_initial put_h_last correct_reaction c2s r2o o2r df = Some out →
  map EnzymeMap.parsed out = df.
Proof.
  intros Hout.
  destruct (make_initial_rows _ _ _ _ _ _ _ Hout)
    as (reactions & _ & _ & Hlen & Hrows).
  apply list_eq. intros i. rewrite map_fmap, list_lookup_fmap.
  destruct (out !! i) as [ri|] eqn:Hi; cbn.
  - symmetry. by apply Hrows.
  - symmetry. apply lookup_ge_None. apply lookup_ge_None in Hi. lia.
Qed.

Lemma make_initial_keeps_rows_witness :
  map EnzymeMap.parsed Sample.initial = Sample.frame.
Proof.
  apply (make_initial_keeps_rows Sample.put_h_last Sample.correct_reaction
           Sample.compound_to_smiles tt tt).
  vm_compute. reflexivity.
Defined.

(** ** Reading the file into entries *)

Section ReadingLoop.

Import Brenda.

Lemma nonempty_spec (s : string) : nonempty s = true ↔ s ≠ EmptyString.
Proof. by destruct s. Qed.

Lemma text_of_snoc (pieces : list string) (s : string) :
  text_of (pieces ++ [s]) = text_of pieces +:+ s.
Proof.
  unfold text_of. induction pieces as [|p pieces IH]; cbn [app foldr].
  - by rewrite string_app_empty_r.
  - by rewrite IH, string_app_assoc.
Qed.

Lemma append_nonempty (a b : string) :
  b ≠ EmptyString → a +:+ b ≠ EmptyString.
Proof. destruct a; [done|]. discriminate. Qed.

(** A turn of the loop when the buffer holds text. *)
Lemma read_step_filled (st : ReadState) (l : string) :
  buff st ≠ EmptyString →
  read_step st l
  = if Py.contains "///" l
    then {| buff := l; processed := processed st ++ [buff st] |}
    else {| buff := buff st +:+ l; processed := processed st |}.
Proof.
  intros Hb. unfold read_step. destruct (buff st) as [|c b]; [done|].
  reflexivity.
Qed.

Lemma read_step_buff (st : ReadState) (l : string) :
  l ≠ EmptyString → buff (read_step st l) ≠ EmptyString.
Proof.
  intros Hl. destruct (decide (buff st = EmptyString)) as [He|Hne].
  - unfold read_step. rewrite He. cbn. done.
  - rewrite (read_step_filled st l Hne).
    destruct (Py.contains "///" l); cbn [buff]; [done|].
    by apply append_nonempty.
Qed.

Lemma read_step_text (st : ReadState) (l : string) :
  text_of (processed (read_step st l)) +:+ buff (read_step st l)
  = text_of (processed st) +:+ buff st +:+ l.
Proof.
  destruct (decide (buff st = EmptyString)) as [He|Hne].
  - unfold read_step. rewrite He. reflexivity.
  - rewrite (read_step_filled st l Hne).
    destruct (Py.contains "///" l); cbn [buff processed].
    + by rewrite text_of_snoc, string_app_assoc.
    + done.
Qed.

Lemma read_loop_text (st : ReadState) (lines : list string) :
  Forall (λ l, l ≠ EmptyString) lines →
  text_of (processed (read_loop st lines)) +:+ buff (read_loop st lines)
  = text_of (processed st) +:+ buff st +:+ text_of lines.
Proof.
  intros Hlines. revert st.
  induction Hlines as [|l lines Hl _ IH]; intros st; cbn [read_loop].
  - unfold text_of at 3. cbn [foldr]. by rewrite string_app_empty_r.
  - rewrite (proj2 (nonempty_spec l) Hl), IH.
    rewrite <- string_app_assoc, read_step_text.
    change (text_of (l :: lines)) with (l +:+ text_of lines).
    by rewrite !string_app_assoc.
Qed.

Lemma read_loop_count (st : ReadState) (lines : list string) :
  buff st ≠ EmptyString → Forall (λ l, l ≠ EmptyString) lines →
  length (processed (read_loop st lines))
  = length (processed st) + length (List.filter (Py.contains "///") lines).
Proof.
  intros Hb Hlines. revert st Hb.
  induction Hlines as [|l lines Hl _ IH]; intros st Hb;
    cbn [read_loop List.filter]; [cbn; lia|].
  rewrite (proj2 (nonempty_spec l) Hl), (IH _ (read_step_buff st l Hl)).
  rewrite (read_step_filled st l Hb).
  destruct (Py.contains "///" l); cbn [processed length]; [|lia].
  rewrite length_app. cbn [length]. lia.
Qed.

Lemma read_loop_app (st : ReadState) (a b : list string) :
  Forall (λ l, l ≠ EmptyString) a →
  read_loop st (a ++ b) = read_loop (read_loop st a) b.
Proof.
  intros Ha. revert st. induction Ha as [|l a Hl _ IH]; intros st;
    cbn [app read_loop]; [done|].
  by rewrite (proj2 (nonempty_spec l) Hl), IH.
Qed.

Lemma read_loop_buff (st : ReadState) (lines : list string) :
  Forall (λ l, l ≠ EmptyString) lines →
  buff st ≠ EmptyString ∨ lines ≠ [] →
  buff (read_loop st lines) ≠ EmptyString.
Proof.
  intros Hlines. revert st.
  induction Hlines as [|l lines Hl _ IH]; intros st Hor; cbn [read_loop].
  - by destruct Hor.
  - rewrite (proj2 (nonempty_spec l) Hl). apply IH. left.
    by apply read_step_buff.
Qed.

(** Lines without the mark of a header are added to the buffer. *)
Lemma read_loop_body (st : ReadState) (lines : list string) :
  buff st ≠ EmptyString →
  Forall (λ l, l ≠ EmptyString) lines →
  Forall (λ l, Py.contains "///" l = false) lines →
  read_loop st lines
  = {| buff := buff st +:+ text_of lines; processed := processed st |}.
Proof.
  intros Hb Hlines. revert st Hb.
  induction Hlines as [|l lines Hl _ IH]; intros st Hb Hno; cbn [read_loop].
  - unfold text_of. cbn [foldr]. rewrite string_app_empty_r. by destruct st.
  - apply Forall_cons in Hno as [Hno1 Hno].
    rewrite (proj2 (nonempty_spec l) Hl).
    rewrite (IH _ (read_step_buff st l Hl) Hno).
    rewrite (read_step_filled st l Hb), Hno1. cbn [buff processed].
    unfold text_of. cbn [foldr]. by rewrite string_app_assoc.
Qed.

End ReadingLoop.

(** X13: the loop that cuts the file into entries loses no text: the texts
    passed to [process_entry], in order, followed by the buffer left at the
    end, are the lines of the file.  [process_entry] is called once for
    each line after the first that contains the mark of a header. *)
Theorem read_file_keeps_text (first : string) (lines : list string) :
  Forall (λ l, l ≠ EmptyString) (first :: lines) →
  Brenda.text_of (Brenda.processed (Brenda.read_file (first :: lines)))
    +:+ Brenda.buff (Brenda.read_file (first :: lines))
  = Brenda.text_of (first :: lines)
  ∧ length (Brenda.processed (Brenda.read_file (first :: lines)))
    = length (List.filter (Py.contains "///") lines).
Proof.
  intros Hall. split.
  - unfold Brenda.read_file. by rewrite (read_loop_text _ _ Hall).
  - apply Forall_cons in Hall as [Hfirst Hlines].
    unfold Brenda.read_file. cbn [Brenda.read_loop].
    rewrite (proj2 (nonempty_spec first) Hfirst).
    rewrite read_loop_count; [|by apply read_step_buff|done].
    unfold Brenda.read_step. cbn. done.
Qed.

Lemma read_file_keeps_text_witness :
  Brenda.text_of
    (Brenda.processed (Brenda.read_file ["///x"; "a"; "///y"; "b"; "///"]))
    +:+ Brenda.buff (Brenda.read_file ["///x"; "a"; "///y"; "b"; "///"])
  = "///xa///yb///"
  ∧ length
      (Brenda.processed (Brenda.read_file ["///x"; "a"; "///y"; "b"; "///"]))
    = 2.
Proof.
  apply (read_file_keeps_text "///x" ["a"; "///y"; "b"; "///"]).
  repeat constructor; discriminate.
Defined.

(** X14: the last entry of the file is never passed to [process_entry]:
    the text from the last header line on is the buffer the loop ends
    with, and the last call is the one that line caused, on the text
    before it. *)
Theorem read_file_last_entry (before after : list string) (header : string) :
  Forall (λ l, l ≠ EmptyString) (before ++ header :: after) →
  before ≠ [] →
  Py.contains "///" header = true →
  Forall (λ l, Py.contains "///" l = false) after →
  Brenda.read_file (before ++ header :: after)
  = {| Brenda.buff := Brenda.text_of (header :: after);
       Brenda.processed :=
         Brenda.processed (Brenda.read_file before)
         ++ [Brenda.buff (Brenda.read_file before)] |}.
Proof.
  intros Hall Hbefore Hheader Hafter.
  apply Forall_app in Hall as [Hb Hall].
  apply Forall_cons in Hall as [Hh Ha].
  unfold Brenda.read_file. rewrite (read_loop_app _ _ _ Hb).
  set (st := Brenda.read_loop _ before).
  assert (Hst : Brenda.buff st ≠ EmptyString)
    by (apply read_loop_buff; [done|by right]).
  cbn [Brenda.read_loop]. rewrite (proj2 (nonempty_spec header) Hh).
  rewrite (read_loop_body _ after (read_step_buff st header Hh) Ha Hafter).
  by rewrite (read_step_filled st header Hst), Hheader.
Qed.

Lemma read_file_last_entry_witness :
  Brenda.read_file (["///x"; "a"] ++ "///y" :: ["b"])
  = {| Brenda.buff := "///yb"; Brenda.processed := ["///xa"] |}.
Proof.
  apply (read_file_last_entry ["///x"; "a"] ["b"] "///y").
  - repeat constructor; discriminate.
  - discriminate.
  - reflexivity.
  - repeat constructor.
Defined.

(** ** The rows of the entries *)

Section EntryRows.

Import Brenda.

Lemma add_entry_app (df : list Row) (reactions : option (list Row)) :
  add_entry df reactions = df ++ default [] reactions.
Proof.
  destruct reactions as [[|r rs]|]; cbn [add_entry default];
    rewrite ?app_nil_r; [done| |done].
  by destruct df.
Qed.

Lemma add_entry_fold (df : list Row) (entries : list (option (list Row))) :
  foldl add_entry df entries = df ++ concat (map (default []) entries).
Proof.
  revert df. induction entries as [|e entries IH]; intros df;
    cbn [foldl map concat].
  - by rewrite app_nil_r.
  - by rewrite IH, add_entry_app, (assoc_L (++)).
Qed.

Lemma sublist_bool_filter {A : Type} (f : A → bool) (l : list A) :
  List.filter f l `sublist_of` l.
Proof.
  induction l as [|x l IH]; cbn [List.filter]; [constructor|].
  destruct (f x); by constructor.
Qed.

Context {Cells : Type} `{EqDecision Cells}.
Variable astype_str : Row → Cells.

Lemma drop_duplicates_sublist (seen : list Cells) (df : list Row) :
  drop_duplicates astype_str seen df `sublist_of` df.
Proof.
  revert seen. induction df as [|r df IH]; intros seen;
    cbn [drop_duplicates]; [constructor|].
  case_bool_decide; constructor; apply IH.
Qed.

(** A row stays when its rendering has not been seen and no row before it
    has the same rendering. *)
Lemma drop_duplicates_first (seen : list Cells) (df : list Row) (i : nat)
    (r : Row) :
  df !! i = Some r → astype_str r ∉ seen →
  (∀ j r', j < i → df !! j = Some r' → astype_str r' ≠ astype_str r) →
  r ∈ drop_duplicates astype_str seen df.
Proof.
  revert seen i. induction df as [|r0 df IH]; intros seen i Hi Hseen Hfirst.
  - by rewrite lookup_nil in Hi.
  - cbn [drop_duplicates]. destruct i as [|i].
    + injection Hi as ->. rewrite bool_decide_eq_false_2 by done. by left.
    + assert (Hne : astype_str r0 ≠ astype_str r)
        by (apply (Hfirst 0 r0); [lia|done]).
      assert (Hrest : ∀ j r', j < i → df !! j = Some r' →
                              astype_str r' ≠ astype_str r).
      { intros j r' Hj Hr'. apply (Hfirst (S j) r'); [lia|done]. }
      case_bool_decide.
      * by apply (IH seen i).
      * right. apply (IH _ i); [done| |done].
        apply not_elem_of_cons. split; [congruence|done].
Qed.

(** Every row has a row with the same rendering among those that stay. *)
Lemma drop_duplicates_represented (seen : list Cells) (df : list Row) (r : Row) :
  r ∈ df → astype_str r ∉ seen →
  ∃ r', r' ∈ drop_duplicates astype_str seen df
        ∧ astype_str r' = astype_str r.
Proof.
  revert seen. induction df as [|r0 df IH]; intros seen Hr Hseen.
  - by apply elem_of_nil in Hr.
  - cbn [drop_duplicates]. case_bool_decide as H0.
    + apply elem_of_cons in Hr as [->|Hr]; [done|]. by apply IH.
    + destruct (decide (astype_str r0 = astype_str r)) as [Heq|Hne].
      * exists r0. split; [by left|done].
      * apply elem_of_cons in Hr as [->|Hr]; [done|].
        destruct (IH (astype_str r0 :: seen) Hr) as (r' & Hr' & Heq).
        { apply not_elem_of_cons. split; [congruence|done]. }
        exists r'. split; [by right|done].
Qed.

End EntryRows.

(** X15: before duplicates are dropped the data frame is the reaction lists
    of the entries one after the other, a skipped entry adding nothing; the
    final data frame is a subsequence of it, so rows are removed but never
    added or reordered. *)
Theorem parse_brenda_row_order {Cells : Type} `{EqDecision Cells}
    (astype_str : Brenda.Row → Cells)
    (entries : list (option (list Brenda.Row))) :
  foldl Brenda.add_entry [] entries = concat (map (default []) entries)
  ∧ (Brenda.parse_brenda astype_str entries).1
    `sublist_of` concat (map (default []) entries).
Proof.
  split; [apply (add_entry_fold [])|].
  unfold Brenda.parse_brenda. cbn [fst].
  rewrite (add_entry_fold []). cbn [app].
  etrans; [apply sublist_bool_filter|apply drop_duplicates_sublist].
Qed.

(** X16: of the rows with the same rendering the first one stays: a row
    whose rendering differs from that of every row before it is kept, and
    every row has a kept row with its rendering. *)
Theorem drop_duplicates_keeps_first {Cells : Type} `{EqDecision Cells}
    (astype_str : Brenda.Row → Cells) (df : list Brenda.Row) :
  (∀ i r, df !! i = Some r →
     (∀ j r', j < i → df !! j = Some r' → astype_str r' ≠ astype_str r) →
     r ∈ Brenda.drop_duplicates astype_str [] df)
  ∧ (∀ r, r ∈ df →
       ∃ r', r' ∈ Brenda.drop_duplicates astype_str [] df
             ∧ astype_str r' = astype_str r).
Proof.
  split.
  - intros i r Hi Hfirst.
    apply (drop_duplicates_first astype_str [] df i r Hi); [|done].
    by intros ?%elem_of_nil.
  - intros r Hr. apply drop_duplicates_represented; [done|].
    by intros ?%elem_of_nil.
Qed.

Lemma drop_duplicates_keeps_first_witness :
  Sample.row "A = D" ["A"] ["D"]
  ∈ Brenda.drop_duplicates (λ r, Brenda.R_RXN_TEXT r) []
      [Sample.row "A = B" ["A"] ["B"]; Sample.row "A = B" ["A"; "A"] ["B"];
       Sample.row "A = D" ["A"] ["D"]].
Proof.
  apply (proj1 (drop_duplicates_keeps_first (λ r, Brenda.R_RXN_TEXT r)
                  [Sample.row "A = B" ["A"] ["B"];
                   Sample.row "A = B" ["A"; "A"] ["B"];
                   Sample.row "A = D" ["A"] ["D"]]) 2).
  - reflexivity.
  - intros [|[|j]] r' Hj Hr'; [| |lia]; injection Hr' as <-; discriminate.
Defined.

(** ** The records of a line *)

Section Records.

Import Brenda.

Lemma insert_sorted_perm (x : string) (l : list string) :
  Py.insert_sorted x l ≡ₚ x :: l.
Proof.
  induction l as [|y l IH]; cbn [Py.insert_sorted]; [done|].
  destruct (String.leb x y); [done|]. rewrite IH. apply Permutation_swap.
Qed.

Lemma sorted_perm (l : list string) : Py.sorted l ≡ₚ l.
Proof.
  unfold Py.sorted. induction l as [|x l IH]; cbn [foldr]; [done|].
  by rewrite insert_sorted_perm, IH.
Qed.

Local Notation "'ordered'" := (Sorted (λ a b : string, String.leb a b = true)).

Lemma insert_sorted_ordered (x : string) (l : list string) :
  ordered l → ordered (Py.insert_sorted x l).
Proof.
  induction 1 as [|y l Hl IH Hy]; cbn [Py.insert_sorted].
  - by repeat constructor.
  - destruct (String.leb x y) eqn:Hxy.
    + constructor; [by constructor|by constructor].
    + constructor; [done|].
      assert (Hyx : String.leb y x = true)
        by (destruct (String.leb_total x y); congruence).
      destruct Hy as [|z l Hz]; cbn [Py.insert_sorted]; [by constructor|].
      destruct (String.leb x z); by constructor.
Qed.

Lemma sorted_ordered (l : list string) : ordered (Py.sorted l).
Proof.
  unfold Py.sorted. induction l as [|x l IH]; cbn [foldr]; [constructor|].
  by apply insert_sorted_ordered.
Qed.

(** Every row of a line is the record of one of its organism numbers. *)
Lemma process_line_records (enzymes : gmap string Enzyme) (ec_num : string)
    (h : Header) (org_nums : list string) (desc : string) (r : Row) :
  r ∈ process_line enzymes ec_num h org_nums desc →
  ∃ d org_num, org_num ∈ org_nums
    ∧ r = record_for enzymes ec_num desc h d org_num.
Proof.
  unfold process_line.
  set (two := Nat.eqb (Py.count "NAD(P)" desc) 2).
  set (desc1 := if two then Py.replace "NAD(P)" "NADP" desc else desc).
  set (desc2 := extract_reaction (Py.replace "NADP" "NAD" desc1)).
  set (desc3 := if Nat.eqb (Py.count "NAD(P)" desc1) 1 then _ else desc1).
  cbv zeta.
  destruct (rejected desc2), two; cbn [andb];
    try (by intros ?%elem_of_nil);
    destruct (rejected (extract_reaction desc3));
    rewrite ?elem_of_app, ?elem_of_map, ?elem_of_nil;
    intros Hr;
    repeat match type of Hr with
    | _ ∨ _ => destruct Hr as [Hr|Hr]
    | False => destruct Hr
    | ∃ _, _ => destruct Hr as (org_num & -> & Hin)
    end; eauto.
Qed.

Lemma process_line_length (enzymes : gmap string Enzyme) (ec_num : string)
    (h : Header) (org_nums : list string) (desc : string) :
  length (process_line enzymes ec_num h org_nums desc) = 0
  ∨ length (process_line enzymes ec_num h org_nums desc) = length org_nums
  ∨ (Py.count "NAD(P)" desc = 2
     ∧ length (process_line enzymes ec_num h org_nums desc)
       = 2 * length org_nums).
Proof.
  unfold process_line.
  destruct (Nat.eqb (Py.count "NAD(P)" desc) 2) eqn:Htwo.
  - apply Nat.eqb_eq in Htwo. cbv zeta.
    destruct (rejected _); cbn [andb]; [by left|].
    destruct (rejected _).
    + right. left. by rewrite length_map.
    + right. right. split; [done|]. rewrite length_app, !length_map. lia.
  - cbv zeta. cbn [andb].
    destruct (rejected _); [by left|].
    right. left. cbn [app]. by rewrite length_map.
Qed.

End Records.

(** X17: a line of a substrate/product section gives no row, one row per
    organism number, or, only when [NAD(P)] occurs exactly twice in it, two
    rows per organism number.  Every row carries the EC number of the
    entry, the description as it was before any [NAD(P)] was rewritten, and
    the flag of the section it came from. *)
Theorem process_line_rows_of_line (enzymes : gmap string Brenda.Enzyme)
    (ec_num : string) (h : Brenda.Header) (org_nums : list string)
    (desc : string) :
  (length (Brenda.process_line enzymes ec_num h org_nums desc) = 0
   ∨ length (Brenda.process_line enzymes ec_num h org_nums desc)
     = length org_nums
   ∨ (Py.count "NAD(P)" desc = 2
      ∧ length (Brenda.process_line enzymes ec_num h org_nums desc)
        = 2 * length org_nums))
  ∧ (∀ r, r ∈ Brenda.process_line enzymes ec_num h org_nums desc →
       Brenda.EC_NUM r = ec_num ∧ Brenda.ORIG_RXN_TEXT r = desc
       ∧ Brenda.NATURAL r
         = match h with
           | Brenda.NATURAL_SUBSTRATE_PRODUCT => true
           | Brenda.SUBSTRATE_PRODUCT => false
           end).
Proof.
  split; [apply process_line_length|].
  intros r (d & org_num & _ & ->)%process_line_records.
  unfold Brenda.record_for. destruct (enzymes !! org_num), h; done.
Qed.

Lemma process_line_rows_of_line_witness :
  length (Brenda.process_line ∅ "1.1.1.1" Brenda.SUBSTRATE_PRODUCT ["1"; "2"]
            "A + NAD(P)+ = B + NAD(P)H") = 4
  ∧ Forall (λ r, Brenda.ORIG_RXN_TEXT r = "A + NAD(P)+ = B + NAD(P)H")
      (Brenda.process_line ∅ "1.1.1.1" Brenda.SUBSTRATE_PRODUCT ["1"; "2"]
         "A + NAD(P)+ = B + NAD(P)H").
Proof.
  split; [vm_compute; reflexivity|].
  apply Forall_forall. intros r Hr.
  by apply (proj2 (process_line_rows_of_line ∅ "1.1.1.1"
                     Brenda.SUBSTRATE_PRODUCT ["1"; "2"]
                     "A + NAD(P)+ = B + NAD(P)H") r Hr).
Defined.

(** X18: a row of a line belongs to one of the organism numbers of the
    line.  When [parse_protein] stored an enzyme for that number the row
    has its organism and database, and its references in ascending order;
    otherwise the row has no organism, no references and no database. *)
Theorem process_line_organism (enzymes : gmap string Brenda.Enzyme)
    (ec_num : string) (h : Brenda.Header) (org_nums : list string)
    (desc : string) (r : Brenda.Row) :
  r ∈ Brenda.process_line enzymes ec_num h org_nums desc →
  ∃ org_num, org_num ∈ org_nums ∧
    match enzymes !! org_num with
    | Some e =>
        Brenda.ORGANISM r = Some (Brenda.organism e)
        ∧ Brenda.PROTEIN_REFS r ≡ₚ Brenda.ref_ids e
        ∧ Sorted (λ a b, String.leb a b = true) (Brenda.PROTEIN_REFS r)
        ∧ Brenda.PROTEIN_DB r = Brenda.protein_db e
    | None =>
        Brenda.ORGANISM r = None ∧ Brenda.PROTEIN_REFS r = []
        ∧ Brenda.PROTEIN_DB r = None
    end.
Proof.
  intros (d & org_num & Hin & ->)%process_line_records.
  exists org_num. split; [done|].
  unfold Brenda.record_for. destruct (enzymes !! org_num) as [e|]; [|done].
  cbn [Brenda.ORGANISM Brenda.PROTEIN_REFS Brenda.PROTEIN_DB].
  split; [done|]. split; [apply sorted_perm|].
  split; [apply sorted_ordered|done].
Qed.

Lemma process_line_organism_witness :
  ∃ org_num, org_num ∈ ["7"] ∧
    match ({[ "7" := Brenda.mkEnzyme "Homo sapiens" ["9"; "12"; "3"] None ]}
             : gmap string Brenda.Enzyme) !! org_num with
    | Some e =>
        Some "Homo sapiens" = Some (Brenda.organism e)
        ∧ ["12"; "3"; "9"] ≡ₚ Brenda.ref_ids e
        ∧ Sorted (λ a b, String.leb a b = true) ["12"; "3"; "9"]
        ∧ None = Brenda.protein_db e
    | None =>
        Some "Homo sapiens" = None ∧ ["12"; "3"; "9"] = []
        ∧ (None : option string) = None
    end.
Proof.
  apply (process_line_organism
           {[ "7" := Brenda.mkEnzyme "Homo sapiens" ["9"; "12"; "3"] None ]}
           "1.1.1.1" Brenda.SUBSTRATE_PRODUCT ["7"] "A = B"
           (Brenda.mkRow "1.1.1.1" ["A"] ["B"] "A = B" "?" "A = B" false
              (Some "Homo sapiens") ["12"; "3"; "9"] None)).
  vm_compute. left.
Defined.

(** ** Texts without an occurrence *)

Section Occurrences.

Import Py.

Lemma contains_cons (p : string) (c : ascii) (s : string) :
  contains p (String c s) = startswith p (String c s) || contains p s.
Proof. reflexivity. Qed.

Lemma contains_empty (p : string) :
  contains p EmptyString = startswith p EmptyString.
Proof. cbn [contains]. by rewrite orb_false_r. Qed.

Lemma replace_absent (old new s : string) :
  contains old s = false → replace old new s = s.
Proof.
  unfold replace. induction s as [|c s IH]; [done|].
  rewrite contains_cons. intros [Hhere Hs]%orb_false_iff.
  cbn [replace_from]. by rewrite Hhere, (IH Hs).
Qed.

Lemma split_once_absent (sep s : string) :
  contains sep s = false → split_once sep s = (s, None).
Proof.
  induction s as [|c s IH].
  - rewrite contains_empty. intros Hs. cbn [split_once]. by rewrite Hs.
  - rewrite contains_cons. intros [Hhere Hs]%orb_false_iff.
    cbn [split_once]. by rewrite Hhere, (IH Hs).
Qed.

End Occurrences.

(** X19: an equation text in which the separator of the two sides does
    not occur has no products, and all of it is read as the substrate
    side. *)
Theorem extract_reaction_one_side (rxn : string) :
  Py.contains " = " (Brenda.RXN_TEXT (Brenda.extract_reaction rxn)) = false →
  Brenda.PRODUCTS (Brenda.extract_reaction rxn) = []
  ∧ Brenda.SUBSTRATES (Brenda.extract_reaction rxn)
    = Brenda.expand_coefficients
        (Brenda.split_compounds (Brenda.RXN_TEXT (Brenda.extract_reaction rxn))).
Proof.
  unfold Brenda.extract_reaction.
  cbn [Brenda.RXN_TEXT Brenda.PRODUCTS Brenda.SUBSTRATES].
  intros Hno. unfold Brenda.product_names, Brenda.substrate_names.
  rewrite (split_once_absent _ _ Hno). cbn [fst snd default]. done.
Qed.

Lemma extract_reaction_one_side_witness :
  Brenda.PRODUCTS (Brenda.extract_reaction "A + 2 B {r}") = []
  ∧ Brenda.SUBSTRATES (Brenda.extract_reaction "A + 2 B {r}")
    = Brenda.expand_coefficients
        (Brenda.split_compounds
           (Brenda.RXN_TEXT (Brenda.extract_reaction "A + 2 B {r}"))).
Proof.
  apply (extract_reaction_one_side "A + 2 B {r}").
  vm_compute. reflexivity.
Defined.

(** X20: the test before each cofactor repair changes nothing: a repair is
    the plain replacement of the spelling, and a text none of the listed
    spellings occurs in is left as it is. *)
Theorem fix_nad_replaces (rxn : string) :
  Brenda.fix_nad rxn
  = foldl (λ r fix_, Py.replace fix_.1 fix_.2 r) rxn Brenda.nad_fixes
  ∧ (Forall (λ fix_ : string * string, Py.contains fix_.1 rxn = false)
       Brenda.nad_fixes →
     Brenda.fix_nad rxn = rxn).
Proof.
  unfold Brenda.fix_nad. split.
  - generalize Brenda.nad_fixes. intros l. revert rxn.
    induction l as [|f l IH]; intros rxn; cbn [foldl]; [done|].
    rewrite IH. f_equal. unfold Brenda.apply_fix.
    destruct (Py.contains f.1 rxn) eqn:Hc; [done|].
    by rewrite (replace_absent _ _ _ Hc).
  - generalize Brenda.nad_fixes. intros l.
    induction 1 as [|f l Hf _ IH]; cbn [foldl]; [done|].
    unfold Brenda.apply_fix at 2. by rewrite Hf.
Qed.

Lemma fix_nad_replaces_witness :
  Brenda.fix_nad "ethanol + NAD+ = acetaldehyde + NADH + H+"
  = "ethanol + NAD+ = acetaldehyde + NADH + H+".
Proof.
  apply (proj2 (fix_nad_replaces "ethanol + NAD+ = acetaldehyde + NADH + H+")).
  apply (bool_decide_unpack _). vm_compute. exact I.
Defined.

(** ** Stripped texts *)

Section Stripped.

Import Py Brenda.

Lemma lstrip_stops (s : string) : stops is_space (lstrip s).
Proof.
  induction s as [|c s IH]; cbn [lstrip]; [done|].
  destruct (is_space c) eqn:Hc; [done|]. exact Hc.
Qed.

Lemma rstrip_head (c : ascii) (s : string) :
  is_space c = false → ∃ t, rstrip (String c s) = String c t.
Proof.
  intros Hc. cbn [rstrip]. destruct (rstrip s); [|by eexists].
  rewrite Hc. by eexists.
Qed.

Lemma rstrip_cases (s : string) :
  rstrip s = EmptyString
  ∨ ∃ t d, rstrip s = t +:+ String d EmptyString ∧ is_space d = false.
Proof.
  induction s as [|c s IH]; cbn [rstrip]; [by left|].
  destruct IH as [->|(t & d & -> & Hd)].
  - destruct (is_space c) eqn:Hc; [by left|].
    right. exists EmptyString, c. done.
  - right. exists (String c t), d. split; [|done]. by destruct t.
Qed.

(** A stripped text is empty or begins and ends with a character that is
    not white space. *)
Lemma strip_shape (s : string) :
  strip s = EmptyString
  ∨ ∃ c, is_space c = false
      ∧ (strip s = String c EmptyString
         ∨ ∃ m d, strip s = String c (m +:+ String d EmptyString)
                  ∧ is_space d = false).
Proof.
  unfold strip. pose proof (lstrip_stops s) as Hstop.
  destruct (lstrip s) as [|c u]; [by left|]. cbn [stops] in Hstop.
  destruct (rstrip_head c u Hstop) as [t Ht].
  destruct (rstrip_cases (String c u)) as [He|(t' & d & He & Hd)];
    [congruence|].
  right. exists c. split; [done|]. rewrite He. rewrite He in Ht.
  destruct t' as [|c' t'].
  - left. cbn in Ht. injection Ht as -> <-. done.
  - right. cbn in Ht. injection Ht as -> <-. exists t', d. done.
Qed.

Lemma strip_solid (c : ascii) (m : string) (d : ascii) :
  is_space c = false → is_space d = false →
  strip (String c EmptyString) = String c EmptyString
  ∧ strip (String c (m +:+ String d EmptyString))
    = String c (m +:+ String d EmptyString).
Proof.
  intros Hc Hd. unfold strip. cbn [lstrip]. rewrite Hc. split.
  - cbn [rstrip]. by rewrite Hc.
  - exact (rstrip_ends_solid (String c m) d Hd).
Qed.

Lemma not_space_not_char (a c : ascii) :
  is_space a = true → is_space c = false → Ascii.eqb a c = false.
Proof.
  intros Ha Hc. destruct (Ascii.eqb_spec a c) as [->|]; [congruence|done].
Qed.

Lemma sub_trailing_plus_head (c : ascii) (s : string) :
  is_space c = false → ∃ t, sub_trailing_plus (String c s) = String c t.
Proof.
  intros Hc. cbn [sub_trailing_plus String.eqb].
  rewrite (Ascii.eqb_sym c), (not_space_not_char " " c eq_refl Hc).
  cbn [andb]. by eexists.
Qed.

(** Replacing one character by another goes character by character. *)
Lemma replace_newline_cons (c : ascii) (s : string) :
  replace newline " " (String c s)
  = String (if is_char "010" c then " "%char else c) (replace newline " " s).
Proof.
  unfold replace, newline, is_char. cbn [replace_from startswith].
  destruct (Ascii.eqb "010" c); [|done].
  destruct s; reflexivity.
Qed.

Lemma replace_newline_app (a b : string) :
  replace newline " " (a +:+ b)
  = replace newline " " a +:+ replace newline " " b.
Proof.
  induction a as [|c a IH]; [done|].
  change (String c a +:+ b) with (String c (a +:+ b)).
  by rewrite !replace_newline_cons, IH.
Qed.

Lemma replace_newline_free (s : string) :
  contains newline (replace newline " " s) = false.
Proof.
  induction s as [|c s IH]; [done|].
  rewrite replace_newline_cons, contains_cons, IH, orb_false_r.
  unfold newline, is_char. cbn [startswith].
  destruct (Ascii.eqb "010" c) eqn:Hc; [done|]. by rewrite Hc.
Qed.

Lemma replace_newline_solid (c : ascii) :
  is_space c = false →
  replace newline " " (String c EmptyString) = String c EmptyString.
Proof.
  intros Hc. rewrite replace_newline_cons. unfold is_char.
  by rewrite (not_space_not_char "010" c eq_refl Hc).
Qed.

(** Components of a text cut at a character. *)
Lemma split_from_nonempty (sep : string) (skip : nat) (s : string) :
  split_from sep skip s ≠ [].
Proof.
  revert skip. induction s as [|c s IH]; intros skip; cbn [split_from];
    [done|].
  destruct skip; [|apply IH].
  destruct (startswith sep (String c s)); [done|].
  by destruct (split_from sep 0 s).
Qed.

Lemma split_all_chars (P : ascii → bool) (sep : string) (skip : nat)
    (s : string) :
  all_chars P s = true →
  Forall (λ x, all_chars P x = true) (split_from sep skip s).
Proof.
  revert skip. induction s as [|c s IH]; intros skip; cbn [split_from].
  - intros _. by repeat constructor.
  - cbn [all_chars]. intros [Hc Hs]%andb_true_iff.
    destruct skip; [|by apply IH].
    destruct (startswith sep (String c s)).
    + constructor; [done|by apply IH].
    + pose proof (IH 0 Hs) as Hall.
      destruct (split_from sep 0 s) as [|t ts].
      * repeat constructor. cbn [all_chars]. by rewrite Hc.
      * apply Forall_cons in Hall as [Ht Hts].
        constructor; [|done]. cbn [all_chars]. by rewrite Hc, Ht.
Qed.

Lemma split_char_free (a : ascii) (s : string) :
  Forall (λ x, all_chars (λ c, negb (Ascii.eqb a c)) x = true)
         (split (String a EmptyString) s).
Proof.
  unfold split. induction s as [|c s IH]; cbn [split_from startswith].
  - by repeat constructor.
  - destruct (Ascii.eqb a c) eqn:Hc.
    + replace (startswith EmptyString s) with true by (by destruct s).
      constructor; [done|]. exact IH.
    + destruct (split_from (String a EmptyString) 0 s) as [|t ts].
      * repeat constructor. cbn [all_chars]. by rewrite Hc.
      * apply Forall_cons in IH as [Ht Hts].
        constructor; [|done]. cbn [all_chars]. by rewrite Hc, Ht.
Qed.

Lemma take_eq_startswith (p s : string) :
  take (String.length p) s = p → startswith p s = true.
Proof.
  revert s. induction p as [|a p IH]; intros s; [done|].
  destruct s as [|b s]; [done|]. cbn [String.length take startswith].
  intros [= -> Hp]. rewrite Ascii.eqb_refl. by apply IH.
Qed.

End Stripped.

(** X21: the names a side of an equation is cut into are not empty and do
    not begin with white space. *)
Theorem split_compounds_names (side x : string) :
  x ∈ Brenda.split_compounds side →
  x ≠ EmptyString ∧ Py.stops Py.is_space x.
Proof.
  unfold Brenda.split_compounds.
  intros (i & -> & [_ Hi]%elem_of_bool_filter)%elem_of_map.
  destruct (strip_shape i) as [He|(c & Hc & Hs)].
  - rewrite He in Hi. done.
  - assert (∃ u, Py.strip i = String c u) as [u ->].
    { destruct Hs as [->|(m & d & -> & _)]; by eexists. }
    destruct (sub_trailing_plus_head c u Hc) as [t ->]. done.
Qed.

Lemma split_compounds_names_witness :
  "B" ≠ EmptyString ∧ Py.stops Py.is_space "B".
Proof.
  apply (split_compounds_names "A +   B  + " "B").
  vm_compute. right. left.
Defined.

(** X22: every line [entry_lines] yields is not empty, has no line break
    in it, and has no white space at either end. *)
Theorem entry_lines_clean (body tag line : string) :
  line ∈ Brenda.entry_lines body tag →
  line ≠ EmptyString
  ∧ Py.contains Brenda.newline line = false
  ∧ Py.strip line = line.
Proof.
  unfold Brenda.entry_lines.
  intros [(l & -> & _)%elem_of_map Hne%nonempty_spec]%elem_of_bool_filter.
  fold Brenda.newline in *.
  split; [done|]. split; [apply replace_newline_free|].
  destruct (strip_shape l) as [He|(c & Hc & [Hs|(m & d & Hs & Hd)])];
    rewrite Hs || rewrite He; [done| |].
  - rewrite (replace_newline_solid c Hc).
    by apply (strip_solid c EmptyString c).
  - change (String c (m +:+ String d EmptyString))
      with (String c EmptyString +:+ m +:+ String d EmptyString).
    rewrite !replace_newline_app, !(replace_newline_solid _ Hc),
      !(replace_newline_solid _ Hd).
    by apply (strip_solid c _ d).
Qed.

Lemma entry_lines_clean_witness :
  "#1# A + B = C" ≠ EmptyString
  ∧ Py.contains Brenda.newline "#1# A + B = C" = false
  ∧ Py.strip "#1# A + B = C" = "#1# A + B = C".
Proof.
  apply (entry_lines_clean
           (String "S" (String "P" (String "009" ("#1# A + B" +:+
              String "010" (String "009" ("= C" +:+ String "010"
                EmptyString))))))
           "SP" "#1# A + B = C").
  vm_compute. left.
Defined.

(** X23: when [process_entry] goes on to the sections of an entry, the
    entry begins with the mark of a header, there is at least one section,
    and the EC number has no blank, tabulator or line break in it. *)
Theorem process_entry_head_ec_num (brenda_entry ec_num : string)
    (cats : list string) :
  Brenda.process_entry_head brenda_entry = Brenda.Head ec_num cats →
  Py.startswith "///" brenda_entry = true
  ∧ cats ≠ []
  ∧ Py.all_chars (λ c, negb (Ascii.eqb " " c)) ec_num = true
  ∧ Py.all_chars (λ c, negb (Ascii.eqb "009" c)) ec_num = true
  ∧ Py.all_chars (λ c, negb (Ascii.eqb "010" c)) ec_num = true.
Proof.
  unfold Brenda.process_entry_head.
  destruct (String.eqb "///" (Brenda.take 3 brenda_entry)) eqn:Hmark;
    cbn [negb]; [|done].
  apply String.eqb_eq in Hmark. cbv zeta.
  set (text := Py.strip _).
  set (cs := Py.split _ text).
  pose proof (split_char_free "010" (hd EmptyString cs)) as Hlines.
  destruct (Py.split (String "010" EmptyString) (hd EmptyString cs))
    as [|l0 [|line ls]]; [done|done|].
  apply Forall_cons in Hlines as [_ Hlines].
  apply Forall_cons in Hlines as [Hline _].
  pose proof (split_char_free "009" line) as Hcells.
  pose proof (split_all_chars _ (String "009" EmptyString) 0 line Hline)
    as Hcells'.
  fold (Py.split (String "009" EmptyString) line) in Hcells'.
  destruct (Py.split (String "009" EmptyString) line)
    as [|c0 [|ec_num_text cells]]; [done|done|].
  apply Forall_cons in Hcells as [_ Hcells].
  apply Forall_cons in Hcells as [Htab _].
  apply Forall_cons in Hcells' as [_ Hcells'].
  apply Forall_cons in Hcells' as [Hnl _].
  destruct (_ || _); [done|]. intros [= <- <-].
  split; [by apply (take_eq_startswith "///")|].
  split; [apply split_from_nonempty|].
  pose proof (split_char_free " " ec_num_text) as Hblank.
  pose proof (split_all_chars _ " " 0 ec_num_text Htab) as Htab'.
  pose proof (split_all_chars _ " " 0 ec_num_text Hnl) as Hnl'.
  fold (Py.split " " ec_num_text) in Htab', Hnl'.
  destruct (Py.split " " ec_num_text) as [|ec rest]; [done|].
  apply Forall_cons in Hblank as [Hblank _].
  apply Forall_cons in Htab' as [Htab' _].
  apply Forall_cons in Hnl' as [Hnl' _].
  done.
Qed.

Lemma process_entry_head_ec_num_witness :
  Py.startswith "///"
    ("///" +:+ String "010" ("ID" +:+ String "009" ("1.1.1.1 (old)" +:+
       String "010" (String "010" ("PROTEIN" +:+ String "010" "PR")))))
  = true
  ∧ ["///" +:+ String "010" ("ID" +:+ String "009" "1.1.1.1 (old)");
     "PROTEIN" +:+ String "010" "PR"] ≠ []
  ∧ Py.all_chars (λ c, negb (Ascii.eqb " " c)) "1.1.1.1" = true
  ∧ Py.all_chars (λ c, negb (Ascii.eqb "009" c)) "1.1.1.1" = true
  ∧ Py.all_chars (λ c, negb (Ascii.eqb "010" c)) "1.1.1.1" = true.
Proof.
  apply (process_entry_head_ec_num
           ("///" +:+ String "010" ("ID" +:+ String "009" ("1.1.1.1 (old)" +:+
              String "010" (String "010" ("PROTEIN" +:+ String "010" "PR")))))
           "1.1.1.1").
  vm_compute. reflexivity.
Defined.
